(** * The sequential-thinking session of the MCP test server

    A shallow embedding of class [SequentialThinkingServer] (server2.ts:
    [validateThoughtData], [formatThought], [processThought]) and the
    properties of its session state: the thought history, the branch index
    and the response envelopes.

    JavaScript values are modelled as they are at run time: numbers are
    IEEE-754 doubles ([PrimFloat.float]), strings are sequences of UTF-16
    code units, objects are association lists of own properties in creation
    order.  The thought records are heap objects: the history and the branch
    arrays hold references to them, as the arrays of the source do. *)

From Stdlib Require Import String Ascii.
From Stdlib Require Import List NArith Bool Arith Lia.
From Stdlib Require Import PrimFloat.
From Stdlib Require Import ZArith SpecFloat FloatOps FloatAxioms.
From Stdlib Require Import Sorted Permutation.
Import ListNotations.

Set Warnings "-register-all".

(** ** JavaScript strings *)

(** A string is its sequence of UTF-16 code units (each below 65536), so that
    [length] is the [.length] of the source. *)
Definition code_unit := N.
Definition jsstring := list code_unit.

(** The code units of an ASCII literal. *)
Fixpoint u (s : string) : jsstring :=
  match s with
  | EmptyString => []
  | String c rest => N_of_ascii c :: u rest
  end.

Fixpoint jsstring_eqb (a b : jsstring) : bool :=
  match a, b with
  | [], [] => true
  | x :: a', y :: b' => N.eqb x y && jsstring_eqb a' b'
  | _, _ => false
  end.

(** [String.prototype.repeat]. *)
Fixpoint repeat_str (s : jsstring) (n : nat) : jsstring :=
  match n with
  | O => []
  | S n' => s ++ repeat_str s n'
  end.

(** [String.prototype.padEnd] with the default filler, a space: a string
    that is already long enough is returned as it is. *)
Definition padEnd (s : jsstring) (targetLength : nat) : jsstring :=
  s ++ repeat 32%N (targetLength - length s).

(** [String.prototype.padStart], the padding the source does not use. *)
Definition padStart (s : jsstring) (targetLength : nat) : jsstring :=
  repeat 32%N (targetLength - length s) ++ s.

(** ** JavaScript values *)

Inductive JsValue : Type :=
| JUndefined
| JNull
| JBool (b : bool)
| JNumber (x : float)
| JString (s : jsstring)
| JArray (elems : list JsValue)
| JObject (props : list (jsstring * JsValue)).

(** Thrown values.  The source throws [new Error(message)]; the engine throws
    [TypeError]s.  Both are instances of [Error] and carry a message. *)
Inductive JsError : Type :=
| Error (message : jsstring)
| TypeError (message : jsstring).

Definition message (e : JsError) : jsstring :=
  match e with
  | Error m => m
  | TypeError m => m
  end.

(** A computation that returns or throws. *)
Inductive JsResult (A : Type) : Type :=
| Ok (a : A)
| Throw (e : JsError).
Arguments Ok {A} a.
Arguments Throw {A} e.

(** The [typeof] operator. *)
Inductive TypeTag := TUndefined | TObject | TBoolean | TNumber | TString.

Definition typeof (v : JsValue) : TypeTag :=
  match v with
  | JUndefined => TUndefined
  | JNull => TObject
  | JBool _ => TBoolean
  | JNumber _ => TNumber
  | JString _ => TString
  | JArray _ => TObject
  | JObject _ => TObject
  end.

Definition TypeTag_eqb (a b : TypeTag) : bool :=
  match a, b with
  | TUndefined, TUndefined | TObject, TObject | TBoolean, TBoolean
  | TNumber, TNumber | TString, TString => true
  | _, _ => false
  end.

(** A number is falsy when it is [+0], [-0] or [NaN]. *)
Definition number_truthy (x : float) : bool :=
  negb (PrimFloat.eqb x 0%float) && PrimFloat.eqb x x.

(** [ToBoolean]: what [if (v)], [!v] and [&&] test. *)
Definition ToBoolean (v : JsValue) : bool :=
  match v with
  | JUndefined => false
  | JNull => false
  | JBool b => b
  | JNumber x => number_truthy x
  | JString s => negb (Nat.eqb (length s) 0)
  | JArray _ => true
  | JObject _ => true
  end.

(** The [>] of two numbers. *)
Definition gt (x y : float) : bool := PrimFloat.ltb y x.

(** Own property lookup in creation order. *)
Fixpoint own_lookup {A : Type} (key : jsstring) (props : list (jsstring * A))
  : option A :=
  match props with
  | [] => None
  | (k, v) :: rest => if jsstring_eqb k key then Some v else own_lookup key rest
  end.

(** ** The host: what the engine and the [chalk] package supply

    [Number_toString] is Number::toString of ECMAScript; [Object_toString] is
    ToString on an object or array (it throws a [TypeError] when neither
    [toString] nor [valueOf] of the object gives a primitive value);
    the three colour functions are chalk's, whose output depends on the
    colour support of the terminal; the two messages are the texts the
    engine puts in its [TypeError]s. *)
Record Host : Type := {
  Number_toString : float -> jsstring;
  Object_toString : JsValue -> JsResult jsstring;
  chalk_yellow : jsstring -> jsstring;
  chalk_green : jsstring -> jsstring;
  chalk_blue : jsstring -> jsstring;
  nullish_read_message : JsValue -> jsstring -> jsstring;
  not_a_function_message : jsstring -> jsstring
}.

Definition bind_result {A B : Type} (r : JsResult A) (k : A -> JsResult B)
  : JsResult B :=
  match r with
  | Ok a => k a
  | Throw e => Throw e
  end.

(** ** The thought record *)

(** [interface ThoughtData].  The four required fields have the types the
    validator checks; the optional ones hold whatever the input held, since
    the validator passes them through with a type assertion only. *)
Record ThoughtData : Type := {
  thought : jsstring;
  thoughtNumber : float;
  totalThoughts : float;
  isRevision : JsValue;
  revisesThought : JsValue;
  branchFromThought : JsValue;
  branchId : JsValue;
  needsMoreThoughts : JsValue;
  nextThoughtNeeded : bool
}.

(** Narrowing after a [typeof] test: the payload of a value known to be a
    string, a number or a boolean. *)
Definition the_string (v : JsValue) : jsstring :=
  match v with JString s => s | _ => [] end.
Definition the_number (v : JsValue) : float :=
  match v with JNumber x => x | _ => PrimFloat.nan end.
Definition the_boolean (v : JsValue) : bool :=
  match v with JBool b => b | _ => false end.

(** The literals of [formatThought] that are not ASCII: the three emoji of
    the labels and the box-drawing characters. *)
Record Glyphs : Type := {
  emoji_revision : jsstring;
  emoji_branch : jsstring;
  emoji_thought : jsstring;
  horizontal : jsstring;
  top_left : jsstring;
  top_right : jsstring;
  vertical : jsstring;
  tee_left : jsstring;
  tee_right : jsstring;
  bottom_left : jsstring;
  bottom_right : jsstring
}.

(** The literals as server2.ts has them: each is the UTF-8 encoding of the
    intended character read as Mac Roman, so an emoji is four code units and
    a box-drawing character three. *)
Definition ts_glyphs : Glyphs := {|
  emoji_revision := [0xF8FF; 0xFC; 0xEE; 0xD1]%N;
  emoji_branch := [0xF8FF; 0xFC; 0xE5; 0xF8]%N;
  emoji_thought := [0xF8FF; 0xFC; 0xED; 0x2260]%N;
  horizontal := [0x201A; 0xEE; 0xC4]%N;
  top_left := [0x201A; 0xEE; 0xE5]%N;
  top_right := [0x201A; 0xEE; 0xEA]%N;
  vertical := [0x201A; 0xEE; 0xC7]%N;
  tee_left := [0x201A; 0xEE; 0xFA]%N;
  tee_right := [0x201A; 0xEE; 0xA7]%N;
  bottom_left := [0x201A; 0xEE; 0xEE]%N;
  bottom_right := [0x201A; 0xEE; 0xF2]%N
|}.

(** The literals as the compiled server2.js has them: U+1F504, U+1F33F and
    U+1F4AD as surrogate pairs, and U+2500, U+250C, U+2510, U+2502, U+251C,
    U+2524, U+2514, U+2518. *)
Definition js_glyphs : Glyphs := {|
  emoji_revision := [0xD83D; 0xDD04]%N;
  emoji_branch := [0xD83C; 0xDF3F]%N;
  emoji_thought := [0xD83D; 0xDCAD]%N;
  horizontal := [0x2500]%N;
  top_left := [0x250C]%N;
  top_right := [0x2510]%N;
  vertical := [0x2502]%N;
  tee_left := [0x251C]%N;
  tee_right := [0x2524]%N;
  bottom_left := [0x2514]%N;
  bottom_right := [0x2518]%N
|}.

(** *** A host for the examples

    Colours are off (chalk's level 0 returns its argument).  An integer from
    0 to 999 prints in decimal and the two infinities print [Infinity] and
    [-Infinity], as Number::toString prints them; the example inputs hold no
    other number, for which this host prints [NaN]. *)
Fixpoint decimal (fuel n : nat) (acc : jsstring) : jsstring :=
  match fuel with
  | O => acc
  | S fuel' =>
      let acc' := (48 + N.of_nat (n mod 10))%N :: acc in
      if Nat.eqb (n / 10) 0 then acc' else decimal fuel' (n / 10) acc'
  end.

Fixpoint small_integer (fuel n : nat) (candidate x : float) : option nat :=
  match fuel with
  | O => None
  | S fuel' =>
      if PrimFloat.eqb candidate x then Some n
      else small_integer fuel' (S n) (PrimFloat.add candidate 1%float) x
  end.

Definition example_Number_toString (x : float) : jsstring :=
  match small_integer 1000 0 0%float x with
  | Some n => decimal 4 n []
  | None =>
      if PrimFloat.eqb x PrimFloat.infinity then u "Infinity"
      else if PrimFloat.eqb x PrimFloat.neg_infinity then u "-Infinity"
      else u "NaN"
  end.

(** ToString as the engine does it on parsed JSON: an array is its elements
    joined by commas, [null] and [undefined] elements being empty; a plain
    object is [[object Object]], unless an own [toString] property (never a
    function in parsed JSON) hides the inherited method, and then the
    conversion throws. *)
Fixpoint example_ToString (v : JsValue) : JsResult jsstring :=
  match v with
  | JUndefined => Ok (u "undefined")
  | JNull => Ok (u "null")
  | JBool true => Ok (u "true")
  | JBool false => Ok (u "false")
  | JNumber x => Ok (example_Number_toString x)
  | JString s => Ok s
  | JArray elems =>
      (fix join (l : list JsValue) : JsResult jsstring :=
         match l with
         | [] => Ok []
         | x :: rest =>
             bind_result
               (match x with
                | JUndefined | JNull => Ok []
                | _ => example_ToString x
                end)
               (fun first =>
                match rest with
                | [] => Ok first
                | _ :: _ =>
                    bind_result (join rest) (fun others =>
                    Ok (first ++ u "," ++ others))
                end)
         end) elems
  | JObject props =>
      match own_lookup (u "toString") props with
      | None => Ok (u "[object Object]")
      | Some _ =>
          Throw (TypeError (u "Cannot convert object to primitive value"))
      end
  end.

Definition example_host : Host := {|
  Number_toString := example_Number_toString;
  Object_toString := example_ToString;
  chalk_yellow := fun s => s;
  chalk_green := fun s => s;
  chalk_blue := fun s => s;
  nullish_read_message := fun v key =>
    u "Cannot read properties of "
    ++ match v with JNull => u "null" | _ => u "undefined" end
    ++ u " (reading '" ++ key ++ u "')";
  not_a_function_message := fun key =>
    u "this.branches[validatedInput.branchId].push is not a function"
|}.

(** ** The session state *)

(** A reference to a thought record on the heap. *)
Definition ref := nat.

(** [thoughtHistory] and [branches] are the two private fields of the class;
    [branches] is a plain object used as a map, kept as its own properties in
    creation order.  [heap] holds the thought records the arrays refer to, and
    [console] what [Logger.log] has written. *)
Record State : Type := {
  heap : list ThoughtData;
  thoughtHistory : list ref;
  branches : list (jsstring * list ref);
  console : list jsstring
}.

(** The state of a new [SequentialThinkingServer]. *)
Definition initial_state : State :=
  {| heap := []; thoughtHistory := []; branches := []; console := [] |}.

(** A statement: it runs on the state and returns or throws; what it changed
    before throwing stays changed. *)
Definition M (A : Type) : Type := State -> JsResult A * State.

Definition ret {A : Type} (a : A) : M A := fun s => (Ok a, s).

Definition bind {A B : Type} (m : M A) (k : A -> M B) : M B :=
  fun s =>
    match m s with
    | (Ok a, s') => k a s'
    | (Throw e, s') => (Throw e, s')
    end.

Definition lift {A : Type} (r : JsResult A) : M A := fun s => (r, s).

Notation "x <- m ;; k" := (bind m (fun x => k))
  (at level 61, m at next level, right associativity).
Notation "m ;;; k" := (bind m (fun _ => k))
  (at level 61, right associativity).

(** What an unallocated reference reads as; no reference of the program is
    ever unallocated. *)
Definition blank : ThoughtData :=
  {| thought := []; thoughtNumber := PrimFloat.nan; totalThoughts := PrimFloat.nan;
     isRevision := JUndefined; revisesThought := JUndefined;
     branchFromThought := JUndefined; branchId := JUndefined;
     needsMoreThoughts := JUndefined; nextThoughtNeeded := false |}.

(** Allocation of an object literal. *)
Definition alloc (o : ThoughtData) : M ref :=
  fun s => (Ok (length (heap s)),
            {| heap := heap s ++ [o]; thoughtHistory := thoughtHistory s;
               branches := branches s; console := console s |}).

(** Reading the object behind a reference. *)
Definition deref (a : ref) : M ThoughtData :=
  fun s => (Ok (nth a (heap s) blank), s).

Definition with_totalThoughts (o : ThoughtData) (x : float) : ThoughtData :=
  {| thought := thought o; thoughtNumber := thoughtNumber o; totalThoughts := x;
     isRevision := isRevision o; revisesThought := revisesThought o;
     branchFromThought := branchFromThought o; branchId := branchId o;
     needsMoreThoughts := needsMoreThoughts o;
     nextThoughtNeeded := nextThoughtNeeded o |}.

Fixpoint update_nth {A : Type} (n : nat) (f : A -> A) (l : list A) : list A :=
  match l, n with
  | [], _ => []
  | x :: rest, O => f x :: rest
  | x :: rest, S n' => x :: update_nth n' f rest
  end.

(** The assignment [a.totalThoughts = x]. *)
Definition set_totalThoughts (a : ref) (x : float) : M unit :=
  fun s => (Ok tt,
            {| heap := update_nth a (fun o => with_totalThoughts o x) (heap s);
               thoughtHistory := thoughtHistory s;
               branches := branches s; console := console s |}).

(** [this.thoughtHistory.push(a)]. *)
Definition thoughtHistory_push (a : ref) : M unit :=
  fun s => (Ok tt,
            {| heap := heap s; thoughtHistory := thoughtHistory s ++ [a];
               branches := branches s; console := console s |}).

(** [this.thoughtHistory.length]. *)
Definition thoughtHistory_length : M nat :=
  fun s => (Ok (length (thoughtHistory s)), s).

(** [Logger.log(text)]. *)
Definition Logger_log (text : jsstring) : M unit :=
  fun s => (Ok tt,
            {| heap := heap s; thoughtHistory := thoughtHistory s;
               branches := branches s; console := console s ++ [text] |}).

(** *** The [branches] object *)

(** The properties every plain object inherits from [Object.prototype]; each
    is a function (or, for [__proto__], the prototype object): truthy, and
    without a [push] method. *)
Definition Object_prototype_properties : list jsstring :=
  map u ["constructor"; "__defineGetter__"; "__defineSetter__";
         "hasOwnProperty"; "__lookupGetter__"; "__lookupSetter__";
         "isPrototypeOf"; "propertyIsEnumerable"; "toString"; "valueOf";
         "__proto__"; "toLocaleString"]%string.

Definition is_inherited (key : jsstring) : bool :=
  existsb (jsstring_eqb key) Object_prototype_properties.

(** What [this.branches[key]] evaluates to. *)
Inductive BranchSlot : Type :=
| OwnArray (items : list ref)
| Inherited
| Absent.

Definition slot_truthy (v : BranchSlot) : bool :=
  match v with
  | OwnArray _ => true
  | Inherited => true
  | Absent => false
  end.

Definition branch_slot (key : jsstring) (props : list (jsstring * list ref))
  : BranchSlot :=
  match own_lookup key props with
  | Some items => OwnArray items
  | None => if is_inherited key then Inherited else Absent
  end.

(** Replaces the value of the first property named [key]. *)
Fixpoint own_replace {A : Type} (key : jsstring) (v : A)
  (props : list (jsstring * A)) : list (jsstring * A) :=
  match props with
  | [] => []
  | (k, x) :: rest =>
      if jsstring_eqb k key then (k, v) :: rest
      else (k, x) :: own_replace key v rest
  end.

(** The assignment [obj[key] = v] of a data property: an own property keeps
    its place, a new one goes last. *)
Definition own_set {A : Type} (key : jsstring) (v : A)
  (props : list (jsstring * A)) : list (jsstring * A) :=
  match own_lookup key props with
  | Some _ => own_replace key v props
  | None => props ++ [(key, v)]
  end.

(** *** Object.keys *)

Definition digit (c : code_unit) : option N :=
  if (N.leb 48 c && N.leb c 57)%bool then Some (c - 48)%N else None.

Fixpoint digits_value (acc : N) (s : jsstring) : option N :=
  match s with
  | [] => Some acc
  | c :: rest =>
      match digit c with
      | Some d => digits_value (acc * 10 + d)%N rest
      | None => None
      end
  end.

(** An array index is the canonical decimal form of an integer from 0 to
    2^32 - 2. *)
Definition array_index (key : jsstring) : option N :=
  match key with
  | [] => None
  | c :: rest =>
      if (N.eqb c 48 && negb (Nat.eqb (length rest) 0))%bool then None
      else match digits_value 0 key with
           | Some n => if N.ltb n 4294967295 then Some n else None
           | None => None
           end
  end.

Fixpoint insert_index (k : N * jsstring) (l : list (N * jsstring))
  : list (N * jsstring) :=
  match l with
  | [] => [k]
  | x :: rest =>
      if N.leb (fst k) (fst x) then k :: l else x :: insert_index k rest
  end.

Definition sort_indices (l : list (N * jsstring)) : list (N * jsstring) :=
  fold_right insert_index [] l.

Fixpoint index_keys (keys : list jsstring) : list (N * jsstring) :=
  match keys with
  | [] => []
  | k :: rest =>
      match array_index k with
      | Some n => (n, k) :: index_keys rest
      | None => index_keys rest
      end
  end.

Definition is_index (k : jsstring) : bool :=
  match array_index k with Some _ => true | None => false end.

(** [Object.keys(obj)]: the array-index keys in ascending numeric order, then
    the other keys in creation order. *)
Definition Object_keys {A : Type} (props : list (jsstring * A)) : list jsstring :=
  let keys := map fst props in
  map snd (sort_indices (index_keys keys))
  ++ filter (fun k => negb (is_index k)) keys.

(** The value of [data.key] when [data] is neither [null] nor [undefined]. *)
Definition property (data : JsValue) (key : jsstring) : JsValue :=
  match data with
  | JObject props =>
      match own_lookup key props with Some v => v | None => JUndefined end
  | _ => JUndefined
  end.

Section Server.

Variable host : Host.
Variable glyphs : Glyphs.

(** Reading a property [data.key] for the nine field names of the source.
    None of them is a property of a built-in prototype, so the lookup finds
    an own property of an object or nothing; on [null] and [undefined] the
    engine throws. *)
Definition Get (data : JsValue) (key : jsstring) : JsResult JsValue :=
  match data with
  | JUndefined | JNull => Throw (TypeError (nullish_read_message host data key))
  | _ => Ok (property data key)
  end.

(** ToString of a value, as a template literal and a property key apply it. *)
Definition ToString (v : JsValue) : JsResult jsstring :=
  match v with
  | JUndefined => Ok (u "undefined")
  | JNull => Ok (u "null")
  | JBool true => Ok (u "true")
  | JBool false => Ok (u "false")
  | JNumber x => Ok (Number_toString host x)
  | JString s => Ok s
  | JArray _ | JObject _ => Object_toString host v
  end.

(** *** validateThoughtData *)

Definition validateThoughtData (input : JsValue) : JsResult ThoughtData :=
  let data := input in
  bind_result (Get data (u "thought")) (fun data_thought =>
  if negb (ToBoolean data_thought)
     || negb (TypeTag_eqb (typeof data_thought) TString)
  then Throw (Error (u "Invalid thought: must be a string")) else
  bind_result (Get data (u "thoughtNumber")) (fun data_thoughtNumber =>
  if negb (ToBoolean data_thoughtNumber)
     || negb (TypeTag_eqb (typeof data_thoughtNumber) TNumber)
  then Throw (Error (u "Invalid thoughtNumber: must be a number")) else
  bind_result (Get data (u "totalThoughts")) (fun data_totalThoughts =>
  if negb (ToBoolean data_totalThoughts)
     || negb (TypeTag_eqb (typeof data_totalThoughts) TNumber)
  then Throw (Error (u "Invalid totalThoughts: must be a number")) else
  bind_result (Get data (u "nextThoughtNeeded")) (fun data_nextThoughtNeeded =>
  if negb (TypeTag_eqb (typeof data_nextThoughtNeeded) TBoolean)
  then Throw (Error (u "Invalid nextThoughtNeeded: must be a boolean")) else
  bind_result (Get data (u "isRevision")) (fun data_isRevision =>
  bind_result (Get data (u "revisesThought")) (fun data_revisesThought =>
  bind_result (Get data (u "branchFromThought")) (fun data_branchFromThought =>
  bind_result (Get data (u "branchId")) (fun data_branchId =>
  bind_result (Get data (u "needsMoreThoughts")) (fun data_needsMoreThoughts =>
  Ok {| thought := the_string data_thought;
        thoughtNumber := the_number data_thoughtNumber;
        totalThoughts := the_number data_totalThoughts;
        nextThoughtNeeded := the_boolean data_nextThoughtNeeded;
        isRevision := data_isRevision;
        revisesThought := data_revisesThought;
        branchFromThought := data_branchFromThought;
        branchId := data_branchId;
        needsMoreThoughts := data_needsMoreThoughts |}))))))))).

(** *** formatThought *)

Definition newline : jsstring := [10%N].

Definition formatThought (thoughtData : ThoughtData) : JsResult jsstring :=
  bind_result
    (if ToBoolean (isRevision thoughtData) then
       bind_result (ToString (revisesThought thoughtData)) (fun n =>
       Ok (chalk_yellow host (emoji_revision glyphs ++ u " Revision"),
           u " (revising thought " ++ n ++ u ")"))
     else if ToBoolean (branchFromThought thoughtData) then
       bind_result (ToString (branchFromThought thoughtData)) (fun n =>
       bind_result (ToString (branchId thoughtData)) (fun x =>
       Ok (chalk_green host (emoji_branch glyphs ++ u " Branch"),
           u " (from thought " ++ n ++ u ", ID: " ++ x ++ u ")")))
     else
       Ok (chalk_blue host (emoji_thought glyphs ++ u " Thought"), []))
    (fun pc =>
     let prefix := fst pc in
     let context := snd pc in
     let header :=
       prefix ++ u " " ++ Number_toString host (thoughtNumber thoughtData)
       ++ u "/" ++ Number_toString host (totalThoughts thoughtData) ++ context in
     let border :=
       repeat_str (horizontal glyphs)
         (Nat.max (length header) (length (thought thoughtData)) + 4) in
     Ok (newline
         ++ top_left glyphs ++ border ++ top_right glyphs ++ newline
         ++ vertical glyphs ++ u " " ++ header ++ u " " ++ vertical glyphs
         ++ newline
         ++ tee_left glyphs ++ border ++ tee_right glyphs ++ newline
         ++ vertical glyphs ++ u " "
         ++ padEnd (thought thoughtData) (length border - 2)
         ++ u " " ++ vertical glyphs ++ newline
         ++ bottom_left glyphs ++ border ++ bottom_right glyphs)).

(** *** The statements of processThought on the [branches] object *)

(** [this.branches[k]], read. *)
Definition branches_get (k : JsValue) : M BranchSlot :=
  key <- lift (ToString k) ;;
  fun s => (Ok (branch_slot key (branches s)), s).

(** [this.branches[k] = []]. *)
Definition branches_set_empty (k : JsValue) : M unit :=
  key <- lift (ToString k) ;;
  fun s => (Ok tt,
            {| heap := heap s; thoughtHistory := thoughtHistory s;
               branches := own_set key [] (branches s);
               console := console s |}).

(** [this.branches[k].push(a)]: an inherited property has no [push], and
    calling it throws. *)
Definition branches_push (k : JsValue) (a : ref) : M unit :=
  key <- lift (ToString k) ;;
  fun s =>
    match branch_slot key (branches s) with
    | OwnArray items =>
        (Ok tt,
         {| heap := heap s; thoughtHistory := thoughtHistory s;
            branches := own_set key (items ++ [a]) (branches s);
            console := console s |})
    | Inherited => (Throw (TypeError (not_a_function_message host key)), s)
    | Absent =>
        (Throw (TypeError (nullish_read_message host JUndefined (u "push"))), s)
    end.

(** [Object.keys(this.branches)]. *)
Definition branches_keys : M (list jsstring) :=
  fun s => (Ok (Object_keys (branches s)), s).

End Server.

(** ** The response envelope *)

(** The object given to [JSON.stringify] on success. *)
Record SuccessJson : Type := {
  res_thoughtNumber : float;
  res_totalThoughts : float;
  res_nextThoughtNeeded : bool;
  res_branches : list jsstring;
  res_thoughtHistoryLength : nat
}.

(** The object given to [JSON.stringify] on failure. *)
Record ErrorJson : Type := {
  error : jsstring;
  status : jsstring
}.

(** *** JSON.stringify

    [JSON.stringify(value, null, 2)] on the two objects above: the text the
    serialiser of ECMAScript writes, with a gap of two spaces. *)

(** A number is finite when it is neither NaN nor an infinity. *)
Definition is_finite (x : float) : bool :=
  PrimFloat.ltb (PrimFloat.abs x) PrimFloat.infinity.

(** UnicodeEscape: a backslash, [u] and the four small hexadecimal digits
    of the code unit. *)
Definition hex_digit (n : N) : code_unit :=
  if N.ltb n 10 then (48 + n)%N else (87 + n)%N.

Definition UnicodeEscape (c : code_unit) : jsstring :=
  [92%N; 117%N;
   hex_digit (N.modulo (N.div c 4096) 16);
   hex_digit (N.modulo (N.div c 256) 16);
   hex_digit (N.modulo (N.div c 16) 16);
   hex_digit (N.modulo c 16)].

Definition is_leading_surrogate (c : code_unit) : bool :=
  (N.leb 0xD800 c && N.leb c 0xDBFF)%bool.

Definition is_trailing_surrogate (c : code_unit) : bool :=
  (N.leb 0xDC00 c && N.leb c 0xDFFF)%bool.

(** QuoteJSONString on one code point that is one code unit: the seven
    short escapes, UnicodeEscape for the other control characters and for a
    surrogate that stands alone, and the code unit itself otherwise. *)
Definition quote_code_unit (c : code_unit) : jsstring :=
  if N.eqb c 8 then u "\b"
  else if N.eqb c 9 then u "\t"
  else if N.eqb c 10 then u "\n"
  else if N.eqb c 12 then u "\f"
  else if N.eqb c 13 then u "\r"
  else if N.eqb c 34 then [92%N; 34%N]
  else if N.eqb c 92 then [92%N; 92%N]
  else if (N.ltb c 32 || is_leading_surrogate c || is_trailing_surrogate c)%bool
       then UnicodeEscape c
  else [c].

(** The code points of the string in turn: a leading surrogate followed by
    a trailing one is one code point, written as it is. *)
Fixpoint quote_code_units (s : jsstring) : jsstring :=
  match s with
  | [] => []
  | c :: rest =>
      match rest with
      | d :: rest' =>
          if (is_leading_surrogate c && is_trailing_surrogate d)%bool
          then c :: d :: quote_code_units rest'
          else quote_code_unit c ++ quote_code_units rest
      | [] => quote_code_unit c
      end
  end.

Definition QuoteJSONString (s : jsstring) : jsstring :=
  [34%N] ++ quote_code_units s ++ [34%N].

(** A number is written by Number::toString when it is finite, and as
    [null] when it is NaN or an infinity. *)
Definition SerializeJSONNumber (host : Host) (x : float) : jsstring :=
  if is_finite x then Number_toString host x else u "null".

(** The length of an array is an integer from 0 to 2^32 - 1, which
    Number::toString writes as its decimal digits. *)
Definition SerializeJSONLength (n : nat) : jsstring := decimal (S n) n [].

Definition SerializeJSONBoolean (b : bool) : jsstring :=
  if b then u "true" else u "false".

Definition gap : jsstring := u "  ".

Fixpoint join (separator : jsstring) (parts : list jsstring) : jsstring :=
  match parts with
  | [] => []
  | [part] => part
  | part :: rest => part ++ separator ++ join separator rest
  end.

(** SerializeJSONArray, from the texts of the elements: at the indentation
    [indent] of the line the array starts on, each element is on a line of
    its own, one gap further in. *)
Definition SerializeJSONArray (indent : jsstring) (partial : list jsstring)
  : jsstring :=
  match partial with
  | [] => u "[]"
  | _ :: _ =>
      u "[" ++ newline ++ (indent ++ gap)
      ++ join (u "," ++ newline ++ (indent ++ gap)) partial
      ++ newline ++ indent ++ u "]"
  end.

(** SerializeJSONObject, from the names of the properties (none of them an
    array index, so that they come in the order of the literal) and the
    texts of their values. *)
Definition SerializeJSONObject (indent : jsstring)
  (partial : list (jsstring * jsstring)) : jsstring :=
  match partial with
  | [] => u "{}"
  | _ :: _ =>
      u "{" ++ newline ++ (indent ++ gap)
      ++ join (u "," ++ newline ++ (indent ++ gap))
              (map (fun member =>
                      QuoteJSONString (fst member) ++ u ": " ++ snd member)
                   partial)
      ++ newline ++ indent ++ u "}"
  end.

(** The text of a success (lines 125-131). *)
Definition StringifySuccess (host : Host) (value : SuccessJson) : jsstring :=
  SerializeJSONObject []
    [(u "thoughtNumber", SerializeJSONNumber host (res_thoughtNumber value));
     (u "totalThoughts", SerializeJSONNumber host (res_totalThoughts value));
     (u "nextThoughtNeeded",
      SerializeJSONBoolean (res_nextThoughtNeeded value));
     (u "branches",
      SerializeJSONArray gap (map QuoteJSONString (res_branches value)));
     (u "thoughtHistoryLength",
      SerializeJSONLength (res_thoughtHistoryLength value))].

(** The text of a failure (lines 138-141). *)
Definition StringifyError (value : ErrorJson) : jsstring :=
  SerializeJSONObject []
    [(u "error", QuoteJSONString (error value));
     (u "status", QuoteJSONString (status value))].

Record ContentItem : Type := {
  type_ : jsstring;
  text : jsstring
}.

(** [isError] is absent from the success envelope and [true] in the other. *)
Record Envelope : Type := {
  content : list ContentItem;
  isError : option bool
}.

Section Handler.

Variable host : Host.
Variable glyphs : Glyphs.

(** Lines 104-108: the validated record becomes an object, and its
    [totalThoughts] is raised to its [thoughtNumber] when that is greater. *)
Definition validate_and_correct (input : JsValue) : M ref :=
  r <- lift (validateThoughtData host input) ;;
  validatedInput <- alloc r ;;
  o <- deref validatedInput ;;
  (if gt (thoughtNumber o) (totalThoughts o)
   then set_totalThoughts validatedInput (thoughtNumber o)
   else ret tt) ;;;
  ret validatedInput.

(** Lines 112-117: the record joins the sequence of its branch. *)
Definition register_branch (validatedInput : ref) : M unit :=
  o <- deref validatedInput ;;
  if (ToBoolean (branchFromThought o) && ToBoolean (branchId o))%bool then
    slot <- branches_get host (branchId o) ;;
    (if negb (slot_truthy slot)
     then branches_set_empty host (branchId o)
     else ret tt) ;;;
    branches_push host (branchId o) validatedInput
  else ret tt.

(** Lines 129-130: the branch identifiers and the length of the history. *)
Definition summary : M (list jsstring * nat) :=
  keys <- branches_keys ;;
  len <- thoughtHistory_length ;;
  ret (keys, len).

(** Lines 122-133: the success envelope. *)
Definition respond (validatedInput : ref) : M Envelope :=
  o <- deref validatedInput ;;
  sm <- summary ;;
  ret {| content :=
           [{| type_ := u "text";
               text := StringifySuccess host
                 {| res_thoughtNumber := thoughtNumber o;
                    res_totalThoughts := totalThoughts o;
                    res_nextThoughtNeeded := nextThoughtNeeded o;
                    res_branches := fst sm;
                    res_thoughtHistoryLength := snd sm |} |}];
         isError := None |}.

(** The block of the [try] of processThought. *)
Definition processThought_try (input : JsValue) : M Envelope :=
  validatedInput <- validate_and_correct input ;;
  thoughtHistory_push validatedInput ;;;
  register_branch validatedInput ;;;
  o <- deref validatedInput ;;
  formattedThought <- lift (formatThought host glyphs o) ;;
  Logger_log formattedThought ;;;
  respond validatedInput.

(** The envelope of the [catch] block.  Everything thrown inside the [try]
    is an instance of [Error], so the text is its message. *)
Definition error_envelope (e : JsError) : Envelope :=
  {| content :=
       [{| type_ := u "text";
           text := StringifyError
             {| error := message e; status := u "failed" |} |}];
     isError := Some true |}.

(** *** processThought *)

Definition processThought (input : JsValue) (s : State) : Envelope * State :=
  match processThought_try input s with
  | (Ok envelope, s') => (envelope, s')
  | (Throw e, s') => (error_envelope e, s')
  end.

(** A session: the calls of a list of inputs, one after the other. *)
Fixpoint run (inputs : list JsValue) (s : State) : State :=
  match inputs with
  | [] => s
  | input :: rest => run rest (snd (processThought input s))
  end.

End Handler.

(** The states a session can be in. *)
Inductive reachable (host : Host) (glyphs : Glyphs) : State -> Prop :=
| reachable_initial : reachable host glyphs initial_state
| reachable_step : forall s input,
    reachable host glyphs s ->
    reachable host glyphs (snd (processThought host glyphs input s)).

(** ** Conditions and views used in the statements *)

(** An object literal with ASCII property names, for the examples. *)
Definition object_of (props : list (string * JsValue)) : JsValue :=
  JObject (map (fun p => (u (fst p), snd p)) props).

(** "[key] is present and has type [t]": the object has the property, and
    [typeof] of its value is [t]. *)
Definition present_with_type (data : JsValue) (key : jsstring) (t : TypeTag)
  : bool :=
  match data with
  | JObject props =>
      match own_lookup key props with
      | Some v => TypeTag_eqb (typeof v) t
      | None => false
      end
  | _ => false
  end.

(** The acceptance condition as the specification words it: [thought] is
    present and is text, [thoughtNumber] and [totalThoughts] are present and
    numeric, [nextThoughtNeeded] is present and boolean. *)
Definition spec_accepts (data : JsValue) : bool :=
  present_with_type data (u "thought") TString
  && present_with_type data (u "thoughtNumber") TNumber
  && present_with_type data (u "totalThoughts") TNumber
  && present_with_type data (u "nextThoughtNeeded") TBoolean.

(** What the validator requires of the four fields. *)
Definition is_nonempty_string (v : JsValue) : bool :=
  match v with
  | JString (_ :: _) => true
  | _ => false
  end.

Definition is_nonzero_number (v : JsValue) : bool :=
  match v with
  | JNumber x => negb (PrimFloat.eqb x 0%float) && PrimFloat.eqb x x
  | _ => false
  end.

Definition is_boolean (v : JsValue) : bool :=
  match v with
  | JBool _ => true
  | _ => false
  end.

(** "[key] is present": the record holds a value for it. *)
Definition present (v : JsValue) : bool :=
  match v with
  | JUndefined => false
  | _ => true
  end.

(** The three labels of the formatter. *)
Inductive Label := Revision | Branch | Thought.

(** The label as the specification words it: [isRevision] true, else
    [branchFromThought] present, else the plain label. *)
Definition spec_label (r : ThoughtData) : Label :=
  match isRevision r with
  | JBool true => Revision
  | _ => if present (branchFromThought r) then Branch else Thought
  end.

(** The corrected estimate: the greater of the two numbers of a record, as
    lines 106-108 compute it. *)
Definition corrected_total (r : ThoughtData) : float :=
  if gt (thoughtNumber r) (totalThoughts r) then thoughtNumber r
  else totalThoughts r.

(** The sequence of a branch, empty before its first use. *)
Definition branch_items (key : jsstring) (s : State) : list ref :=
  match own_lookup key (branches s) with
  | Some items => items
  | None => []
  end.

(** The envelope of a success. *)
Definition success_envelope (host : Host) (v : SuccessJson) : Envelope :=
  {| content := [{| type_ := u "text"; text := StringifySuccess host v |}];
     isError := None |}.

(** The state once lines 104-108 have run on a valid input: the corrected
    record is on the heap, and nothing refers to it yet. *)
Definition allocated (s : State) (r : ThoughtData) : State :=
  {| heap := heap s ++ [with_totalThoughts r (corrected_total r)];
     thoughtHistory := thoughtHistory s;
     branches := branches s;
     console := console s |}.

(** The state once line 110 has run: the reference of the record is the
    last of the history. *)
Definition stored (s : State) (r : ThoughtData) : State :=
  {| heap := heap s ++ [with_totalThoughts r (corrected_total r)];
     thoughtHistory := thoughtHistory s ++ [length (heap s)];
     branches := branches s;
     console := console s |}.

(** [s'] extends [s]: the objects, the history and every branch sequence of
    [s] are still there, unchanged, with whatever came after them. *)
Definition extends (s s' : State) : Prop :=
  (exists objects, heap s' = heap s ++ objects)
  /\ (exists refs, thoughtHistory s' = thoughtHistory s ++ refs)
  /\ (forall k items, own_lookup k (branches s) = Some items ->
       exists refs, own_lookup k (branches s') = Some (items ++ refs)).

(** The branch index is a view of the history: every reference of a branch
    sequence is a reference of the history, and every reference of the
    history is to an object. *)
Definition branches_within_history (s : State) : Prop :=
  (forall k items a, own_lookup k (branches s) = Some items ->
     In a items -> In a (thoughtHistory s))
  /\ (forall a, In a (thoughtHistory s) -> a < length (heap s)).

(** *** The frame of the formatter *)

(** The header line: the coloured label, the two numbers and the suffix. *)
Definition header_of (host : Host) (prefix : jsstring) (r : ThoughtData)
  (context : jsstring) : jsstring :=
  prefix ++ u " " ++ Number_toString host (thoughtNumber r)
  ++ u "/" ++ Number_toString host (totalThoughts r) ++ context.

(** The number of horizontal bars of a border. *)
Definition frame_width (header text : jsstring) : nat :=
  Nat.max (length header) (length text) + 4.

(** The body row of the source: the text and then spaces, up to the length
    of the border less 2, between two vertical bars and two spaces. *)
Definition body_row (glyphs : Glyphs) (border text : jsstring) : jsstring :=
  vertical glyphs ++ u " " ++ padEnd text (length border - 2)
  ++ u " " ++ vertical glyphs.

(** The body row as the specification words it: the text padded on the
    left to the frame width, between the vertical bars. *)
Definition spec_body_row (glyphs : Glyphs) (header text : jsstring) : jsstring :=
  vertical glyphs ++ padStart text (frame_width header text) ++ vertical glyphs.

(** The five lines of the box. *)
Definition frame (glyphs : Glyphs) (header text : jsstring) : jsstring :=
  let border := repeat_str (horizontal glyphs) (frame_width header text) in
  newline
  ++ top_left glyphs ++ border ++ top_right glyphs ++ newline
  ++ vertical glyphs ++ u " " ++ header ++ u " " ++ vertical glyphs ++ newline
  ++ tee_left glyphs ++ border ++ tee_right glyphs ++ newline
  ++ body_row glyphs border text ++ newline
  ++ bottom_left glyphs ++ border ++ bottom_right glyphs.

(** A record whose [branchFromThought] is 0. *)
Definition branch_from_zero : ThoughtData :=
  {| thought := u "hi"; thoughtNumber := 1; totalThoughts := 2;
     isRevision := JUndefined; revisesThought := JUndefined;
     branchFromThought := JNumber 0; branchId := JString (u "b1");
     needsMoreThoughts := JUndefined; nextThoughtNeeded := true |}.

(** A revision of thought 7. *)
Definition revision_of_seven : ThoughtData :=
  {| thought := u "a longer thought, longer than its header line";
     thoughtNumber := 12; totalThoughts := 100;
     isRevision := JBool true; revisesThought := JNumber 7;
     branchFromThought := JUndefined; branchId := JUndefined;
     needsMoreThoughts := JUndefined; nextThoughtNeeded := true |}.

(** ** The registered tool and the views of a session *)

(** The handler that [registerTools] gives to [server.tool] (lines 189-197):
    it calls processThought and returns an object with the one key
    [content], each item rebuilt with the type "text" and its text. *)
Definition sequentialthinking_tool (host : Host) (glyphs : Glyphs)
  (params : JsValue) (s : State) : Envelope * State :=
  let result := processThought host glyphs params s in
  ({| content :=
        map (fun item => {| type_ := u "text"; text := text item |})
            (content (fst result));
      isError := None |},
   snd result).

(** Whether the validator returns a record. *)
Definition accepts (host : Host) (input : JsValue) : bool :=
  match validateThoughtData host input with
  | Ok _ => true
  | Throw _ => false
  end.

(** The property of [branches] under which lines 112-117 file a record:
    both fields truthy, and the key of [branchId] not an inherited name. *)
Definition branch_key (host : Host) (o : ThoughtData) : option jsstring :=
  if (ToBoolean (branchFromThought o) && ToBoolean (branchId o))%bool then
    match ToString host (branchId o) with
    | Ok key => if is_inherited key then None else Some key
    | Throw _ => None
    end
  else None.

Definition in_branch (host : Host) (k : jsstring) (o : ThoughtData) : bool :=
  match branch_key host o with
  | Some key => jsstring_eqb key k
  | None => false
  end.

(** A value that is not an object: ToString on it does not call the host's
    conversion of objects. *)
Definition is_primitive (v : JsValue) : bool :=
  match v with
  | JArray _ | JObject _ => false
  | _ => true
  end.

(** The header row of the box. *)
Definition header_row (glyphs : Glyphs) (header : jsstring) : jsstring :=
  vertical glyphs ++ u " " ++ header ++ u " " ++ vertical glyphs.

(** A border row of the box, between two corner glyphs. *)
Definition border_row (left right border : jsstring) : jsstring :=
  left ++ border ++ right.

(** ** Example inputs *)

Definition step1 : JsValue :=
  object_of [("thought", JString (u "step1")); ("thoughtNumber", JNumber 1);
             ("totalThoughts", JNumber 3); ("nextThoughtNeeded", JBool true)]%string.

Definition step2 : JsValue :=
  object_of [("thought", JString (u "step2")); ("thoughtNumber", JNumber 5);
             ("totalThoughts", JNumber 3); ("nextThoughtNeeded", JBool false)]%string.

Definition branch_step (from : JsValue) (id : JsValue) : JsValue :=
  object_of [("thought", JString (u "alt")); ("thoughtNumber", JNumber 2);
             ("totalThoughts", JNumber 3); ("nextThoughtNeeded", JBool true);
             ("branchFromThought", from); ("branchId", id)]%string.

Definition empty_thought : JsValue :=
  object_of [("thought", JString []); ("thoughtNumber", JNumber 1);
             ("totalThoughts", JNumber 3); ("nextThoughtNeeded", JBool true)]%string.

Definition zero_thoughtNumber : JsValue :=
  object_of [("thought", JString (u "step1")); ("thoughtNumber", JNumber 0);
             ("totalThoughts", JNumber 3); ("nextThoughtNeeded", JBool true)]%string.

Definition nan_totalThoughts : JsValue :=
  object_of [("thought", JString (u "step1")); ("thoughtNumber", JNumber 1);
             ("totalThoughts", JNumber PrimFloat.nan);
             ("nextThoughtNeeded", JBool true)]%string.

Definition negative_numbers : JsValue :=
  object_of [("thought", JString (u "step1")); ("thoughtNumber", JNumber (-5));
             ("totalThoughts", JNumber (-7)); ("nextThoughtNeeded", JBool true)]%string.

Definition missing_thought : JsValue :=
  object_of [("thoughtNumber", JNumber 1); ("totalThoughts", JNumber 3);
             ("nextThoughtNeeded", JBool true)]%string.

(** What the validator returns on [step1], [step2] and [negative_numbers]. *)
Definition plain_record (text : jsstring) (number total : float) (next : bool)
  : ThoughtData :=
  {| thought := text; thoughtNumber := number; totalThoughts := total;
     isRevision := JUndefined; revisesThought := JUndefined;
     branchFromThought := JUndefined; branchId := JUndefined;
     needsMoreThoughts := JUndefined; nextThoughtNeeded := next |}.

(** What the validator returns on [branch_step from id]. *)
Definition branch_record (from id : JsValue) : ThoughtData :=
  {| thought := u "alt"; thoughtNumber := 2; totalThoughts := 3;
     isRevision := JUndefined; revisesThought := JUndefined;
     branchFromThought := from; branchId := id;
     needsMoreThoughts := JUndefined; nextThoughtNeeded := true |}.

(** ** The tools of the test server (server.ts) *)

(** A content item whose text is a string, and what a tool handler leaves:
    the [content] of the object it returns and what it gave to
    [Logger.error]. *)
Record TextItem : Type := {
  item_type : jsstring;
  item_text : jsstring
}.

Record ToolOutcome : Type := {
  tool_content : list TextItem;
  logged_errors : list (jsstring * JsError)
}.

Definition text_content (t : jsstring) : list TextItem :=
  [{| item_type := u "text"; item_text := t |}].

(** [Error.prototype.toString], which a template literal applies to a caught
    error: the name, and the message after a colon when there is one. *)
Definition Error_toString (e : JsError) : jsstring :=
  match e with
  | Error [] => u "Error"
  | Error m => u "Error: " ++ m
  | TypeError [] => u "TypeError"
  | TypeError m => u "TypeError: " ++ m
  end.

(** *** calculate (lines 36-72) *)

Inductive CalculateOperation := OpAdd | OpSubtract | OpMultiply | OpDivide.

(** The [try] block: the [switch] on the operation. *)
Definition calculate_try (operation : CalculateOperation) (a b : float)
  : JsResult float :=
  match operation with
  | OpAdd => Ok (PrimFloat.add a b)
  | OpSubtract => Ok (PrimFloat.sub a b)
  | OpMultiply => Ok (PrimFloat.mul a b)
  | OpDivide =>
      if PrimFloat.eqb b 0%float then Throw (Error (u "Division by zero"))
      else Ok (PrimFloat.div a b)
  end.

Definition calculate (host : Host) (operation : CalculateOperation)
  (a b : float) : ToolOutcome :=
  match calculate_try operation a b with
  | Ok result =>
      {| tool_content := text_content (u "Result: " ++ Number_toString host result);
         logged_errors := [] |}
  | Throw error =>
      {| tool_content := text_content (u "Error: " ++ Error_toString error);
         logged_errors := [(u "Calculation error:", error)] |}
  end.

(** *** transform_text (lines 75-106) *)

(** The case mappings of the engine, which follow the Unicode tables. *)
Record CaseHost : Type := {
  toUpperCase : jsstring -> jsstring;
  toLowerCase : jsstring -> jsstring
}.

Inductive TransformOperation := OpUppercase | OpLowercase | OpReverse.

(** [text.split("").reverse().join("")]: the code units in reverse order. *)
Definition reverse_text (text : jsstring) : jsstring := rev text.

Definition transform_text (cases : CaseHost) (text : jsstring)
  (operation : TransformOperation) : ToolOutcome :=
  {| tool_content :=
       text_content
         (match operation with
          | OpUppercase => toUpperCase cases text
          | OpLowercase => toLowerCase cases text
          | OpReverse => reverse_text text
          end);
     logged_errors := [] |}.

(** *** analyze_text (lines 109-168) *)

(** The class [\s] of a regular expression, which is also what [trim]
    removes: the white space and line terminators of ECMAScript. *)
Definition is_whitespace (c : code_unit) : bool :=
  ((N.leb 9 c && N.leb c 13)
   || N.eqb c 0x20 || N.eqb c 0xA0 || N.eqb c 0x1680
   || (N.leb 0x2000 c && N.leb c 0x200A)
   || N.eqb c 0x2028 || N.eqb c 0x2029 || N.eqb c 0x202F
   || N.eqb c 0x205F || N.eqb c 0x3000 || N.eqb c 0xFEFF)%bool.

(** The class [[.!?]]. *)
Definition is_sentence_end (c : code_unit) : bool :=
  (N.eqb c 46 || N.eqb c 33 || N.eqb c 63)%bool.

(** [text.split(/C+/)] for a class [C]: the pieces of the text between the
    maximal runs of code units of the class; a run at the start or at the
    end leaves an empty piece there, and the empty text is one empty piece.
    [in_run] tells that the code unit before was of the class. *)
Fixpoint split_runs_from (sep : code_unit -> bool) (in_run : bool)
  (text : jsstring) : list jsstring :=
  match text with
  | [] => [[]]
  | c :: rest =>
      if sep c then
        if in_run then split_runs_from sep true rest
        else [] :: split_runs_from sep true rest
      else
        match split_runs_from sep false rest with
        | piece :: pieces => (c :: piece) :: pieces
        | [] => [[c]]
        end
  end.

Definition split_runs (sep : code_unit -> bool) (text : jsstring)
  : list jsstring :=
  split_runs_from sep false text.

(** [String.prototype.trim]. *)
Fixpoint trim_start (text : jsstring) : jsstring :=
  match text with
  | c :: rest => if is_whitespace c then trim_start rest else text
  | [] => []
  end.

Definition trim (text : jsstring) : jsstring :=
  rev (trim_start (rev (trim_start text))).

Definition nonempty (text : jsstring) : bool := negb (Nat.eqb (length text) 0).

(** [text.split(/\s+/).filter(word => word.length > 0)]. *)
Definition words_of (text : jsstring) : list jsstring :=
  filter nonempty (split_runs is_whitespace text).

(** A length or a count as a number of the engine. *)
Definition Number_of_nat (n : nat) : float :=
  PrimFloat.of_uint63 (Uint63Axioms.of_Z (Z.of_nat n)).

Definition word_count (text : jsstring) : nat := length (words_of text).

(** [text.replace(/\s/g, '').length]. *)
Definition character_count (text : jsstring) : nat :=
  length (filter (fun c => negb (is_whitespace c)) text).

Definition sentence_count (text : jsstring) : nat :=
  length (filter (fun sentence => nonempty (trim sentence))
                 (split_runs is_sentence_end text)).

(** [words.reduce((sum, word) => sum + word.length, 0) / words.length]. *)
Definition average_word_length (text : jsstring) : float :=
  let words := words_of text in
  PrimFloat.div
    (fold_left (fun sum word => PrimFloat.add sum (Number_of_nat (length word)))
               words 0%float)
    (Number_of_nat (length words)).

(** The [forEach] over the words: [wordFrequency.set(word,
    (wordFrequency.get(word) || 0) + 1)] on a [Map], whose entries stay in
    the order of their first insertion. *)
Definition count_word (frequency : list (jsstring * nat)) (word : jsstring)
  : list (jsstring * nat) :=
  own_set word
    (match own_lookup word frequency with Some n => n | None => 0 end + 1)
    frequency.

Definition word_frequency (words : list jsstring) : list (jsstring * nat) :=
  fold_left count_word words [].

(** [sort((a, b) => b[1] - a[1])]: by count, greatest first; the sort of the
    engine is stable, so entries of equal count keep their order. *)
Fixpoint insert_by_count (entry : jsstring * nat)
  (sorted : list (jsstring * nat)) : list (jsstring * nat) :=
  match sorted with
  | [] => [entry]
  | x :: rest =>
      if Nat.ltb (snd entry) (snd x) then x :: insert_by_count entry rest
      else entry :: sorted
  end.

Definition sort_by_count (entries : list (jsstring * nat))
  : list (jsstring * nat) :=
  fold_right insert_by_count [] entries.

Definition most_common_words (cases : CaseHost) (text : jsstring)
  : list (jsstring * nat) :=
  firstn 5
    (sort_by_count (word_frequency (words_of (toLowerCase cases text)))).

Inductive AnalysisType :=
| WordCount | CharacterCount | SentenceCount | AverageWordLength
| MostCommonWords.

(** What [results] holds under a key. *)
Inductive AnalysisValue : Type :=
| CountValue (n : nat)
| NumberValue (x : float)
| EntriesValue (entries : list (jsstring * nat)).

Definition analysis_key (analysis : AnalysisType) : jsstring :=
  match analysis with
  | WordCount => u "word_count"
  | CharacterCount => u "character_count"
  | SentenceCount => u "sentence_count"
  | AverageWordLength => u "average_word_length"
  | MostCommonWords => u "most_common_words"
  end.

Definition analysis_value (cases : CaseHost) (text : jsstring)
  (analysis : AnalysisType) : AnalysisValue :=
  match analysis with
  | WordCount => CountValue (word_count text)
  | CharacterCount => CountValue (character_count text)
  | SentenceCount => CountValue (sentence_count text)
  | AverageWordLength => NumberValue (average_word_length text)
  | MostCommonWords => EntriesValue (most_common_words cases text)
  end.

(** The [for] loop over [analysis_types]: each one assigns its key of
    [results]. *)
Definition analyze_text_results (cases : CaseHost) (text : jsstring)
  (analysis_types : list AnalysisType) : list (jsstring * AnalysisValue) :=
  fold_left
    (fun results analysis =>
       own_set (analysis_key analysis) (analysis_value cases text analysis)
               results)
    analysis_types [].

(** *** validate_data (lines 171-225) *)

(** The regular expressions of [patterns] use character classes, sequence,
    alternation and repetition only, on code units (no flag is set).  For
    such an expression between [^] and [$], [test] tells whether the whole
    text is in its language. *)
Inductive regex : Type :=
| Never
| Empty
| Unit (class : code_unit -> bool)
| Then (r1 r2 : regex)
| Or (r1 r2 : regex)
| Many (r : regex).

(** The language of an expression. *)
Inductive Matches : regex -> jsstring -> Prop :=
| Matches_Empty : Matches Empty []
| Matches_Unit : forall class c, class c = true -> Matches (Unit class) [c]
| Matches_Then : forall r1 r2 s1 s2,
    Matches r1 s1 -> Matches r2 s2 -> Matches (Then r1 r2) (s1 ++ s2)
| Matches_Or_left : forall r1 r2 s, Matches r1 s -> Matches (Or r1 r2) s
| Matches_Or_right : forall r1 r2 s, Matches r2 s -> Matches (Or r1 r2) s
| Matches_Many_none : forall r, Matches (Many r) []
| Matches_Many_more : forall r s1 s2,
    Matches r s1 -> Matches (Many r) s2 -> Matches (Many r) (s1 ++ s2).

(** [test], by derivatives. *)
Fixpoint nullable (r : regex) : bool :=
  match r with
  | Never => false
  | Empty => true
  | Unit _ => false
  | Then r1 r2 => nullable r1 && nullable r2
  | Or r1 r2 => nullable r1 || nullable r2
  | Many _ => true
  end.

Fixpoint derivative (c : code_unit) (r : regex) : regex :=
  match r with
  | Never => Never
  | Empty => Never
  | Unit class => if class c then Empty else Never
  | Then r1 r2 =>
      if nullable r1
      then Or (Then (derivative c r1) r2) (derivative c r2)
      else Then (derivative c r1) r2
  | Or r1 r2 => Or (derivative c r1) (derivative c r2)
  | Many r1 => Then (derivative c r1) (Many r1)
  end.

Fixpoint regex_test (r : regex) (text : jsstring) : bool :=
  match text with
  | [] => nullable r
  | c :: rest => regex_test (derivative c r) rest
  end.

(** The notations of the literals: a character, [r?], [r+], [r{n}],
    [r{n,}] and [r{m,n}]. *)
Definition Char (c : code_unit) : regex := Unit (N.eqb c).
Definition Optional (r : regex) : regex := Or r Empty.
Definition OneOrMore (r : regex) : regex := Then r (Many r).

Fixpoint Exactly (n : nat) (r : regex) : regex :=
  match n with
  | O => Empty
  | S n' => Then r (Exactly n' r)
  end.

Definition AtLeast (n : nat) (r : regex) : regex := Then (Exactly n r) (Many r).

Fixpoint AtMost (n : nat) (r : regex) : regex :=
  match n with
  | O => Empty
  | S n' => Optional (Then r (AtMost n' r))
  end.

Definition Between (m n : nat) (r : regex) : regex :=
  Then (Exactly m r) (AtMost (n - m) r).

Fixpoint Literal (text : jsstring) : regex :=
  match text with
  | [] => Empty
  | c :: rest => Then (Char c) (Literal rest)
  end.

(** The classes of the five patterns. *)
Definition between (low high c : code_unit) : bool :=
  (N.leb low c && N.leb c high)%bool.

(** [\d]. *)
Definition is_digit (c : code_unit) : bool := between 48%N 57%N c.

(** [\w]. *)
Definition is_word_unit (c : code_unit) : bool :=
  (between 65%N 90%N c || between 97%N 122%N c || is_digit c || N.eqb c 95%N)%bool.

(** [[^\s@]]. *)
Definition is_address_unit (c : code_unit) : bool :=
  negb (is_whitespace c || N.eqb c 64%N).

(** [[\d\s-]]. *)
Definition is_phone_unit (c : code_unit) : bool :=
  (is_digit c || is_whitespace c || N.eqb c 45%N)%bool.

(** [[\da-z.-]], [[a-z.]] and [[\/\w .-]]. *)
Definition is_host_unit (c : code_unit) : bool :=
  (is_digit c || between 97%N 122%N c || N.eqb c 46%N || N.eqb c 45%N)%bool.
Definition is_domain_unit (c : code_unit) : bool :=
  (between 97%N 122%N c || N.eqb c 46%N)%bool.
Definition is_path_unit (c : code_unit) : bool :=
  (N.eqb c 47%N || is_word_unit c || N.eqb c 32%N || N.eqb c 46%N || N.eqb c 45%N)%bool.

(** [[- ]]. *)
Definition is_group_separator (c : code_unit) : bool :=
  (N.eqb c 45%N || N.eqb c 32%N)%bool.

Inductive SchemaType :=
| SchemaEmail | SchemaPhone | SchemaUrl | SchemaDate | SchemaCreditCard.

Definition schema_name (schema_type : SchemaType) : jsstring :=
  match schema_type with
  | SchemaEmail => u "email"
  | SchemaPhone => u "phone"
  | SchemaUrl => u "url"
  | SchemaDate => u "date"
  | SchemaCreditCard => u "credit_card"
  end.

(** [/^[^\s@]+@[^\s@]+\.[^\s@]+$/]. *)
Definition email_pattern : regex :=
  Then (OneOrMore (Unit is_address_unit))
    (Then (Char 64%N)
       (Then (OneOrMore (Unit is_address_unit))
          (Then (Char 46%N) (OneOrMore (Unit is_address_unit))))).

(** [/^\+?[\d\s-]{10,}$/]. *)
Definition phone_pattern : regex :=
  Then (Optional (Char 43%N)) (AtLeast 10 (Unit is_phone_unit)).

(** The pattern of [url]: an optional [https?:\/\/], then [[\da-z.-]+], a
    dot, [[a-z.]{2,6}], the group [[\/\w .-]] starred and the group starred
    again, and an optional slash. *)
Definition url_pattern : regex :=
  Then (Optional (Then (Literal (u "http"))
                    (Then (Optional (Char 115%N)) (Literal (u "://")))))
    (Then (OneOrMore (Unit is_host_unit))
       (Then (Char 46%N)
          (Then (Between 2 6 (Unit is_domain_unit))
             (Then (Many (Many (Unit is_path_unit)))
                (Optional (Char 47%N)))))).

(** [/^\d{4}-(0[1-9]|1[0-2])-(0[1-9]|[12]\d|3[01])$/]. *)
Definition date_pattern : regex :=
  Then (Exactly 4 (Unit is_digit))
    (Then (Char 45%N)
       (Then (Or (Then (Char 48%N) (Unit (between 49%N 57%N)))
                 (Then (Char 49%N) (Unit (between 48%N 50%N))))
          (Then (Char 45%N)
             (Or (Then (Char 48%N) (Unit (between 49%N 57%N)))
                 (Or (Then (Unit (between 49%N 50%N)) (Unit is_digit))
                     (Then (Char 51%N) (Unit (between 48%N 49%N)))))))).

(** [/^\d{4}[- ]?\d{4}[- ]?\d{4}[- ]?\d{4}$/]. *)
Definition credit_card_pattern : regex :=
  Then (Exactly 4 (Unit is_digit))
    (Then (Optional (Unit is_group_separator))
       (Then (Exactly 4 (Unit is_digit))
          (Then (Optional (Unit is_group_separator))
             (Then (Exactly 4 (Unit is_digit))
                (Then (Optional (Unit is_group_separator))
                   (Exactly 4 (Unit is_digit))))))).

Definition patterns (schema_type : SchemaType) : regex :=
  match schema_type with
  | SchemaEmail => email_pattern
  | SchemaPhone => phone_pattern
  | SchemaUrl => url_pattern
  | SchemaDate => date_pattern
  | SchemaCreditCard => credit_card_pattern
  end.

(** [text.split(c)] for a separator of one code unit: the pieces between
    its occurrences. *)
Fixpoint split_at (separator : code_unit) (text : jsstring) : list jsstring :=
  match text with
  | [] => [[]]
  | c :: rest =>
      if N.eqb c separator then [] :: split_at separator rest
      else
        match split_at separator rest with
        | piece :: pieces => (c :: piece) :: pieces
        | [] => [[c]]
        end
  end.

(** An element of an array in a template literal; past the end it is
    [undefined]. *)
Definition element_text (parts : list jsstring) (index : nat) : jsstring :=
  match nth_error parts index with
  | Some part => part
  | None => u "undefined"
  end.

(** The getters of [new Date(data)], which read the date in the time zone
    of the process. *)
Record DateHost : Type := {
  getDate : jsstring -> float;
  getMonth : jsstring -> float;
  getFullYear : jsstring -> float
}.

Definition validation_details (host : Host) (dates : DateHost)
  (schema_type : SchemaType) (data : jsstring) : jsstring :=
  match schema_type with
  | SchemaEmail =>
      let parts := split_at 64%N data in
      u "Local part: " ++ element_text parts 0
      ++ u ", Domain: " ++ element_text parts 1
  | SchemaDate =>
      u "Day: " ++ Number_toString host (getDate dates data)
      ++ u ", Month: "
      ++ Number_toString host (PrimFloat.add (getMonth dates data) 1%float)
      ++ u ", Year: " ++ Number_toString host (getFullYear dates data)
  | _ => []
  end.

Definition validate_data (host : Host) (dates : DateHost)
  (schema_type : SchemaType) (data : jsstring) : ToolOutcome :=
  let isValid := regex_test (patterns schema_type) data in
  let details :=
    if isValid then validation_details host dates schema_type data else [] in
  {| tool_content :=
       text_content
         (u "Validation Results:" ++ newline
          ++ u "Valid: " ++ (if isValid then u "true" else u "false") ++ newline
          ++ u "Schema: " ++ schema_name schema_type ++ newline
          ++ (if nonempty details then u "Details: " ++ details else []));
     logged_errors := [] |}.

(** The number that two decimal digits write. *)
Definition two_digits (tens ones : code_unit) : N :=
  (10 * (tens - 48) + (ones - 48))%N.

(** A group of four digits, and what may stand between two groups of a
    card number: nothing, a hyphen or a space. *)
Definition digit_group (group : jsstring) : Prop :=
  length group = 4 /\ forallb is_digit group = true.

Definition optional_separator (s : jsstring) : Prop :=
  s = [] \/ exists c, s = [c] /\ is_group_separator c = true.

(** A non-empty run of code units that are neither white space nor [@]. *)
Definition address_part (part : jsstring) : Prop :=
  part <> [] /\ forallb is_address_unit part = true.

(** ** The database service of the Postgres server *)

(** What the service asks of the pool and of a client, in the order of the
    calls: a client from the pool, a statement with its parameters, the
    release of the client. *)
Inductive DbEvent : Type :=
| DbConnect
| DbQuery (statement : jsstring) (parameters : list JsValue)
| DbRelease.

(** The database, as the service sees it: whether the pool gives a client,
    and what a statement returns (its rows) or throws after the calls made
    so far. *)
Record Database : Type := {
  db_connect : JsResult unit;
  db_query : list DbEvent -> jsstring -> list JsValue -> JsResult JsValue
}.

(** What a call of the service leaves: its result, the calls it made and
    what it gave to [Logger.error]. *)
Record DbOutcome : Type := {
  db_result : JsResult JsValue;
  db_trace : list DbEvent;
  db_logged : list (jsstring * JsError)
}.

Definition begin_read_only : jsstring := u "BEGIN TRANSACTION READ ONLY".
Definition rollback : jsstring := u "ROLLBACK".

(** The [finally] block of executeQuery: ROLLBACK is sent and not awaited,
    and the client is released; a failure of ROLLBACK is logged when it
    comes. *)
Definition rollback_and_release (db : Database) (result : JsResult JsValue)
  (trace : list DbEvent) : DbOutcome :=
  {| db_result := result;
     db_trace := trace ++ [DbQuery rollback []; DbRelease];
     db_logged :=
       match db_query db trace rollback [] with
       | Ok _ => []
       | Throw error => [(u "Could not roll back transaction:", error)]
       end |}.

(** executeQuery (lines 84-101). *)
Definition executeQuery (db : Database) (sql : jsstring) : DbOutcome :=
  match db_connect db with
  | Throw error =>
      {| db_result := Throw error; db_trace := [DbConnect]; db_logged := [] |}
  | Ok _ =>
      match db_query db [DbConnect] begin_read_only [] with
      | Throw error =>
          rollback_and_release db (Throw error)
            [DbConnect; DbQuery begin_read_only []]
      | Ok _ =>
          rollback_and_release db
            (db_query db [DbConnect; DbQuery begin_read_only []] sql [])
            [DbConnect; DbQuery begin_read_only []; DbQuery sql []]
      end
  end.

Definition SCHEMA_PATH : jsstring := u "schema".

Definition columns_query : jsstring :=
  u "SELECT column_name, data_type FROM information_schema.columns WHERE table_name = $1".

(** [pop] on an array: its last element, [undefined] when it is empty, and
    the array without it. *)
Definition pop (components : list jsstring) : JsValue * list jsstring :=
  match rev components with
  | [] => (JUndefined, [])
  | x :: rest => (JString x, rev rest)
  end.

(** Lines 55-61 of readResource, on the path of the parsed URI: the table
    name, or the error of a path that does not end in the schema
    component. *)
Definition resource_table (pathname : jsstring) : JsResult JsValue :=
  let pathComponents := split_at 47%N pathname in
  let (schema, pathComponents1) := pop pathComponents in
  let (tableName, _) := pop pathComponents1 in
  match schema with
  | JString s =>
      if jsstring_eqb s SCHEMA_PATH then Ok tableName
      else Throw (Error (u "Invalid resource URI"))
  | _ => Throw (Error (u "Invalid resource URI"))
  end.

(** readResource (lines 52-82); [pathname_of] is the [pathname] of
    [new URL(uri)], which throws on a text that is not a URL.  The result
    is the rows that the [contents] of the answer serialise. *)
Definition readResource (pathname_of : jsstring -> JsResult jsstring)
  (db : Database) (uri : jsstring) : DbOutcome :=
  match bind_result (pathname_of uri) resource_table with
  | Throw error =>
      {| db_result := Throw error; db_trace := []; db_logged := [] |}
  | Ok tableName =>
      match db_connect db with
      | Throw error =>
          {| db_result := Throw error; db_trace := [DbConnect];
             db_logged := [] |}
      | Ok _ =>
          {| db_result := db_query db [DbConnect] columns_query [tableName];
             db_trace :=
               [DbConnect; DbQuery columns_query [tableName]; DbRelease];
             db_logged := [] |}
      end
  end.

(** The number of times a word occurs in a list of words. *)
Definition occurrences (word : jsstring) (words : list jsstring) : nat :=
  length (filter (jsstring_eqb word) words).

(** A code unit that is not white space. *)
Definition is_visible (c : code_unit) : bool := negb (is_whitespace c).


(** What the pattern of [url] lets a text start with. *)
Definition url_scheme (scheme : jsstring) : Prop :=
  scheme = [] \/ scheme = u "http://" \/ scheme = u "https://".

(** The three lines that open the text validate_data returns. *)
Definition validation_lines (isValid : bool) (schema_type : SchemaType)
  : jsstring :=
  u "Validation Results:" ++ newline
  ++ u "Valid: " ++ (if isValid then u "true" else u "false") ++ newline
  ++ u "Schema: " ++ schema_name schema_type ++ newline.

(** *** Texts for the examples *)

(** A name between double quotes, and a text from its lines. *)
Definition quoted (name : string) : jsstring := [34%N] ++ u name ++ [34%N].

Definition lines (l : list jsstring) : jsstring := join newline l.

(** The echo as the specification words it: the text of the envelope has a
    line for the member [key], two spaces in, whose value is written
    [value]. *)
Definition echoes (body key value : jsstring) : bool :=
  existsb
    (fun line =>
       (jsstring_eqb line (gap ++ QuoteJSONString key ++ u ": " ++ value)
        || jsstring_eqb line
             (gap ++ QuoteJSONString key ++ u ": " ++ value ++ u ","))%bool)
    (split_at 10%N body).

(** Inputs with an infinite number, which the validator accepts and the
    protocol layer lets through ([1e999] is read as Infinity). *)
Definition infinite_thoughtNumber : JsValue :=
  object_of [("thought", JString (u "far"));
             ("thoughtNumber", JNumber PrimFloat.infinity);
             ("totalThoughts", JNumber 1);
             ("nextThoughtNeeded", JBool true)]%string.

Definition infinite_totalThoughts : JsValue :=
  object_of [("thought", JString (u "open"));
             ("thoughtNumber", JNumber 4);
             ("totalThoughts", JNumber PrimFloat.infinity);
             ("nextThoughtNeeded", JBool true)]%string.

(** ** Properties *)

(** *** The built-ins on small inputs *)

(** QuoteJSONString: the short escapes, a control character, a surrogate
    pair and two surrogates that stand alone. *)
Example QuoteJSONString_escapes :
  QuoteJSONString [97; 34; 92; 10; 1; 0xD83D; 0xDCAD; 0xDCAD; 0xD83D]%N
  = [34%N] ++ u "a" ++ [92; 34; 92; 92]%N ++ u "\n" ++ u "\u0001"
    ++ [0xD83D; 0xDCAD]%N ++ u "\udcad" ++ u "\ud83d" ++ [34%N].
Proof. reflexivity. Qed.

Example SerializeJSONNumber_values :
  map (SerializeJSONNumber example_host)
      [1; 0; PrimFloat.infinity; PrimFloat.neg_infinity; PrimFloat.nan]%float
  = [u "1"; u "0"; u "null"; u "null"; u "null"].
Proof. reflexivity. Qed.

Example SerializeJSONLength_values :
  map SerializeJSONLength [0; 7; 10; 1234]
  = [u "0"; u "7"; u "10"; u "1234"].
Proof. reflexivity. Qed.

Example StringifyError_text :
  StringifyError {| error := u "Invalid thought: must be a string";
                    status := u "failed" |}
  = lines
      [u "{";
       u "  " ++ quoted "error" ++ u ": "
       ++ quoted "Invalid thought: must be a string" ++ u ",";
       u "  " ++ quoted "status" ++ u ": " ++ quoted "failed";
       u "}"].
Proof. reflexivity. Qed.

Example padEnd_pads_after : padEnd (u "hi") 5 = u "hi   ".
Proof. reflexivity. Qed.

Example padEnd_keeps_a_long_string : padEnd (u "hello") 3 = u "hello".
Proof. reflexivity. Qed.

Example repeat_str_three : repeat_str (u "ab") 3 = u "ababab".
Proof. reflexivity. Qed.

Example number_truthy_values :
  map number_truthy [0; -0; PrimFloat.nan; 1; -5; 0.5; PrimFloat.infinity]%float
  = [false; false; false; true; true; true; true].
Proof. reflexivity. Qed.

Example Object_keys_order :
  Object_keys [(u "b", 1); (u "10", 2); (u "2", 3); (u "01", 4)]
  = [u "2"; u "10"; u "b"; u "01"].
Proof. reflexivity. Qed.

Example branch_slot_of_a_new_object :
  branch_slot (u "b1") [] = Absent /\ branch_slot (u "toString") [] = Inherited.
Proof. split; reflexivity. Qed.

Example example_ToString_of_an_array :
  example_ToString (JArray [JNumber 1; JNull; JString (u "a")]) = Ok (u "1,,a").
Proof. reflexivity. Qed.

(** *** Strings and own properties *)

Lemma jsstring_eqb_eq (a b : jsstring) : jsstring_eqb a b = true <-> a = b.
Proof.
  revert b. induction a as [|x a IH]; intros [|y b]; simpl; split;
    try congruence; try reflexivity.
  - intros H. apply andb_true_iff in H as [Hx Hab].
    apply N.eqb_eq in Hx. apply IH in Hab. congruence.
  - intros H. injection H as -> ->. rewrite N.eqb_refl. simpl.
    apply IH. reflexivity.
Qed.

Lemma jsstring_eqb_refl (a : jsstring) : jsstring_eqb a a = true.
Proof. apply jsstring_eqb_eq. reflexivity. Qed.

Lemma jsstring_eqb_neq (a b : jsstring) : a <> b -> jsstring_eqb a b = false.
Proof.
  intros H. destruct (jsstring_eqb a b) eqn:E; [|reflexivity].
  apply jsstring_eqb_eq in E. contradiction.
Qed.

Section Validator.

Variable host : Host.

Lemma Get_property (data : JsValue) (key : jsstring) :
  data <> JNull -> data <> JUndefined ->
  Get host data key = Ok (property data key).
Proof. intros Hn Hu. destruct data; try reflexivity; contradiction. Qed.

Lemma nonempty_string_test (v : JsValue) :
  negb (ToBoolean v) || negb (TypeTag_eqb (typeof v) TString)
  = negb (is_nonempty_string v).
Proof.
  destruct v as [| |b|x|s|l|l]; simpl; try reflexivity.
  - rewrite orb_true_r. reflexivity.
  - rewrite orb_true_r. reflexivity.
  - destruct s; reflexivity.
Qed.

Lemma nonzero_number_test (v : JsValue) :
  negb (ToBoolean v) || negb (TypeTag_eqb (typeof v) TNumber)
  = negb (is_nonzero_number v).
Proof.
  destruct v as [| |b|x|s|l|l]; simpl; try reflexivity.
  - rewrite orb_true_r. reflexivity.
  - unfold number_truthy. rewrite orb_false_r. reflexivity.
  - rewrite orb_true_r. reflexivity.
Qed.

Lemma boolean_test (v : JsValue) :
  negb (TypeTag_eqb (typeof v) TBoolean) = negb (is_boolean v).
Proof. destruct v; reflexivity. Qed.

(** The validator on an input that is not [null] or [undefined], as one
    conditional on the four required fields. *)
Lemma validateThoughtData_unfold (data : JsValue) :
  data <> JNull -> data <> JUndefined ->
  validateThoughtData host data =
  if negb (is_nonempty_string (property data (u "thought"))) then
    Throw (Error (u "Invalid thought: must be a string"))
  else if negb (is_nonzero_number (property data (u "thoughtNumber"))) then
    Throw (Error (u "Invalid thoughtNumber: must be a number"))
  else if negb (is_nonzero_number (property data (u "totalThoughts"))) then
    Throw (Error (u "Invalid totalThoughts: must be a number"))
  else if negb (is_boolean (property data (u "nextThoughtNeeded"))) then
    Throw (Error (u "Invalid nextThoughtNeeded: must be a boolean"))
  else
    Ok {| thought := the_string (property data (u "thought"));
          thoughtNumber := the_number (property data (u "thoughtNumber"));
          totalThoughts := the_number (property data (u "totalThoughts"));
          nextThoughtNeeded := the_boolean (property data (u "nextThoughtNeeded"));
          isRevision := property data (u "isRevision");
          revisesThought := property data (u "revisesThought");
          branchFromThought := property data (u "branchFromThought");
          branchId := property data (u "branchId");
          needsMoreThoughts := property data (u "needsMoreThoughts") |}.
Proof.
  intros Hn Hu. unfold validateThoughtData.
  rewrite !Get_property by assumption. unfold bind_result.
  rewrite !nonempty_string_test, !nonzero_number_test, !boolean_test.
  reflexivity.
Qed.

End Validator.

(** *** Own properties *)

Section OwnProperties.

Context {A : Type}.
Implicit Types (props : list (jsstring * A)) (key k : jsstring) (v : A).

Lemma own_lookup_app_absent props key k v :
  own_lookup key props = None ->
  own_lookup k (props ++ [(key, v)]) =
  if jsstring_eqb key k then
    match own_lookup k props with Some x => Some x | None => Some v end
  else own_lookup k props.
Proof.
  induction props as [|[k0 x] rest IH]; simpl; intros Habs.
  - destruct (jsstring_eqb key k); reflexivity.
  - destruct (jsstring_eqb k0 key) eqn:E0; [discriminate|].
    destruct (jsstring_eqb k0 k) eqn:E1.
    + destruct (jsstring_eqb key k); reflexivity.
    + apply IH. exact Habs.
Qed.

Lemma own_lookup_replace props key k v :
  own_lookup k (own_replace key v props) =
  if jsstring_eqb key k then
    match own_lookup k props with Some _ => Some v | None => None end
  else own_lookup k props.
Proof.
  induction props as [|[k0 x] rest IH]; simpl.
  - destruct (jsstring_eqb key k); reflexivity.
  - destruct (jsstring_eqb k0 key) eqn:E0; simpl.
    + apply jsstring_eqb_eq in E0. subst k0.
      destruct (jsstring_eqb key k); reflexivity.
    + destruct (jsstring_eqb k0 k) eqn:E1.
      * destruct (jsstring_eqb key k) eqn:E2; [|reflexivity].
        apply jsstring_eqb_eq in E1, E2. subst.
        rewrite jsstring_eqb_refl in E0. discriminate.
      * apply IH.
Qed.

Lemma own_lookup_set_same props key v :
  own_lookup key (own_set key v props) = Some v.
Proof.
  unfold own_set. destruct (own_lookup key props) eqn:E.
  - rewrite own_lookup_replace, jsstring_eqb_refl, E. reflexivity.
  - rewrite own_lookup_app_absent by exact E.
    rewrite jsstring_eqb_refl, E. reflexivity.
Qed.

Lemma own_lookup_set_other props key k v :
  k <> key -> own_lookup k (own_set key v props) = own_lookup k props.
Proof.
  intros Hne. assert (jsstring_eqb key k = false) as Hk
    by (apply jsstring_eqb_neq; congruence).
  unfold own_set. destruct (own_lookup key props) eqn:E.
  - rewrite own_lookup_replace, Hk. reflexivity.
  - rewrite own_lookup_app_absent by exact E.
    rewrite Hk. reflexivity.
Qed.

End OwnProperties.

(** *** The heap *)

Lemma nth_last_allocated {A : Type} (l : list A) (x d : A) :
  nth (length l) (l ++ [x]) d = x.
Proof. induction l as [|y l IH]; simpl; [reflexivity | exact IH]. Qed.

Lemma update_nth_last_allocated {A : Type} (f : A -> A) (l : list A) (x : A) :
  update_nth (length l) f (l ++ [x]) = l ++ [f x].
Proof.
  induction l as [|y l IH]; simpl; [reflexivity | rewrite IH; reflexivity].
Qed.

Lemma with_totalThoughts_same (o : ThoughtData) :
  with_totalThoughts o (totalThoughts o) = o.
Proof. destruct o; reflexivity. Qed.

Section HandlerLemmas.

Variable host : Host.
Variable glyphs : Glyphs.

Lemma validate_and_correct_ok input s r :
  validateThoughtData host input = Ok r ->
  validate_and_correct host input s = (Ok (length (heap s)), allocated s r).
Proof.
  intros Hv. unfold validate_and_correct, bind, lift, alloc, deref.
  rewrite Hv. cbn [heap]. rewrite nth_last_allocated.
  unfold allocated, corrected_total.
  destruct (gt (thoughtNumber r) (totalThoughts r)).
  - unfold set_totalThoughts, ret. cbn [heap thoughtHistory branches console].
    rewrite update_nth_last_allocated. reflexivity.
  - unfold ret. rewrite with_totalThoughts_same. reflexivity.
Qed.

Lemma validate_and_correct_throw input s e :
  validateThoughtData host input = Throw e ->
  validate_and_correct host input s = (Throw e, s).
Proof.
  intros Hv. unfold validate_and_correct, bind, lift. rewrite Hv. reflexivity.
Qed.

(** *** Branch registration *)

Lemma branch_slot_own key (props : list (jsstring * list ref)) items :
  own_lookup key props = Some items -> branch_slot key props = OwnArray items.
Proof. intros H. unfold branch_slot. rewrite H. reflexivity. Qed.

(** What lines 112-117 do, case by case. *)
Lemma register_branch_cases a s :
  let o := nth a (heap s) blank in
  let s' := snd (register_branch host a s) in
  (ToBoolean (branchFromThought o) && ToBoolean (branchId o) = false /\
   register_branch host a s = (Ok tt, s))
  \/ (exists e, ToString host (branchId o) = Throw e /\
       register_branch host a s = (Throw e, s))
  \/ (exists key, ToString host (branchId o) = Ok key /\
       own_lookup key (branches s) = None /\ is_inherited key = true /\
       register_branch host a s =
       (Throw (TypeError (not_a_function_message host key)), s))
  \/ (exists key,
       ToBoolean (branchFromThought o) && ToBoolean (branchId o) = true /\
       ToString host (branchId o) = Ok key /\
       (is_inherited key = false \/ own_lookup key (branches s) <> None) /\
       fst (register_branch host a s) = Ok tt /\
       heap s' = heap s /\ thoughtHistory s' = thoughtHistory s /\
       console s' = console s /\
       own_lookup key (branches s') = Some (branch_items key s ++ [a]) /\
       forall k, k <> key ->
         own_lookup k (branches s') = own_lookup k (branches s)).
Proof.
  intros o s'. subst s'. unfold register_branch, bind, deref. fold o.
  destruct (ToBoolean (branchFromThought o) && ToBoolean (branchId o)) eqn:Hc.
  2:{ left. split; reflexivity. }
  right. unfold branches_get, branches_set_empty, branches_push, bind, lift.
  destruct (ToString host (branchId o)) as [key|e] eqn:Hk.
  2:{ left. exists e. split; reflexivity. }
  right.
  destruct (own_lookup key (branches s)) as [items|] eqn:Hl.
  - right. exists key.
    rewrite (branch_slot_own _ _ _ Hl). cbn [slot_truthy negb ret].
    rewrite (branch_slot_own _ _ _ Hl).
    cbn [fst snd heap thoughtHistory console branches].
    unfold branch_items. rewrite Hl.
    repeat split; try reflexivity.
    + right. discriminate.
    + apply own_lookup_set_same.
    + intros k Hne. apply own_lookup_set_other. exact Hne.
  - destruct (is_inherited key) eqn:Hi.
    + left. exists key.
      assert (branch_slot key (branches s) = Inherited) as Hs
        by (unfold branch_slot; rewrite Hl, Hi; reflexivity).
      rewrite Hs. cbn [slot_truthy negb ret]. rewrite Hs.
      repeat split; try reflexivity; assumption.
    + right. exists key.
      assert (branch_slot key (branches s) = Absent) as Hs
        by (unfold branch_slot; rewrite Hl, Hi; reflexivity).
      rewrite Hs. cbn [slot_truthy negb branches].
      rewrite (branch_slot_own key (own_set key [] (branches s)) [])
        by apply own_lookup_set_same.
      cbn [fst snd heap thoughtHistory console branches].
      unfold branch_items. rewrite Hl.
      repeat split; try reflexivity.
      * left. exact Hi.
      * apply own_lookup_set_same.
      * intros k Hne. rewrite !own_lookup_set_other by exact Hne. reflexivity.
Qed.

(** Registration touches nothing but [branches], and there it leaves every
    sequence as it was or appends the reference to it. *)
Lemma register_branch_effect a s :
  let s' := snd (register_branch host a s) in
  heap s' = heap s /\ thoughtHistory s' = thoughtHistory s /\
  console s' = console s /\
  forall k, own_lookup k (branches s') = own_lookup k (branches s)
            \/ own_lookup k (branches s') = Some (branch_items k s ++ [a]).
Proof.
  destruct (register_branch_cases a s)
    as [[_ H]|[(e & _ & H)|[(key & _ & _ & _ & H)|
        (key & _ & _ & _ & _ & Hh & Ht & Hc & Hsame & Hother)]]];
    cbn zeta; try (rewrite H; cbn [snd]; repeat split; intros; left; reflexivity).
  repeat split; try assumption.
  intros k. destruct (jsstring_eqb k key) eqn:E.
  - apply jsstring_eqb_eq in E. subst k. right. exact Hsame.
  - left. apply Hother. intros ->. rewrite jsstring_eqb_refl in E. discriminate.
Qed.

(** *** processThought, unfolded *)

Lemma processThought_invalid input s e :
  validateThoughtData host input = Throw e ->
  processThought host glyphs input s = (error_envelope e, s).
Proof.
  intros Hv. unfold processThought, processThought_try, bind.
  rewrite validate_and_correct_throw with (e := e) by exact Hv. reflexivity.
Qed.

Lemma processThought_valid input s r :
  validateThoughtData host input = Ok r ->
  processThought host glyphs input s =
  match register_branch host (length (heap s)) (stored s r) with
  | (Throw e, s2) => (error_envelope e, s2)
  | (Ok _, s2) =>
      match formatThought host glyphs (with_totalThoughts r (corrected_total r)) with
      | Throw e => (error_envelope e, s2)
      | Ok formattedThought =>
          (success_envelope host
             {| res_thoughtNumber := thoughtNumber r;
                res_totalThoughts := corrected_total r;
                res_nextThoughtNeeded := nextThoughtNeeded r;
                res_branches := Object_keys (branches s2);
                res_thoughtHistoryLength := length (thoughtHistory s2) |},
           {| heap := heap s2; thoughtHistory := thoughtHistory s2;
              branches := branches s2;
              console := console s2 ++ [formattedThought] |})
      end
  end.
Proof.
  intros Hv. unfold processThought, processThought_try, bind.
  rewrite validate_and_correct_ok with (r := r) by exact Hv.
  change (thoughtHistory_push (length (heap s)) (allocated s r))
    with (@Ok unit tt, stored s r).
  pose proof (register_branch_effect (length (heap s)) (stored s r))
    as (Hh & _ & _ & _). cbn zeta in Hh.
  destruct (register_branch host (length (heap s)) (stored s r))
    as [[[]|e] s2]; [|reflexivity].
  cbn [snd] in Hh. unfold deref, lift.
  rewrite Hh. cbn [stored heap]. rewrite nth_last_allocated.
  destruct (formatThought host glyphs (with_totalThoughts r (corrected_total r)))
    as [f|e]; [|reflexivity].
  unfold Logger_log, respond, summary, branches_keys, thoughtHistory_length,
    bind, deref, ret.
  cbn [heap thoughtHistory branches console fst snd].
  rewrite Hh. cbn [stored heap]. rewrite nth_last_allocated. reflexivity.
Qed.

(** What a call on a valid input leaves behind, whatever happens after the
    append: one more object, one more reference, and branch sequences that
    are as before or one reference longer. *)
Lemma processThought_valid_state input s r :
  validateThoughtData host input = Ok r ->
  let s' := snd (processThought host glyphs input s) in
  heap s' = heap s ++ [with_totalThoughts r (corrected_total r)]
  /\ thoughtHistory s' = thoughtHistory s ++ [length (heap s)]
  /\ forall k, own_lookup k (branches s') = own_lookup k (branches s)
               \/ own_lookup k (branches s')
                  = Some (branch_items k s ++ [length (heap s)]).
Proof.
  intros Hv. cbn zeta. rewrite processThought_valid with (r := r) by exact Hv.
  pose proof (register_branch_effect (length (heap s)) (stored s r))
    as (Hh & Ht & _ & Hb). cbn zeta in Hh, Ht, Hb.
  destruct (register_branch host (length (heap s)) (stored s r))
    as [[[]|e] s2]; cbn [snd] in *.
  - destruct (formatThought host glyphs _); cbn [snd heap thoughtHistory branches];
      repeat split; assumption.
  - repeat split; assumption.
Qed.

End HandlerLemmas.

(** *** When a call succeeds *)

(** A call that does not set [isError] was given a valid input, and the
    text it returns is that of the record's [thoughtNumber], of its
    corrected [totalThoughts], of its [nextThoughtNeeded] and of the keys
    of [branches] and the length of the history as the call leaves them. *)
Lemma processThought_success host glyphs input s :
  isError (fst (processThought host glyphs input s)) = None ->
  exists r,
    validateThoughtData host input = Ok r
    /\ fst (processThought host glyphs input s)
       = success_envelope host
           {| res_thoughtNumber := thoughtNumber r;
              res_totalThoughts := corrected_total r;
              res_nextThoughtNeeded := nextThoughtNeeded r;
              res_branches :=
                Object_keys
                  (branches (snd (processThought host glyphs input s)));
              res_thoughtHistoryLength :=
                length
                  (thoughtHistory
                     (snd (processThought host glyphs input s))) |}.
Proof.
  destruct (validateThoughtData host input) as [r|e] eqn:Hv.
  - rewrite (processThought_valid host glyphs input s r Hv).
    destruct (register_branch host (length (heap s)) (stored s r))
      as [[[]|e] s2]; [|discriminate].
    destruct (formatThought host glyphs _); [|discriminate].
    intros _. exists r. split; reflexivity.
  - rewrite (processThought_invalid host glyphs input s e Hv). discriminate.
Qed.

Lemma ToString_primitive host v :
  is_primitive v = true -> exists t, ToString host v = Ok t.
Proof.
  destruct v as [| |[]|x|t|l|l]; simpl; intros H; try discriminate;
    eexists; reflexivity.
Qed.

Lemma formatThought_primitive host glyphs o :
  is_primitive (revisesThought o) = true ->
  is_primitive (branchFromThought o) = true ->
  is_primitive (branchId o) = true ->
  exists f, formatThought host glyphs o = Ok f.
Proof.
  intros H1 H2 H3. unfold formatThought.
  destruct (ToString_primitive host _ H1) as (t1 & ->).
  destruct (ToString_primitive host _ H2) as (t2 & ->).
  destruct (ToString_primitive host _ H3) as (t3 & ->).
  destruct (ToBoolean (isRevision o)); [eexists; reflexivity|].
  destruct (ToBoolean (branchFromThought o)); eexists; reflexivity.
Qed.

(** Nothing after the append throws when the optional fields that are
    converted to strings are not objects and the branch key, if the record
    has one, is not an inherited name: the call does not set [isError], and
    logs the rendering of the record. *)
Lemma primitive_input_succeeds host glyphs input s r :
  validateThoughtData host input = Ok r ->
  is_primitive (revisesThought r) = true ->
  is_primitive (branchFromThought r) = true ->
  is_primitive (branchId r) = true ->
  (ToBoolean (branchFromThought r) && ToBoolean (branchId r) = true ->
   forall key, ToString host (branchId r) = Ok key -> is_inherited key = false) ->
  exists f,
    formatThought host glyphs (with_totalThoughts r (corrected_total r)) = Ok f
    /\ isError (fst (processThought host glyphs input s)) = None
    /\ console (snd (processThought host glyphs input s)) = console s ++ [f].
Proof.
  intros Hv Hp1 Hp2 Hp3 Hkey.
  destruct (formatThought_primitive host glyphs
              (with_totalThoughts r (corrected_total r)) Hp1 Hp2 Hp3) as (f & Hf).
  exists f. split; [exact Hf|].
  rewrite (processThought_valid host glyphs input s r Hv).
  pose proof (register_branch_cases host (length (heap s)) (stored s r)) as Hc.
  cbn zeta in Hc. cbn [stored heap] in Hc. rewrite nth_last_allocated in Hc.
  cbn [with_totalThoughts branchFromThought branchId] in Hc.
  fold (stored s r) in Hc.
  destruct (ToString_primitive host _ Hp3) as (key & Hk).
  rewrite Hk in Hc.
  destruct Hc as [[_ H]|[(e & He & _)|[(key' & Hk' & _ & Hi' & _)|
    (key' & Hcond & _ & _ & Hok & _ & _ & Hcons & _)]]]; try discriminate.
  - rewrite H, Hf. split; reflexivity.
  - injection Hk' as <-.
    destruct (ToBoolean (branchFromThought r) && ToBoolean (branchId r)) eqn:Hcond.
    + rewrite (Hkey eq_refl key Hk) in Hi'. discriminate.
    + pose proof (register_branch_cases host (length (heap s)) (stored s r)) as Hc.
      cbn zeta in Hc. cbn [stored heap] in Hc. rewrite nth_last_allocated in Hc.
      cbn [with_totalThoughts branchFromThought branchId] in Hc.
      fold (stored s r) in Hc. rewrite Hcond, Hk in Hc.
      destruct Hc as [[_ H]|[(e & He & _)|[(k2 & _ & _ & _ & H)|
        (k2 & Hc2 & _)]]]; try discriminate.
      * rewrite H, Hf. split; reflexivity.
      * exfalso. unfold register_branch, bind, deref in H.
        cbn [stored heap] in H. rewrite nth_last_allocated in H.
        cbn [with_totalThoughts branchFromThought branchId] in H.
        rewrite Hcond in H. discriminate.
  - destruct (register_branch host (length (heap s)) (stored s r))
      as [[[]|e] s2]; cbn [fst snd] in *; [|discriminate].
    rewrite Hf. cbn [fst snd console isError success_envelope].
    rewrite Hcons. split; reflexivity.
Qed.

(** *** Histories only grow *)

Lemma nth_error_last_allocated {A : Type} (l : list A) (x : A) :
  nth_error (l ++ [x]) (length l) = Some x.
Proof. induction l as [|y l IH]; simpl; [reflexivity | exact IH]. Qed.

Lemma nth_error_app_kept {A : Type} (l ext : list A) (n : nat) (x : A) :
  nth_error l n = Some x -> nth_error (l ++ ext) n = Some x.
Proof.
  revert n. induction l as [|y l IH]; intros [|n]; simpl; try discriminate.
  - trivial.
  - apply IH.
Qed.

Lemma extends_refl (s : State) : extends s s.
Proof.
  repeat split.
  - exists []. symmetry. apply app_nil_r.
  - exists []. symmetry. apply app_nil_r.
  - intros k items H. exists []. rewrite app_nil_r. exact H.
Qed.

Lemma extends_trans (s1 s2 s3 : State) :
  extends s1 s2 -> extends s2 s3 -> extends s1 s3.
Proof.
  intros ((o1 & Ho1) & (r1 & Hr1) & Hb1) ((o2 & Ho2) & (r2 & Hr2) & Hb2).
  repeat split.
  - exists (o1 ++ o2). rewrite Ho2, Ho1. symmetry. apply app_assoc.
  - exists (r1 ++ r2). rewrite Hr2, Hr1. symmetry. apply app_assoc.
  - intros k items H. destruct (Hb1 _ _ H) as (x1 & H1).
    destruct (Hb2 _ _ H1) as (x2 & H2). exists (x1 ++ x2).
    rewrite H2. f_equal. symmetry. apply app_assoc.
Qed.

Lemma processThought_extends host glyphs input s :
  extends s (snd (processThought host glyphs input s)).
Proof.
  destruct (validateThoughtData host input) as [r|e] eqn:Hv.
  - destruct (processThought_valid_state host glyphs input s r Hv) as (Hh & Ht & Hb).
    repeat split.
    + eexists. exact Hh.
    + eexists. exact Ht.
    + intros k items Hk. destruct (Hb k) as [H|H]; rewrite H.
      * exists []. rewrite app_nil_r. exact Hk.
      * unfold branch_items. rewrite Hk. eexists. reflexivity.
  - rewrite processThought_invalid with (e := e) by exact Hv. apply extends_refl.
Qed.

Lemma run_extends host glyphs inputs s :
  extends s (run host glyphs inputs s).
Proof.
  revert s. induction inputs as [|input rest IH]; intros s; simpl.
  - apply extends_refl.
  - eapply extends_trans; [apply processThought_extends | apply IH].
Qed.

(** *** The validator *)

(** C2, as the source has it.  For every input other than [null] and
    [undefined], the validator returns a record exactly when [thought] is a
    non-empty string, [thoughtNumber] and [totalThoughts] are numbers other
    than 0 and NaN, and [nextThoughtNeeded] is a boolean; otherwise it throws
    the error of the first of the four fields, in this order, that fails its
    test.  Nothing else is tested: the record holds the four values and the
    five optional properties as they were in the input. *)
Theorem validateThoughtData_accepts_iff (host : Host) (data : JsValue) :
  data <> JNull -> data <> JUndefined ->
  let ok1 := is_nonempty_string (property data (u "thought")) in
  let ok2 := is_nonzero_number (property data (u "thoughtNumber")) in
  let ok3 := is_nonzero_number (property data (u "totalThoughts")) in
  let ok4 := is_boolean (property data (u "nextThoughtNeeded")) in
  ((exists r, validateThoughtData host data = Ok r)
   <-> ok1 && ok2 && ok3 && ok4 = true)
  /\ (ok1 = false ->
      validateThoughtData host data
      = Throw (Error (u "Invalid thought: must be a string")))
  /\ (ok1 = true -> ok2 = false ->
      validateThoughtData host data
      = Throw (Error (u "Invalid thoughtNumber: must be a number")))
  /\ (ok1 = true -> ok2 = true -> ok3 = false ->
      validateThoughtData host data
      = Throw (Error (u "Invalid totalThoughts: must be a number")))
  /\ (ok1 = true -> ok2 = true -> ok3 = true -> ok4 = false ->
      validateThoughtData host data
      = Throw (Error (u "Invalid nextThoughtNeeded: must be a boolean")))
  /\ (ok1 && ok2 && ok3 && ok4 = true ->
      validateThoughtData host data
      = Ok {| thought := the_string (property data (u "thought"));
              thoughtNumber := the_number (property data (u "thoughtNumber"));
              totalThoughts := the_number (property data (u "totalThoughts"));
              nextThoughtNeeded :=
                the_boolean (property data (u "nextThoughtNeeded"));
              isRevision := property data (u "isRevision");
              revisesThought := property data (u "revisesThought");
              branchFromThought := property data (u "branchFromThought");
              branchId := property data (u "branchId");
              needsMoreThoughts := property data (u "needsMoreThoughts") |}).
Proof.
  intros Hn Hu ok1 ok2 ok3 ok4.
  rewrite (validateThoughtData_unfold host data Hn Hu).
  fold ok1 ok2 ok3 ok4.
  destruct ok1, ok2, ok3, ok4; cbn [negb andb];
    repeat split; intros; try discriminate; try reflexivity;
    try (eexists; reflexivity);
    match goal with H : exists _, _ |- _ => destruct H; discriminate end.
Qed.

(** The validator on an input with negative numbers: accepted, since no
    minimum is tested. *)
Lemma validateThoughtData_accepts_iff_witness :
  negative_numbers <> JNull /\ negative_numbers <> JUndefined /\
  validateThoughtData example_host negative_numbers
  = Ok (plain_record (u "step1") (-5) (-7) true).
Proof.
  split; [discriminate|]. split; [discriminate|].
  destruct (validateThoughtData_accepts_iff example_host negative_numbers)
    as (_ & _ & _ & _ & _ & H); [discriminate | discriminate |].
  exact (H eq_refl).
Defined.

(** C2 as stated fails: an empty [thought], a [thoughtNumber] of 0 and a
    [totalThoughts] of NaN are present and of the right type, and the
    validator rejects them (0 is below the minimum of the protocol, so a
    value out of range is rejected); on [null] the error is the engine's
    [TypeError], not the error of a field. *)
Lemma validateThoughtData_rejects_typed_fields :
  (spec_accepts empty_thought = true /\
   validateThoughtData example_host empty_thought
   = Throw (Error (u "Invalid thought: must be a string")))
  /\ (spec_accepts zero_thoughtNumber = true /\
      validateThoughtData example_host zero_thoughtNumber
      = Throw (Error (u "Invalid thoughtNumber: must be a number")))
  /\ (spec_accepts nan_totalThoughts = true /\
      validateThoughtData example_host nan_totalThoughts
      = Throw (Error (u "Invalid totalThoughts: must be a number")))
  /\ validateThoughtData example_host JNull
     = Throw (TypeError (u "Cannot read properties of null (reading 'thought')")).
Proof. repeat split; reflexivity. Qed.

(** *** The handler on a valid input *)

(** C1.  On every input the validator accepts, the record is corrected
    before it is appended: once lines 104-108 have run the history is as it
    was and the new object already has, as [totalThoughts], the input's
    [thoughtNumber] when that is greater than the input's [totalThoughts],
    and the input's [totalThoughts] otherwise.  After the call the last
    reference of the history is to that object.  A call that does not set
    [isError] returns the text in which JSON.stringify writes that
    [totalThoughts], by Number::toString when it is finite and as [null]
    when it is not; and the call does not set [isError] when the optional
    fields that are converted to strings are not objects and the branch
    key, if the record has one, is not an inherited name. *)
Theorem totalThoughts_self_correction
  (host : Host) (glyphs : Glyphs) (input : JsValue) (s : State) (r : ThoughtData) :
  validateThoughtData host input = Ok r ->
  let total :=
    if gt (thoughtNumber r) (totalThoughts r) then thoughtNumber r
    else totalThoughts r in
  let a := length (heap s) in
  let s' := snd (processThought host glyphs input s) in
  (exists s0 o,
     validate_and_correct host input s = (Ok a, s0)
     /\ thoughtHistory s0 = thoughtHistory s
     /\ nth_error (heap s0) a = Some o /\ totalThoughts o = total)
  /\ thoughtHistory s' = thoughtHistory s ++ [a]
  /\ (exists o, nth_error (heap s') a = Some o /\ totalThoughts o = total)
  /\ (isError (fst (processThought host glyphs input s)) = None ->
      fst (processThought host glyphs input s)
      = {| content :=
             [{| type_ := u "text";
                 text :=
                   SerializeJSONObject []
                     [(u "thoughtNumber",
                       SerializeJSONNumber host (thoughtNumber r));
                      (u "totalThoughts",
                       if is_finite total then Number_toString host total
                       else u "null");
                      (u "nextThoughtNeeded",
                       SerializeJSONBoolean (nextThoughtNeeded r));
                      (u "branches",
                       SerializeJSONArray gap
                         (map QuoteJSONString (Object_keys (branches s'))));
                      (u "thoughtHistoryLength",
                       SerializeJSONLength (length (thoughtHistory s')))] |}];
           isError := None |})
  /\ (is_primitive (revisesThought r) = true ->
      is_primitive (branchFromThought r) = true ->
      is_primitive (branchId r) = true ->
      (ToBoolean (branchFromThought r) && ToBoolean (branchId r) = true ->
       forall key, ToString host (branchId r) = Ok key ->
                   is_inherited key = false) ->
      isError (fst (processThought host glyphs input s)) = None).
Proof.
  intros Hv total a s'.
  destruct (processThought_valid_state host glyphs input s r Hv) as (Hh & Ht & _).
  split; [|split; [exact Ht|split; [|split]]].
  - exists (allocated s r), (with_totalThoughts r (corrected_total r)).
    split; [apply validate_and_correct_ok; exact Hv|].
    split; [reflexivity|]. split; [|reflexivity].
    apply nth_error_last_allocated.
  - exists (with_totalThoughts r (corrected_total r)). subst s'. rewrite Hh.
    split; [apply nth_error_last_allocated | reflexivity].
  - intros Hs.
    destruct (processThought_success host glyphs input s Hs) as (r' & Hr' & He).
    rewrite Hv in Hr'. injection Hr' as <-. exact He.
  - intros Hp1 Hp2 Hp3 Hkey.
    destruct (primitive_input_succeeds host glyphs input s r Hv Hp1 Hp2 Hp3 Hkey)
      as (f & _ & Hs & _).
    exact Hs.
Qed.

(** On [step2], whose [thoughtNumber] 5 exceeds its [totalThoughts] 3, the
    stored record has 5 and so has the text returned. *)
Lemma totalThoughts_self_correction_witness :
  validateThoughtData example_host step2
  = Ok (plain_record (u "step2") 5 3 false)
  /\ (exists o,
        nth_error
          (heap (snd (processThought example_host js_glyphs step2 initial_state))) 0
        = Some o
        /\ totalThoughts o = 5%float)
  /\ fst (processThought example_host js_glyphs step2 initial_state)
     = {| content :=
            [{| type_ := u "text";
                text :=
                  lines
                    [u "{";
                     u "  " ++ quoted "thoughtNumber" ++ u ": 5,";
                     u "  " ++ quoted "totalThoughts" ++ u ": 5,";
                     u "  " ++ quoted "nextThoughtNeeded" ++ u ": false,";
                     u "  " ++ quoted "branches" ++ u ": [],";
                     u "  " ++ quoted "thoughtHistoryLength" ++ u ": 1";
                     u "}"] |}];
          isError := None |}.
Proof.
  split; [reflexivity|].
  destruct (totalThoughts_self_correction example_host js_glyphs step2
              initial_state (plain_record (u "step2") 5 3 false) eq_refl)
    as (_ & _ & H & He & Hs).
  split; [exact H|].
  refine (eq_trans (He (Hs eq_refl eq_refl eq_refl _)) eq_refl).
  intros Hb. discriminate Hb.
Defined.

(** C1 as stated fails where the input's [thoughtNumber] is infinite: the
    validator accepts the input, its [thoughtNumber] is greater than its
    [totalThoughts] of 1, the stored record has the [totalThoughts]
    Infinity, and the success envelope echoes [null], not the number
    Number::toString writes [Infinity]. *)
Lemma infinite_thoughtNumber_is_echoed_as_null :
  let body :=
    lines
      [u "{";
       u "  " ++ quoted "thoughtNumber" ++ u ": null,";
       u "  " ++ quoted "totalThoughts" ++ u ": null,";
       u "  " ++ quoted "nextThoughtNeeded" ++ u ": true,";
       u "  " ++ quoted "branches" ++ u ": [],";
       u "  " ++ quoted "thoughtHistoryLength" ++ u ": 1";
       u "}"] in
  validateThoughtData example_host infinite_thoughtNumber
  = Ok (plain_record (u "far") PrimFloat.infinity 1 true)
  /\ gt PrimFloat.infinity 1 = true
  /\ heap (snd (processThought example_host js_glyphs infinite_thoughtNumber
                  initial_state))
     = [plain_record (u "far") PrimFloat.infinity PrimFloat.infinity true]
  /\ fst (processThought example_host js_glyphs infinite_thoughtNumber
            initial_state)
     = {| content := [{| type_ := u "text"; text := body |}];
          isError := None |}
  /\ Number_toString example_host PrimFloat.infinity = u "Infinity"
  /\ echoes body (u "totalThoughts")
            (Number_toString example_host PrimFloat.infinity) = false
  /\ echoes body (u "totalThoughts") (u "null") = true.
Proof. cbv zeta. repeat split; reflexivity. Qed.

(** C4.  A call on a valid input makes the history exactly one longer; no
    call, and no sequence of calls, makes it shorter. *)
Theorem history_append_only (host : Host) (glyphs : Glyphs) :
  (forall input s r,
     validateThoughtData host input = Ok r ->
     length (thoughtHistory (snd (processThought host glyphs input s)))
     = S (length (thoughtHistory s)))
  /\ (forall input s,
       length (thoughtHistory s)
       <= length (thoughtHistory (snd (processThought host glyphs input s))))
  /\ (forall inputs s,
       length (thoughtHistory s)
       <= length (thoughtHistory (run host glyphs inputs s))).
Proof.
  split; [|split].
  - intros input s r Hv.
    destruct (processThought_valid_state host glyphs input s r Hv) as (_ & Ht & _).
    rewrite Ht, length_app. simpl. lia.
  - intros input s.
    destruct (processThought_extends host glyphs input s) as (_ & (refs & Ht) & _).
    rewrite Ht, length_app. lia.
  - intros inputs s.
    destruct (run_extends host glyphs inputs s) as (_ & (refs & Ht) & _).
    rewrite Ht, length_app. lia.
Qed.

Lemma history_append_only_witness :
  validateThoughtData example_host step1
  = Ok (plain_record (u "step1") 1 3 true)
  /\ length (thoughtHistory (snd (processThought example_host js_glyphs step1 initial_state)))
     = 1.
Proof.
  split; [reflexivity|].
  destruct (history_append_only example_host js_glyphs) as (H & _).
  exact (H step1 initial_state (plain_record (u "step1") 1 3 true) eq_refl).
Defined.

(** *** The handler on an invalid input *)



(** C10.  When the validator throws, the call leaves the whole session state
    as it was: the objects, the history, the branches and the log. *)
Theorem invalid_input_state_unchanged
  (host : Host) (glyphs : Glyphs) (input : JsValue) (s : State) (e : JsError) :
  validateThoughtData host input = Throw e ->
  snd (processThought host glyphs input s) = s
  /\ branches (snd (processThought host glyphs input s)) = branches s
  /\ Object_keys (branches (snd (processThought host glyphs input s)))
     = Object_keys (branches s)
  /\ thoughtHistory (snd (processThought host glyphs input s)) = thoughtHistory s.
Proof.
  intros Hv. rewrite (processThought_invalid host glyphs input s e Hv).
  repeat split; reflexivity.
Qed.

Lemma invalid_input_state_unchanged_witness :
  validateThoughtData example_host zero_thoughtNumber
  = Throw (Error (u "Invalid thoughtNumber: must be a number"))
  /\ snd (processThought example_host js_glyphs zero_thoughtNumber
            (run example_host js_glyphs [step1] initial_state))
     = run example_host js_glyphs [step1] initial_state.
Proof.
  split; [reflexivity|].
  exact (proj1 (invalid_input_state_unchanged example_host js_glyphs
                  zero_thoughtNumber (run example_host js_glyphs [step1] initial_state)
                  (Error (u "Invalid thoughtNumber: must be a number")) eq_refl)).
Defined.

(** *** The branch index *)

Lemma processThought_valid_branches host glyphs input s r :
  validateThoughtData host input = Ok r ->
  branches (snd (processThought host glyphs input s))
  = branches (snd (register_branch host (length (heap s)) (stored s r))).
Proof.
  intros Hv. rewrite (processThought_valid host glyphs input s r Hv).
  destruct (register_branch host (length (heap s)) (stored s r))
    as [[[]|e] s2]; [|reflexivity].
  destruct (formatThought host glyphs _); reflexivity.
Qed.

Lemma reachable_branches_within_history host glyphs s :
  reachable host glyphs s -> branches_within_history s.
Proof.
  induction 1 as [|s input Hr [IHb IHh]].
  - split; [intros k items a H; discriminate | intros a []].
  - destruct (validateThoughtData host input) as [r|e] eqn:Hv.
    2:{ rewrite (processThought_invalid host glyphs input s e Hv).
        split; assumption. }
    destruct (processThought_valid_state host glyphs input s r Hv)
      as (Hh & Ht & Hb).
    split.
    + intros k items a Hk Hin. rewrite Ht. apply in_or_app.
      destruct (Hb k) as [Hsame|Hnew].
      * left. rewrite Hsame in Hk. exact (IHb k items a Hk Hin).
      * rewrite Hnew in Hk. injection Hk as <-.
        apply in_app_or in Hin as [Hin|Hin]; [left|right; exact Hin].
        unfold branch_items in Hin.
        destruct (own_lookup k (branches s)) as [old|] eqn:Hold; [|destruct Hin].
        exact (IHb k old a Hold Hin).
    + intros a Hin. rewrite Hh, length_app. rewrite Ht in Hin.
      apply in_app_or in Hin as [Hin|[<-|[]]]; simpl.
      * specialize (IHh a Hin). lia.
      * lia.
Qed.

(** C3, as the source has it.  When the validated record has a truthy
    [branchFromThought] and a truthy [branchId] whose property key is not a
    name inherited from [Object.prototype], the call appends the reference
    of the record, the one it appends to the history, at the end of the
    sequence of that branch, which begins empty on first use, and leaves the
    other sequences as they were.  In every reachable state each reference
    of a branch sequence is a reference of the history, and each reference
    of the history is to an object. *)
Theorem branch_registration (host : Host) (glyphs : Glyphs) :
  (forall input s r key,
     validateThoughtData host input = Ok r ->
     ToBoolean (branchFromThought r) = true ->
     ToBoolean (branchId r) = true ->
     ToString host (branchId r) = Ok key ->
     is_inherited key = false ->
     let a := length (heap s) in
     let s' := snd (processThought host glyphs input s) in
     thoughtHistory s' = thoughtHistory s ++ [a]
     /\ (exists o, nth_error (heap s') a = Some o /\ thought o = thought r
                   /\ thoughtNumber o = thoughtNumber r
                   /\ branchFromThought o = branchFromThought r
                   /\ branchId o = branchId r)
     /\ own_lookup key (branches s') = Some (branch_items key s ++ [a])
     /\ forall k, k <> key ->
          own_lookup k (branches s') = own_lookup k (branches s))
  /\ (forall s, reachable host glyphs s ->
       (forall k items a,
          own_lookup k (branches s) = Some items -> In a items ->
          In a (thoughtHistory s))
       /\ (forall a, In a (thoughtHistory s) ->
            exists o, nth_error (heap s) a = Some o)).
Proof.
  split.
  - intros input s r key Hv Hfrom Hid Hkey Hinh a s'.
    destruct (processThought_valid_state host glyphs input s r Hv) as (Hh & Ht & _).
    split; [exact Ht|]. subst s'.
    split.
    { exists (with_totalThoughts r (corrected_total r)). rewrite Hh.
      split; [apply nth_error_last_allocated | repeat split; reflexivity]. }
    rewrite (processThought_valid_branches host glyphs input s r Hv).
    pose proof (register_branch_cases host (length (heap s)) (stored s r)) as Hc.
    cbn zeta in Hc. cbn [stored heap] in Hc. rewrite nth_last_allocated in Hc.
    cbn [with_totalThoughts branchFromThought branchId] in Hc.
    rewrite Hfrom, Hid, Hkey in Hc. cbn [andb] in Hc.
    destruct Hc as [[Hf _]|[(e & He & _)|[(key' & Hk' & _ & Hi' & _)|
      (key' & _ & Hk' & _ & _ & _ & _ & _ & Hsame & Hother)]]];
      try discriminate.
    + injection Hk' as <-. rewrite Hinh in Hi'. discriminate.
    + injection Hk' as <-. split; [exact Hsame | exact Hother].
  - intros s Hr. destruct (reachable_branches_within_history host glyphs s Hr)
      as (Hb & Hh).
    split; [exact Hb|].
    intros a Hin. specialize (Hh a Hin).
    destruct (nth_error (heap s) a) as [o|] eqn:E; [exists o; reflexivity|].
    apply nth_error_None in E. lia.
Qed.

(** Two records of branch [b1], then the sequence of [b1]. *)
Lemma branch_registration_witness :
  validateThoughtData example_host (branch_step (JNumber 1) (JString (u "b1")))
  = Ok (branch_record (JNumber 1) (JString (u "b1")))
  /\ own_lookup (u "b1")
       (branches
          (snd (processThought example_host js_glyphs
                  (branch_step (JNumber 1) (JString (u "b1")))
                  (run example_host js_glyphs
                     [branch_step (JNumber 1) (JString (u "b1"))] initial_state))))
     = Some [0; 1].
Proof.
  split; [reflexivity|].
  destruct (branch_registration example_host js_glyphs) as (H & _).
  exact (proj1 (proj2 (proj2
    (H (branch_step (JNumber 1) (JString (u "b1")))
       (run example_host js_glyphs
          [branch_step (JNumber 1) (JString (u "b1"))] initial_state)
       (branch_record (JNumber 1) (JString (u "b1"))) (u "b1")
       eq_refl eq_refl eq_refl eq_refl eq_refl)))).
Defined.

(** C3 as stated fails: a [branchFromThought] of 0, or an empty [branchId],
    is present in the validated record, and the call appends nothing to
    [branches]. *)
Lemma present_branch_fields_not_registered :
  (validateThoughtData example_host (branch_step (JNumber 0) (JString (u "b1")))
   = Ok (branch_record (JNumber 0) (JString (u "b1")))
   /\ present (JNumber 0) = true /\ present (JString (u "b1")) = true
   /\ branches
        (snd (processThought example_host js_glyphs
                (branch_step (JNumber 0) (JString (u "b1"))) initial_state))
      = [])
  /\ (validateThoughtData example_host (branch_step (JNumber 1) (JString []))
      = Ok (branch_record (JNumber 1) (JString []))
      /\ present (JNumber 1) = true /\ present (JString []) = true
      /\ branches
           (snd (processThought example_host js_glyphs
                   (branch_step (JNumber 1) (JString [])) initial_state))
         = []).
Proof. repeat split; reflexivity. Qed.

(** A [branchId] that names an inherited property: the record is in the
    history, the call fails at [push], and [branches] is as it was. *)
Lemma inherited_branchId_throws_after_append :
  processThought example_host js_glyphs
    (branch_step (JNumber 1) (JString (u "toString"))) initial_state
  = (error_envelope
       (TypeError
          (u "this.branches[validatedInput.branchId].push is not a function")),
     {| heap := [branch_record (JNumber 1) (JString (u "toString"))];
        thoughtHistory := [0]; branches := []; console := [] |}).
Proof. reflexivity. Qed.

(** *** The success envelope *)

(** C7.  From the empty session, [step1] returns the text of thoughtNumber
    1, totalThoughts 3, nextThoughtNeeded true, no branch and a history of
    length 1; [step2] after it returns totalThoughts 5 and a history of
    length 2.  Whenever a call does not set [isError], its input was valid
    and the text it returns is the one JSON.stringify writes for the
    record's [thoughtNumber], its corrected [totalThoughts], its
    [nextThoughtNeeded], the keys of [branches] and the length of the
    history, both as the call leaves them; a number that is not finite is
    written [null]. *)
Theorem success_envelope_contents (host : Host) (glyphs : Glyphs) :
  fst (processThought host glyphs step1 initial_state)
  = success_envelope host
      {| res_thoughtNumber := 1; res_totalThoughts := 3;
         res_nextThoughtNeeded := true; res_branches := [];
         res_thoughtHistoryLength := 1 |}
  /\ fst (processThought host glyphs step2
            (snd (processThought host glyphs step1 initial_state)))
     = success_envelope host
         {| res_thoughtNumber := 5; res_totalThoughts := 5;
            res_nextThoughtNeeded := false; res_branches := [];
            res_thoughtHistoryLength := 2 |}
  /\ StringifySuccess host
       {| res_thoughtNumber := 1; res_totalThoughts := 3;
          res_nextThoughtNeeded := true; res_branches := [];
          res_thoughtHistoryLength := 1 |}
     = lines
         [u "{";
          u "  " ++ quoted "thoughtNumber" ++ u ": "
          ++ Number_toString host 1 ++ u ",";
          u "  " ++ quoted "totalThoughts" ++ u ": "
          ++ Number_toString host 3 ++ u ",";
          u "  " ++ quoted "nextThoughtNeeded" ++ u ": true,";
          u "  " ++ quoted "branches" ++ u ": [],";
          u "  " ++ quoted "thoughtHistoryLength" ++ u ": 1";
          u "}"]
  /\ (forall input s,
        isError (fst (processThought host glyphs input s)) = None ->
        exists r,
          validateThoughtData host input = Ok r
          /\ let total :=
               if gt (thoughtNumber r) (totalThoughts r)
               then thoughtNumber r else totalThoughts r in
             let s' := snd (processThought host glyphs input s) in
             fst (processThought host glyphs input s)
             = {| content :=
                    [{| type_ := u "text";
                        text :=
                          SerializeJSONObject []
                            [(u "thoughtNumber",
                              if is_finite (thoughtNumber r)
                              then Number_toString host (thoughtNumber r)
                              else u "null");
                             (u "totalThoughts",
                              if is_finite total
                              then Number_toString host total
                              else u "null");
                             (u "nextThoughtNeeded",
                              if nextThoughtNeeded r then u "true"
                              else u "false");
                             (u "branches",
                              SerializeJSONArray gap
                                (map QuoteJSONString
                                     (Object_keys (branches s'))));
                             (u "thoughtHistoryLength",
                              SerializeJSONLength
                                (length (thoughtHistory s')))] |}];
                  isError := None |}).
Proof.
  split; [reflexivity|]. split; [reflexivity|]. split.
  - unfold StringifySuccess, SerializeJSONObject, SerializeJSONNumber, lines.
    change (is_finite 1) with true. change (is_finite 3) with true.
    cbn [map join fst snd res_thoughtNumber res_totalThoughts].
    rewrite <- !app_assoc. reflexivity.
  - intros input s Hs.
    destruct (processThought_success host glyphs input s Hs) as (r & Hr & He).
    exists r. split; [exact Hr | exact He].
Qed.

(** The envelope of a second record of branch [b1]. *)
Lemma success_envelope_contents_witness :
  fst (processThought example_host js_glyphs
         (branch_step (JNumber 1) (JString (u "b1")))
         (run example_host js_glyphs
            [branch_step (JNumber 1) (JString (u "b1"))] initial_state))
  = {| content :=
         [{| type_ := u "text";
             text :=
               lines
                 [u "{";
                  u "  " ++ quoted "thoughtNumber" ++ u ": 2,";
                  u "  " ++ quoted "totalThoughts" ++ u ": 3,";
                  u "  " ++ quoted "nextThoughtNeeded" ++ u ": true,";
                  u "  " ++ quoted "branches" ++ u ": [";
                  u "    " ++ quoted "b1";
                  u "  ],";
                  u "  " ++ quoted "thoughtHistoryLength" ++ u ": 2";
                  u "}"] |}];
       isError := None |}
  /\ StringifySuccess example_host
       {| res_thoughtNumber := 1; res_totalThoughts := 3;
          res_nextThoughtNeeded := true; res_branches := [];
          res_thoughtHistoryLength := 1 |}
     = lines
         [u "{";
          u "  " ++ quoted "thoughtNumber" ++ u ": 1,";
          u "  " ++ quoted "totalThoughts" ++ u ": 3,";
          u "  " ++ quoted "nextThoughtNeeded" ++ u ": true,";
          u "  " ++ quoted "branches" ++ u ": [],";
          u "  " ++ quoted "thoughtHistoryLength" ++ u ": 1";
          u "}"].
Proof.
  destruct (success_envelope_contents example_host js_glyphs)
    as (_ & _ & Ht & H).
  split.
  - destruct (H (branch_step (JNumber 1) (JString (u "b1")))
                (run example_host js_glyphs
                   [branch_step (JNumber 1) (JString (u "b1"))] initial_state)
                eq_refl) as (r & Hr & He).
    injection Hr as <-. exact He.
  - exact Ht.
Defined.

(** C7 as stated fails where a number of the record is infinite: on an
    input with the [totalThoughts] Infinity, which the validator accepts,
    the call succeeds and the record keeps Infinity, but the envelope does
    not contain that [totalThoughts]: the text has [null] in its place. *)
Lemma infinite_totalThoughts_is_not_in_the_envelope :
  let body :=
    lines
      [u "{";
       u "  " ++ quoted "thoughtNumber" ++ u ": 4,";
       u "  " ++ quoted "totalThoughts" ++ u ": null,";
       u "  " ++ quoted "nextThoughtNeeded" ++ u ": true,";
       u "  " ++ quoted "branches" ++ u ": [],";
       u "  " ++ quoted "thoughtHistoryLength" ++ u ": 1";
       u "}"] in
  validateThoughtData example_host infinite_totalThoughts
  = Ok (plain_record (u "open") 4 PrimFloat.infinity true)
  /\ heap (snd (processThought example_host js_glyphs infinite_totalThoughts
                  initial_state))
     = [plain_record (u "open") 4 PrimFloat.infinity true]
  /\ fst (processThought example_host js_glyphs infinite_totalThoughts
            initial_state)
     = {| content := [{| type_ := u "text"; text := body |}];
          isError := None |}
  /\ Number_toString example_host PrimFloat.infinity = u "Infinity"
  /\ echoes body (u "thoughtNumber") (Number_toString example_host 4) = true
  /\ echoes body (u "totalThoughts")
            (Number_toString example_host PrimFloat.infinity) = false
  /\ echoes body (u "totalThoughts") (u "null") = true.
Proof. cbv zeta. repeat split; reflexivity. Qed.

(** *** Stored records *)

(** C8.  On a valid input the object the call stores has the validator's
    [thought], [thoughtNumber], [nextThoughtNeeded], [isRevision],
    [revisesThought], [branchFromThought], [branchId] and
    [needsMoreThoughts]; its reference is the one appended to the history,
    and a branch sequence that changes gains this reference and no other.
    After any further calls every object is as it was, and the history and
    every branch sequence begin with what they held. *)
Theorem stored_records_are_frozen (host : Host) (glyphs : Glyphs) :
  (forall input s r,
     validateThoughtData host input = Ok r ->
     let a := length (heap s) in
     let s' := snd (processThought host glyphs input s) in
     (exists o,
        nth_error (heap s') a = Some o
        /\ thought o = thought r
        /\ thoughtNumber o = thoughtNumber r
        /\ nextThoughtNeeded o = nextThoughtNeeded r
        /\ isRevision o = isRevision r
        /\ revisesThought o = revisesThought r
        /\ branchFromThought o = branchFromThought r
        /\ branchId o = branchId r
        /\ needsMoreThoughts o = needsMoreThoughts r)
     /\ thoughtHistory s' = thoughtHistory s ++ [a]
     /\ forall k,
          own_lookup k (branches s') = own_lookup k (branches s)
          \/ own_lookup k (branches s') = Some (branch_items k s ++ [a]))
  /\ (forall inputs s,
        (forall a o, nth_error (heap s) a = Some o ->
                     nth_error (heap (run host glyphs inputs s)) a = Some o)
        /\ (exists refs,
              thoughtHistory (run host glyphs inputs s)
              = thoughtHistory s ++ refs)
        /\ (forall k items,
              own_lookup k (branches s) = Some items ->
              exists refs,
                own_lookup k (branches (run host glyphs inputs s))
                = Some (items ++ refs))).
Proof.
  split.
  - intros input s r Hv a s'.
    destruct (processThought_valid_state host glyphs input s r Hv)
      as (Hh & Ht & Hb).
    split; [|split; assumption].
    exists (with_totalThoughts r (corrected_total r)). subst s'. rewrite Hh.
    split; [apply nth_error_last_allocated|]. repeat split; reflexivity.
  - intros inputs s.
    destruct (run_extends host glyphs inputs s) as ((objects & Hh) & Ht & Hb).
    split; [|split; assumption].
    intros a o Ha. rewrite Hh. apply nth_error_app_kept. exact Ha.
Qed.

(** The record of [step1] is still the first object after two more calls. *)
Lemma stored_records_are_frozen_witness :
  nth_error (heap (run example_host js_glyphs [step1] initial_state)) 0
  = Some (plain_record (u "step1") 1 3 true)
  /\ nth_error
       (heap (run example_host js_glyphs [step2; zero_thoughtNumber]
                (run example_host js_glyphs [step1] initial_state))) 0
     = Some (plain_record (u "step1") 1 3 true).
Proof.
  split; [reflexivity|].
  destruct (stored_records_are_frozen example_host js_glyphs) as (_ & H).
  destruct (H [step2; zero_thoughtNumber]
              (run example_host js_glyphs [step1] initial_state)) as (Hkeep & _).
  exact (Hkeep 0 (plain_record (u "step1") 1 3 true) eq_refl).
Defined.

(** *** The summary *)

(** C9.  Reading the summary returns the keys of [branches] and the length
    of the history and leaves the state as it was, so that two readings in a
    row return the same pair; building the success envelope from them
    changes nothing either, and the envelope of a successful call holds the
    summary of the state the call leaves. *)
Theorem summary_is_read_only (host : Host) (glyphs : Glyphs) :
  (forall s,
     summary s = (Ok (Object_keys (branches s), length (thoughtHistory s)), s))
  /\ (forall s,
        bind summary (fun first =>
        bind summary (fun second => ret (first, second))) s
        = (Ok ((Object_keys (branches s), length (thoughtHistory s)),
               (Object_keys (branches s), length (thoughtHistory s))), s))
  /\ (forall a s, snd (respond host a s) = s)
  /\ (forall input s,
        isError (fst (processThought host glyphs input s)) = None ->
        exists r keys len,
          validateThoughtData host input = Ok r
          /\ fst (summary (snd (processThought host glyphs input s)))
             = Ok (keys, len)
          /\ fst (processThought host glyphs input s)
             = success_envelope host
                 {| res_thoughtNumber := thoughtNumber r;
                    res_totalThoughts := corrected_total r;
                    res_nextThoughtNeeded := nextThoughtNeeded r;
                    res_branches := keys;
                    res_thoughtHistoryLength := len |}).
Proof.
  split; [reflexivity|]. split; [reflexivity|]. split; [reflexivity|].
  intros input s H.
  destruct (processThought_success host glyphs input s H) as (r & Hr & He).
  exists r, (Object_keys (branches (snd (processThought host glyphs input s)))),
    (length (thoughtHistory (snd (processThought host glyphs input s)))).
  split; [exact Hr|]. split; [reflexivity | exact He].
Qed.

Lemma summary_is_read_only_witness :
  exists r keys len,
    validateThoughtData example_host step1 = Ok r
    /\ fst (summary (snd (processThought example_host js_glyphs step1
                            initial_state)))
       = Ok (keys, len)
    /\ fst (processThought example_host js_glyphs step1 initial_state)
       = success_envelope example_host
           {| res_thoughtNumber := thoughtNumber r;
              res_totalThoughts := corrected_total r;
              res_nextThoughtNeeded := nextThoughtNeeded r;
              res_branches := keys;
              res_thoughtHistoryLength := len |}.
Proof.
  destruct (summary_is_read_only example_host js_glyphs) as (_ & _ & _ & H).
  exact (H step1 initial_state eq_refl).
Defined.

(** *** The formatter *)

Lemma length_repeat_str (s : jsstring) (n : nat) :
  length (repeat_str s n) = length s * n.
Proof.
  induction n as [|n IH]; simpl; [lia|]. rewrite length_app, IH. lia.
Qed.

Lemma length_padEnd (s : jsstring) (n : nat) :
  length (padEnd s n) = Nat.max (length s) n.
Proof. unfold padEnd. rewrite length_app, repeat_length. lia. Qed.

Lemma frame_body_row glyphs header text :
  frame glyphs header text
  = newline
    ++ top_left glyphs
    ++ repeat_str (horizontal glyphs) (frame_width header text)
    ++ top_right glyphs ++ newline
    ++ vertical glyphs ++ u " " ++ header ++ u " " ++ vertical glyphs ++ newline
    ++ tee_left glyphs
    ++ repeat_str (horizontal glyphs) (frame_width header text)
    ++ tee_right glyphs ++ newline
    ++ (vertical glyphs ++ u " "
        ++ padEnd text
             (length (repeat_str (horizontal glyphs) (frame_width header text)) - 2)
        ++ u " " ++ vertical glyphs)
    ++ newline
    ++ bottom_left glyphs
    ++ repeat_str (horizontal glyphs) (frame_width header text)
    ++ bottom_right glyphs.
Proof.
  unfold frame, body_row. rewrite <- !app_assoc. reflexivity.
Qed.

(** C6, as the source has it.  The label and the suffix go by truthiness: a
    truthy [isRevision] gives "Revision" and " (revising thought N)" with N
    the text of [revisesThought]; otherwise a truthy [branchFromThought]
    (present, and not 0 or NaN) gives "Branch" and
    " (from thought N, ID: X)"; otherwise "Thought" and no suffix.  The
    border is the horizontal bar repeated max(header length, thought length)
    + 4 times, and the body row is the thought followed by spaces up to the
    length of the border less 2, between a vertical bar and a space on each
    side; with a bar of one code unit the padded text is as long as the
    frame width less 2, and the body row as long as a border line. *)
Theorem formatThought_frame (host : Host) (glyphs : Glyphs) (r : ThoughtData) :
  (ToBoolean (isRevision r) = true ->
   forall n, ToString host (revisesThought r) = Ok n ->
   formatThought host glyphs r
   = Ok (frame glyphs
           (header_of host
              (chalk_yellow host (emoji_revision glyphs ++ u " Revision")) r
              (u " (revising thought " ++ n ++ u ")"))
           (thought r)))
  /\ (ToBoolean (isRevision r) = false ->
      ToBoolean (branchFromThought r) = true ->
      forall n x,
        ToString host (branchFromThought r) = Ok n ->
        ToString host (branchId r) = Ok x ->
        formatThought host glyphs r
        = Ok (frame glyphs
                (header_of host
                   (chalk_green host (emoji_branch glyphs ++ u " Branch")) r
                   (u " (from thought " ++ n ++ u ", ID: " ++ x ++ u ")"))
                (thought r)))
  /\ (ToBoolean (isRevision r) = false ->
      ToBoolean (branchFromThought r) = false ->
      formatThought host glyphs r
      = Ok (frame glyphs
              (header_of host
                 (chalk_blue host (emoji_thought glyphs ++ u " Thought")) r [])
              (thought r)))
  /\ (forall header text,
        let border :=
          repeat_str (horizontal glyphs)
            (Nat.max (length header) (length text) + 4) in
        frame glyphs header text
        = newline
          ++ top_left glyphs ++ border ++ top_right glyphs ++ newline
          ++ vertical glyphs ++ u " " ++ header ++ u " " ++ vertical glyphs
          ++ newline
          ++ tee_left glyphs ++ border ++ tee_right glyphs ++ newline
          ++ (vertical glyphs ++ u " " ++ padEnd text (length border - 2)
              ++ u " " ++ vertical glyphs)
          ++ newline
          ++ bottom_left glyphs ++ border ++ bottom_right glyphs
        /\ length border
           = length (horizontal glyphs)
             * (Nat.max (length header) (length text) + 4)
        /\ length (padEnd text (length border - 2))
           = Nat.max (length text) (length border - 2)
        /\ (length (horizontal glyphs) = 1 ->
            length (padEnd text (length border - 2))
            = Nat.max (length header) (length text) + 4 - 2
            /\ length (vertical glyphs ++ u " "
                       ++ padEnd text (length border - 2)
                       ++ u " " ++ vertical glyphs)
               = length (vertical glyphs ++ border ++ vertical glyphs))).
Proof.
  split; [|split; [|split; [|]]].
  - intros Hrev n Hn. unfold formatThought. rewrite Hrev, Hn.
    cbn [bind_result fst snd]. apply f_equal.
    unfold frame, body_row, header_of, frame_width.
    rewrite <- !app_assoc. reflexivity.
  - intros Hrev Hfrom n x Hn Hx. unfold formatThought.
    rewrite Hrev, Hfrom, Hn, Hx.
    cbn [bind_result fst snd]. apply f_equal.
    unfold frame, body_row, header_of, frame_width.
    rewrite <- !app_assoc. reflexivity.
  - intros Hrev Hfrom. unfold formatThought. rewrite Hrev, Hfrom.
    cbn [bind_result fst snd]. apply f_equal.
    unfold frame, body_row, header_of, frame_width.
    rewrite <- !app_assoc. reflexivity.
  - intros header text border. split; [apply frame_body_row|].
    assert (length border
            = length (horizontal glyphs)
              * (Nat.max (length header) (length text) + 4)) as Hb
      by apply length_repeat_str.
    split; [exact Hb|]. split; [apply length_padEnd|].
    intros Hone. rewrite Hone in Hb. rewrite length_padEnd, Hb.
    split; [lia|].
    rewrite !length_app, length_padEnd, Hb. simpl. lia.
Qed.

(** The frame of a revision, with the literals of the compiled file. *)
Lemma formatThought_frame_witness :
  ToBoolean (isRevision revision_of_seven) = true
  /\ ToString example_host (revisesThought revision_of_seven) = Ok (u "7")
  /\ formatThought example_host js_glyphs revision_of_seven
     = Ok (frame js_glyphs
             (emoji_revision js_glyphs
              ++ u " Revision 12/100 (revising thought 7)")
             (thought revision_of_seven)).
Proof.
  split; [reflexivity|]. split; [reflexivity|].
  exact (proj1 (formatThought_frame example_host js_glyphs revision_of_seven)
           eq_refl (u "7") eq_refl).
Defined.

(** C6 as stated fails.  [branch_from_zero] has a [branchFromThought], and
    its label is the plain "Thought" without a suffix; and its body row has
    the text first and the spaces after it, 16 code units in a frame of
    width 18 with the literals of the compiled file (58 in a frame of width
    20 with the literals of server2.ts), which is not the text padded on the
    left to the frame width. *)
Lemma formatThought_label_and_padding_differ :
  spec_label branch_from_zero = Branch
  /\ formatThought example_host js_glyphs branch_from_zero
     = Ok (frame js_glyphs (emoji_thought js_glyphs ++ u " Thought 1/2") (u "hi"))
  /\ formatThought example_host ts_glyphs branch_from_zero
     = Ok (frame ts_glyphs (emoji_thought ts_glyphs ++ u " Thought 1/2") (u "hi"))
  /\ frame_width (emoji_thought js_glyphs ++ u " Thought 1/2") (u "hi") = 18
  /\ body_row js_glyphs
       (repeat_str (horizontal js_glyphs) 18) (u "hi")
     = vertical js_glyphs ++ u " " ++ u "hi" ++ repeat 32%N 14 ++ u " "
       ++ vertical js_glyphs
  /\ body_row js_glyphs (repeat_str (horizontal js_glyphs) 18) (u "hi")
     <> spec_body_row js_glyphs
          (emoji_thought js_glyphs ++ u " Thought 1/2") (u "hi")
  /\ frame_width (emoji_thought ts_glyphs ++ u " Thought 1/2") (u "hi") = 20
  /\ body_row ts_glyphs
       (repeat_str (horizontal ts_glyphs) 20) (u "hi")
     = vertical ts_glyphs ++ u " " ++ u "hi" ++ repeat 32%N 56 ++ u " "
       ++ vertical ts_glyphs
  /\ body_row ts_glyphs (repeat_str (horizontal ts_glyphs) 20) (u "hi")
     <> spec_body_row ts_glyphs
          (emoji_thought ts_glyphs ++ u " Thought 1/2") (u "hi").
Proof.
  repeat split; try reflexivity; vm_compute; discriminate.
Qed.

(** ** Further properties of the session *)

(** *** The registered tool *)

Lemma processThought_content host glyphs input s :
  exists body, content (fst (processThought host glyphs input s))
               = [{| type_ := u "text"; text := body |}].
Proof.
  destruct (validateThoughtData host input) as [r|e] eqn:Hv.
  - rewrite (processThought_valid host glyphs input s r Hv).
    destruct (register_branch host (length (heap s)) (stored s r))
      as [[[]|e] s2]; [|eexists; reflexivity].
    destruct (formatThought host glyphs _); eexists; reflexivity.
  - rewrite (processThought_invalid host glyphs input s e Hv).
    eexists. reflexivity.
Qed.

(** The tool returns the content of processThought and the state it leaves,
    and never the failure marker: when the validator throws, the caller of
    the tool gets the error body in an object without [isError]. *)
Theorem tool_drops_the_failure_marker
  (host : Host) (glyphs : Glyphs) (params : JsValue) (s : State) :
  isError (fst (sequentialthinking_tool host glyphs params s)) = None
  /\ content (fst (sequentialthinking_tool host glyphs params s))
     = content (fst (processThought host glyphs params s))
  /\ snd (sequentialthinking_tool host glyphs params s)
     = snd (processThought host glyphs params s)
  /\ forall e,
       validateThoughtData host params = Throw e ->
       isError (fst (processThought host glyphs params s)) = Some true
       /\ sequentialthinking_tool host glyphs params s
          = ({| content :=
                  [{| type_ := u "text";
                      text := StringifyError
                                {| error := message e; status := u "failed" |} |}];
                isError := None |}, s).
Proof.
  split; [reflexivity|]. split; [|split; [reflexivity|]].
  - unfold sequentialthinking_tool. cbn [fst content].
    destruct (processThought_content host glyphs params s) as (body & ->).
    reflexivity.
  - intros e Hv. unfold sequentialthinking_tool.
    rewrite (processThought_invalid host glyphs params s e Hv).
    split; reflexivity.
Qed.

Lemma tool_drops_the_failure_marker_witness :
  validateThoughtData example_host missing_thought
  = Throw (Error (u "Invalid thought: must be a string"))
  /\ isError (fst (sequentialthinking_tool example_host js_glyphs
                     missing_thought initial_state)) = None
  /\ isError (fst (processThought example_host js_glyphs
                     missing_thought initial_state)) = Some true.
Proof.
  split; [reflexivity|].
  destruct (tool_drops_the_failure_marker example_host js_glyphs
              missing_thought initial_state) as (H1 & _ & _ & H4).
  split; [exact H1|].
  exact (proj1 (H4 (Error (u "Invalid thought: must be a string")) eq_refl)).
Defined.

(** *** The number of stored records *)

Lemma processThought_history_length host glyphs input s :
  length (thoughtHistory (snd (processThought host glyphs input s)))
  = length (thoughtHistory s) + (if accepts host input then 1 else 0).
Proof.
  unfold accepts. destruct (validateThoughtData host input) as [r|e] eqn:Hv.
  - destruct (processThought_valid_state host glyphs input s r Hv) as (_ & Ht & _).
    rewrite Ht, length_app. reflexivity.
  - rewrite (processThought_invalid host glyphs input s e Hv). cbn [snd]. lia.
Qed.

(** After any sequence of calls the history has grown by the number of
    inputs the validator accepts, whatever envelopes the calls returned; a
    success envelope reports one more than the number of accepted inputs
    before it. *)
Theorem history_counts_accepted_inputs (host : Host) (glyphs : Glyphs) :
  (forall inputs s,
     length (thoughtHistory (run host glyphs inputs s))
     = length (thoughtHistory s) + length (filter (accepts host) inputs))
  /\ (forall inputs input,
        isError (fst (processThought host glyphs input
                        (run host glyphs inputs initial_state))) = None ->
        exists r,
          validateThoughtData host input = Ok r
          /\ fst (processThought host glyphs input
                    (run host glyphs inputs initial_state))
             = success_envelope host
                 {| res_thoughtNumber := thoughtNumber r;
                    res_totalThoughts := corrected_total r;
                    res_nextThoughtNeeded := nextThoughtNeeded r;
                    res_branches :=
                      Object_keys
                        (branches
                           (snd (processThought host glyphs input
                                   (run host glyphs inputs initial_state))));
                    res_thoughtHistoryLength :=
                      S (length (filter (accepts host) inputs)) |}).
Proof.
  assert (forall inputs s,
     length (thoughtHistory (run host glyphs inputs s))
     = length (thoughtHistory s) + length (filter (accepts host) inputs)) as Hrun.
  { induction inputs as [|input rest IH]; intros s; simpl; [lia|].
    rewrite IH, processThought_history_length.
    destruct (accepts host input); simpl; lia. }
  split; [exact Hrun|].
  intros inputs input Hs.
  destruct (processThought_success host glyphs input _ Hs) as (r & Hr & He).
  exists r. split; [exact Hr|]. rewrite He. do 2 f_equal.
  rewrite processThought_history_length, Hrun.
  unfold accepts. rewrite Hr. simpl. lia.
Qed.

Lemma history_counts_accepted_inputs_witness :
  fst (processThought example_host js_glyphs step2
         (run example_host js_glyphs [missing_thought; step1; JNull]
            initial_state))
  = success_envelope example_host
      {| res_thoughtNumber := 5; res_totalThoughts := 5;
         res_nextThoughtNeeded := false; res_branches := [];
         res_thoughtHistoryLength := 2 |}.
Proof.
  destruct (history_counts_accepted_inputs example_host js_glyphs) as (_ & H).
  destruct (H [missing_thought; step1; JNull] step2 eq_refl) as (r & Hr & He).
  injection Hr as <-. exact He.
Defined.

(** *** The history and the branch index of a reachable state *)

Lemma in_seq_bound (n a : nat) : In a (seq 0 n) -> a < n.
Proof. intros H. apply in_seq in H. lia. Qed.

Lemma filter_seq_heap_grows (f : ThoughtData -> bool) (h : list ThoughtData)
  (o : ThoughtData) :
  filter (fun a => f (nth a (h ++ [o]) blank)) (seq 0 (length h))
  = filter (fun a => f (nth a h blank)) (seq 0 (length h)).
Proof.
  apply filter_ext_in. intros a Ha. apply in_seq_bound in Ha.
  rewrite app_nth1 by exact Ha. reflexivity.
Qed.

(** The sequences of [branches] after a call on a valid input, from the key
    under which the stored record is filed. *)
Lemma processThought_valid_index host glyphs input s r :
  validateThoughtData host input = Ok r ->
  (forall k, own_lookup k (branches s) <> None -> is_inherited k = false) ->
  forall k,
    own_lookup k (branches (snd (processThought host glyphs input s)))
    = if in_branch host k (with_totalThoughts r (corrected_total r))
      then Some (branch_items k s ++ [length (heap s)])
      else own_lookup k (branches s).
Proof.
  intros Hv Hown k.
  rewrite (processThought_valid_branches host glyphs input s r Hv).
  pose proof (register_branch_cases host (length (heap s)) (stored s r)) as Hc.
  cbn zeta in Hc. cbn [stored heap] in Hc. rewrite nth_last_allocated in Hc.
  unfold in_branch, branch_key.
  destruct Hc as [[Hf H]|[(e & He & H)|[(key & Hk & _ & Hi & H)|
    (key & Hcond & Hk & Hi & _ & _ & _ & _ & Hsame & Hother)]]].
  - rewrite Hf, H. reflexivity.
  - rewrite He, H. destruct (_ && _); reflexivity.
  - rewrite Hk, Hi, H. destruct (_ && _); reflexivity.
  - rewrite Hcond, Hk.
    assert (is_inherited key = false) as Hni.
    { destruct Hi as [Hi|Hi]; [exact Hi | exact (Hown key Hi)]. }
    rewrite Hni. destruct (jsstring_eqb key k) eqn:E.
    + apply jsstring_eqb_eq in E. subst k. exact Hsame.
    + apply Hother. intros ->. rewrite jsstring_eqb_refl in E. discriminate.
Qed.

Lemma reachable_index host glyphs s :
  reachable host glyphs s ->
  thoughtHistory s = seq 0 (length (heap s))
  /\ (forall k, own_lookup k (branches s) <> None -> is_inherited k = false)
  /\ (forall k items, own_lookup k (branches s) = Some items -> items <> [])
  /\ (forall k,
        branch_items k s
        = filter (fun a => in_branch host k (nth a (heap s) blank))
                 (thoughtHistory s)).
Proof.
  induction 1 as [|s input Hr (IHh & IHi & IHn & IHf)].
  - repeat split; try reflexivity; intros k; try discriminate.
    intros H. contradiction.
  - destruct (validateThoughtData host input) as [r|e] eqn:Hv.
    2:{ rewrite (processThought_invalid host glyphs input s e Hv).
        repeat split; assumption. }
    destruct (processThought_valid_state host glyphs input s r Hv)
      as (Hh & Ht & _).
    pose proof (processThought_valid_index host glyphs input s r Hv IHi) as Hb.
    set (o := with_totalThoughts r (corrected_total r)) in *.
    set (s' := snd (processThought host glyphs input s)) in *.
    split; [|split; [|split]].
    + rewrite Ht, Hh, IHh, length_app. simpl.
      rewrite Nat.add_1_r, seq_S. reflexivity.
    + intros k. rewrite Hb. unfold in_branch, branch_key.
      destruct (_ && _); [|apply IHi].
      destruct (ToString host (branchId o)) as [key|e]; [|apply IHi].
      destruct (is_inherited key) eqn:Hi; [apply IHi|].
      destruct (jsstring_eqb key k) eqn:E; [|apply IHi].
      apply jsstring_eqb_eq in E. subst k. intros _. exact Hi.
    + intros k items. rewrite Hb.
      destruct (in_branch host k o); [|apply IHn].
      intros H. injection H as <-. destruct (branch_items k s); discriminate.
    + intros k. unfold branch_items at 1. rewrite Hb, Ht, Hh, IHh.
      rewrite filter_app, filter_seq_heap_grows. cbn [filter].
      rewrite nth_last_allocated.
      rewrite <- IHh, <- IHf.
      destruct (in_branch host k o); [reflexivity|].
      rewrite app_nil_r. reflexivity.
Qed.

(** In every state a session can reach, the history is the references
    0, 1, ... of the stored records in the order of the calls, each once;
    and [branches] is exactly the index of the history by branch key: the
    sequence under [k] is the references of the history, in order, whose
    record has truthy [branchFromThought] and [branchId] and the key [k],
    no sequence is empty, and no own key is an inherited name. *)
Theorem branches_index_the_history
  (host : Host) (glyphs : Glyphs) (s : State) :
  reachable host glyphs s ->
  thoughtHistory s = seq 0 (length (heap s))
  /\ NoDup (thoughtHistory s)
  /\ (forall k items,
        own_lookup k (branches s) = Some items ->
        items <> [] /\ is_inherited k = false
        /\ items = filter (fun a => in_branch host k (nth a (heap s) blank))
                          (thoughtHistory s))
  /\ (forall k,
        own_lookup k (branches s) = None ->
        forall a, In a (thoughtHistory s) ->
                  in_branch host k (nth a (heap s) blank) = false).
Proof.
  intros Hr. destruct (reachable_index host glyphs s Hr) as (Hh & Hi & Hn & Hf).
  split; [exact Hh|]. split; [rewrite Hh; apply seq_NoDup|]. split.
  - intros k items Hk. split; [exact (Hn k items Hk)|].
    split; [apply Hi; rewrite Hk; discriminate|].
    rewrite <- Hf. unfold branch_items. rewrite Hk. reflexivity.
  - intros k Hk a Ha. specialize (Hf k). unfold branch_items in Hf.
    rewrite Hk in Hf.
    destruct (in_branch host k (nth a (heap s) blank)) eqn:E; [|reflexivity].
    assert (In a (filter (fun a => in_branch host k (nth a (heap s) blank))
                         (thoughtHistory s))) as Hin
      by (apply filter_In; split; assumption).
    rewrite <- Hf in Hin. destruct Hin.
Qed.

Lemma branches_index_the_history_witness :
  reachable example_host js_glyphs
    (run example_host js_glyphs
       [branch_step (JNumber 1) (JString (u "b1")); step1;
        branch_step (JNumber 1) (JString (u "b1"))] initial_state)
  /\ thoughtHistory
       (run example_host js_glyphs
          [branch_step (JNumber 1) (JString (u "b1")); step1;
           branch_step (JNumber 1) (JString (u "b1"))] initial_state)
     = [0; 1; 2].
Proof.
  assert (reachable example_host js_glyphs
    (run example_host js_glyphs
       [branch_step (JNumber 1) (JString (u "b1")); step1;
        branch_step (JNumber 1) (JString (u "b1"))] initial_state)) as Hr.
  { cbn [run]. repeat apply reachable_step. apply reachable_initial. }
  split; [exact Hr|].
  exact (proj1 (branches_index_the_history example_host js_glyphs _ Hr)).
Defined.

(** *** Valid inputs that get an error envelope, and those that cannot *)

(** In a reachable state, a valid input whose branch fields are truthy and
    whose [branchId] names a property inherited from [Object.prototype]
    gets the error envelope of a [TypeError], with [isError] set, and yet
    its record is stored: the state is the one line 110 leaves, with the
    history one longer and [branches] and the log as they were. *)
Theorem inherited_branch_key_fails_after_append
  (host : Host) (glyphs : Glyphs) (s : State) (input : JsValue)
  (r : ThoughtData) (key : jsstring) :
  reachable host glyphs s ->
  validateThoughtData host input = Ok r ->
  ToBoolean (branchFromThought r) = true ->
  ToBoolean (branchId r) = true ->
  ToString host (branchId r) = Ok key ->
  is_inherited key = true ->
  processThought host glyphs input s
  = (error_envelope (TypeError (not_a_function_message host key)), stored s r)
  /\ isError (fst (processThought host glyphs input s)) = Some true
  /\ length (thoughtHistory (snd (processThought host glyphs input s)))
     = S (length (thoughtHistory s))
  /\ branches (snd (processThought host glyphs input s)) = branches s
  /\ console (snd (processThought host glyphs input s)) = console s.
Proof.
  intros Hr Hv Hfrom Hid Hkey Hinh.
  destruct (reachable_index host glyphs s Hr) as (_ & Hi & _).
  assert (processThought host glyphs input s
          = (error_envelope (TypeError (not_a_function_message host key)),
             stored s r)) as Heq.
  { rewrite (processThought_valid host glyphs input s r Hv).
    pose proof (register_branch_cases host (length (heap s)) (stored s r)) as Hc.
    cbn zeta in Hc. cbn [stored heap] in Hc. rewrite nth_last_allocated in Hc.
    cbn [with_totalThoughts branchFromThought branchId] in Hc.
    rewrite Hfrom, Hid, Hkey in Hc. cbn [andb] in Hc.
    destruct Hc as [[Hf _]|[(e & He & _)|[(key' & Hk' & _ & _ & H)|
      (key' & _ & Hk' & Hi' & _)]]]; try discriminate.
    - injection Hk' as <-. fold (stored s r) in H. rewrite H. reflexivity.
    - injection Hk' as <-. exfalso. destruct Hi' as [Hi'|Hi'].
      + rewrite Hinh in Hi'. discriminate.
      + specialize (Hi key Hi'). rewrite Hinh in Hi. discriminate. }
  rewrite Heq. repeat split. cbn [snd stored thoughtHistory].
  rewrite length_app. simpl. lia.
Qed.

Lemma inherited_branch_key_fails_after_append_witness :
  reachable example_host js_glyphs (run example_host js_glyphs [step1] initial_state)
  /\ length
       (thoughtHistory
          (snd (processThought example_host js_glyphs
                  (branch_step (JNumber 1) (JString (u "constructor")))
                  (run example_host js_glyphs [step1] initial_state))))
     = 2
  /\ isError
       (fst (processThought example_host js_glyphs
               (branch_step (JNumber 1) (JString (u "constructor")))
               (run example_host js_glyphs [step1] initial_state)))
     = Some true.
Proof.
  assert (reachable example_host js_glyphs
            (run example_host js_glyphs [step1] initial_state)) as Hr
    by (cbn [run]; apply reachable_step, reachable_initial).
  split; [exact Hr|].
  destruct (inherited_branch_key_fails_after_append example_host js_glyphs
              (run example_host js_glyphs [step1] initial_state)
              (branch_step (JNumber 1) (JString (u "constructor")))
              (branch_record (JNumber 1) (JString (u "constructor")))
              (u "constructor") Hr eq_refl eq_refl eq_refl eq_refl eq_refl)
    as (_ & He & Hl & _).
  split; [exact Hl | exact He].
Defined.

(** A valid input whose [revisesThought], [branchFromThought] and
    [branchId] are not objects, and whose branch key, when the branch fields
    are truthy, is not an inherited name, always gets a success envelope,
    and its rendering is the one line the call adds to the log. *)
Theorem valid_primitive_input_succeeds
  (host : Host) (glyphs : Glyphs) (input : JsValue) (s : State) (r : ThoughtData) :
  validateThoughtData host input = Ok r ->
  is_primitive (revisesThought r) = true ->
  is_primitive (branchFromThought r) = true ->
  is_primitive (branchId r) = true ->
  (ToBoolean (branchFromThought r) && ToBoolean (branchId r) = true ->
   forall key, ToString host (branchId r) = Ok key -> is_inherited key = false) ->
  exists v f,
    fst (processThought host glyphs input s) = success_envelope host v
    /\ formatThought host glyphs (with_totalThoughts r (corrected_total r)) = Ok f
    /\ console (snd (processThought host glyphs input s)) = console s ++ [f].
Proof.
  intros Hv Hp1 Hp2 Hp3 Hkey.
  destruct (primitive_input_succeeds host glyphs input s r Hv Hp1 Hp2 Hp3 Hkey)
    as (f & Hf & Hs & Hc).
  destruct (processThought_success host glyphs input s Hs) as (r' & _ & He).
  eexists. exists f. split; [exact He|]. split; assumption.
Qed.

Lemma valid_primitive_input_succeeds_witness :
  validateThoughtData example_host step1
  = Ok (plain_record (u "step1") 1 3 true)
  /\ exists v,
       fst (processThought example_host js_glyphs step1
              (run example_host js_glyphs [step2] initial_state))
       = success_envelope example_host v.
Proof.
  split; [reflexivity|].
  destruct (valid_primitive_input_succeeds example_host js_glyphs step1
              (run example_host js_glyphs [step2] initial_state)
              (plain_record (u "step1") 1 3 true)
              eq_refl eq_refl eq_refl eq_refl)
    as (v & f & Hs & _).
  - intros H. discriminate H.
  - exists v. exact Hs.
Defined.

(** *** The log *)

Lemma processThought_console host glyphs input s :
  console (snd (processThought host glyphs input s)) = console s
  \/ exists r f,
       validateThoughtData host input = Ok r
       /\ formatThought host glyphs (with_totalThoughts r (corrected_total r))
          = Ok f
       /\ console (snd (processThought host glyphs input s)) = console s ++ [f].
Proof.
  destruct (validateThoughtData host input) as [r|e] eqn:Hv.
  - rewrite (processThought_valid host glyphs input s r Hv).
    pose proof (register_branch_effect host (length (heap s)) (stored s r))
      as (_ & _ & Hc & _). cbn zeta in Hc.
    destruct (register_branch host (length (heap s)) (stored s r))
      as [[[]|e] s2]; cbn [snd] in *; [|left; exact Hc].
    destruct (formatThought host glyphs _) as [f|e] eqn:Hf; [|left; exact Hc].
    right. exists r, f. cbn [snd console]. rewrite Hc.
    repeat split; assumption.
  - left. rewrite (processThought_invalid host glyphs input s e Hv). reflexivity.
Qed.

(** In every reachable state each line of the log is the rendering, by
    formatThought, of a record that is stored, and the log has at most as
    many lines as the history has records. *)
Theorem log_lines_render_stored_records
  (host : Host) (glyphs : Glyphs) (s : State) :
  reachable host glyphs s ->
  length (console s) <= length (thoughtHistory s)
  /\ forall line, In line (console s) ->
       exists a o, In a (thoughtHistory s)
                   /\ nth_error (heap s) a = Some o
                   /\ formatThought host glyphs o = Ok line.
Proof.
  induction 1 as [|s input Hr (IHl & IHr)].
  - split; [simpl; lia | intros line []].
  - pose proof (processThought_extends host glyphs input s)
      as ((objects & Hh) & (refs & Ht) & _).
    pose proof (processThought_history_length host glyphs input s) as Hlen.
    destruct (processThought_console host glyphs input s)
      as [Hc|(r & f & Hv & Hf & Hc)]; rewrite Hc.
    + split; [lia|]. intros line Hin.
      destruct (IHr line Hin) as (a & o & Ha & Ho & Hline).
      exists a, o. split; [rewrite Ht; apply in_or_app; left; exact Ha|].
      split; [rewrite Hh; apply nth_error_app_kept; exact Ho | exact Hline].
    + unfold accepts in Hlen. rewrite Hv in Hlen.
      split; [rewrite length_app; simpl; lia|].
      intros line Hin. apply in_app_or in Hin as [Hin|[<-|[]]].
      * destruct (IHr line Hin) as (a & o & Ha & Ho & Hline).
        exists a, o. split; [rewrite Ht; apply in_or_app; left; exact Ha|].
        split; [rewrite Hh; apply nth_error_app_kept; exact Ho | exact Hline].
      * destruct (processThought_valid_state host glyphs input s r Hv)
          as (Hh' & Ht' & _).
        exists (length (heap s)), (with_totalThoughts r (corrected_total r)).
        split; [rewrite Ht'; apply in_or_app; right; left; reflexivity|].
        split; [rewrite Hh'; apply nth_error_last_allocated | exact Hf].
Qed.

Lemma log_lines_render_stored_records_witness :
  reachable example_host js_glyphs
    (run example_host js_glyphs [step1; missing_thought] initial_state)
  /\ length (console (run example_host js_glyphs [step1; missing_thought]
                        initial_state)) <= 1.
Proof.
  assert (reachable example_host js_glyphs
            (run example_host js_glyphs [step1; missing_thought] initial_state))
    as Hr by (cbn [run]; repeat apply reachable_step; apply reachable_initial).
  split; [exact Hr|].
  exact (proj1 (log_lines_render_stored_records example_host js_glyphs _ Hr)).
Defined.

(** *** What every stored record satisfies *)

Lemma SFltb_irrefl (x : spec_float) : SFltb x x = false.
Proof.
  unfold SFltb, SFcompare. destruct x as [[]|[]| |[] m e]; try reflexivity;
    rewrite Z.compare_refl, Pos.compare_cont_refl; reflexivity.
Qed.

Lemma gt_irrefl (x : float) : gt x x = false.
Proof. unfold gt. rewrite ltb_spec. apply SFltb_irrefl. Qed.

Lemma validateThoughtData_record host input r :
  validateThoughtData host input = Ok r ->
  thought r <> []
  /\ number_truthy (thoughtNumber r) = true
  /\ number_truthy (totalThoughts r) = true.
Proof.
  intros Hv.
  assert (input <> JNull /\ input <> JUndefined) as (Hn & Hu)
    by (split; intros ->; discriminate).
  rewrite (validateThoughtData_unfold host input Hn Hu) in Hv.
  destruct (property input (u "thought")) as [| |b|x|[|c t]|l|l];
    try discriminate.
  destruct (property input (u "thoughtNumber")) as [| |b|x|t1|l|l];
    try discriminate.
  cbn [is_nonempty_string negb] in Hv.
  destruct (is_nonzero_number (JNumber x)) eqn:Hx; try discriminate.
  destruct (property input (u "totalThoughts")) as [| |b|y|t2|l|l];
    try discriminate.
  cbn [negb] in Hv.
  destruct (is_nonzero_number (JNumber y)) eqn:Hy; try discriminate.
  destruct (is_boolean (property input (u "nextThoughtNeeded")));
    try discriminate.
  cbn [negb] in Hv. injection Hv as <-. cbn.
  repeat split; [discriminate | exact Hx | exact Hy].
Qed.

(** Every record a session has stored has a non-empty [thought], a
    [thoughtNumber] and a [totalThoughts] that are neither 0 nor NaN, and a
    [thoughtNumber] that is not greater than its [totalThoughts]. *)
Theorem stored_records_are_well_formed
  (host : Host) (glyphs : Glyphs) (s : State) :
  reachable host glyphs s ->
  forall a o, nth_error (heap s) a = Some o ->
    thought o <> []
    /\ number_truthy (thoughtNumber o) = true
    /\ number_truthy (totalThoughts o) = true
    /\ gt (thoughtNumber o) (totalThoughts o) = false.
Proof.
  induction 1 as [|s input Hr IH]; intros a o Ha.
  - destruct a; discriminate.
  - destruct (validateThoughtData host input) as [r|e] eqn:Hv.
    2:{ rewrite (processThought_invalid host glyphs input s e Hv) in Ha.
        exact (IH a o Ha). }
    destruct (processThought_valid_state host glyphs input s r Hv) as (Hh & _).
    rewrite Hh in Ha.
    destruct (Nat.lt_ge_cases a (length (heap s))) as [Hlt|Hge].
    + rewrite nth_error_app1 in Ha by exact Hlt. exact (IH a o Ha).
    + rewrite nth_error_app2 in Ha by exact Hge.
      destruct (a - length (heap s)) as [|[|n]]; try discriminate.
      injection Ha as <-.
      destruct (validateThoughtData_record host input r Hv) as (Ht & Hn & Htot).
      cbn [with_totalThoughts thought thoughtNumber totalThoughts].
      unfold corrected_total.
      destruct (gt (thoughtNumber r) (totalThoughts r)) eqn:Hgt.
      * repeat split; try assumption. apply gt_irrefl.
      * repeat split; assumption.
Qed.

Lemma stored_records_are_well_formed_witness :
  reachable example_host js_glyphs (run example_host js_glyphs [step2] initial_state)
  /\ gt 5 5 = false.
Proof.
  assert (reachable example_host js_glyphs
            (run example_host js_glyphs [step2] initial_state)) as Hr
    by (cbn [run]; apply reachable_step, reachable_initial).
  split; [exact Hr|].
  exact (proj2 (proj2 (proj2
    (stored_records_are_well_formed example_host js_glyphs _ Hr 0
       (plain_record (u "step2") 5 5 false) eq_refl)))).
Defined.

(** *** The rows of the box *)

Lemma frame_rows glyphs header text :
  frame glyphs header text
  = newline
    ++ border_row (top_left glyphs)
         (top_right glyphs)
         (repeat_str (horizontal glyphs) (frame_width header text))
    ++ newline ++ header_row glyphs header ++ newline
    ++ border_row (tee_left glyphs)
         (tee_right glyphs)
         (repeat_str (horizontal glyphs) (frame_width header text))
    ++ newline
    ++ body_row glyphs
         (repeat_str (horizontal glyphs) (frame_width header text)) text
    ++ newline
    ++ border_row (bottom_left glyphs)
         (bottom_right glyphs)
         (repeat_str (horizontal glyphs) (frame_width header text)).
Proof.
  unfold frame, border_row, header_row. rewrite <- !app_assoc. reflexivity.
Qed.

(** When every box-drawing literal is one code unit, the top, separator,
    body and bottom rows of the box all have the frame width plus 2 code
    units, and the header row, which is not padded, has the header length
    plus 4: it is always at least 2 shorter than the other rows, and more
    when the thought is longer than the header. *)
Theorem header_row_is_shorter
  (glyphs : Glyphs) (header text : jsstring) :
  length (horizontal glyphs) = 1 -> length (vertical glyphs) = 1 ->
  length (top_left glyphs) = 1 -> length (top_right glyphs) = 1 ->
  length (tee_left glyphs) = 1 -> length (tee_right glyphs) = 1 ->
  length (bottom_left glyphs) = 1 -> length (bottom_right glyphs) = 1 ->
  let border := repeat_str (horizontal glyphs) (frame_width header text) in
  let width := Nat.max (length header) (length text) + 4 in
  length (border_row (top_left glyphs) (top_right glyphs) border) = width + 2
  /\ length (border_row (tee_left glyphs) (tee_right glyphs) border) = width + 2
  /\ length (border_row (bottom_left glyphs) (bottom_right glyphs) border)
     = width + 2
  /\ length (body_row glyphs border text) = width + 2
  /\ length (header_row glyphs header) = length header + 4
  /\ length (header_row glyphs header)
     + 2 + (Nat.max (length header) (length text) - length header)
     = width + 2.
Proof.
  intros Hh Hv Htl Htr Hel Her Hbl Hbr border width.
  assert (length border = width) as Hb.
  { subst border width. rewrite length_repeat_str, Hh. unfold frame_width. lia. }
  unfold border_row, body_row, header_row.
  rewrite !length_app, length_padEnd, Hb, Hv, Htl, Htr, Hel, Her, Hbl, Hbr.
  subst width. simpl. repeat split; lia.
Qed.

Lemma header_row_is_shorter_witness :
  length (header_row js_glyphs (u "Thought 1/3")) = 15
  /\ length (body_row js_glyphs
               (repeat_str (horizontal js_glyphs)
                  (frame_width (u "Thought 1/3") (u "a thought of 25 units ...")))
               (u "a thought of 25 units ...")) = 31.
Proof.
  destruct (header_row_is_shorter js_glyphs (u "Thought 1/3")
              (u "a thought of 25 units ...")
              eq_refl eq_refl eq_refl eq_refl eq_refl eq_refl eq_refl eq_refl)
    as (_ & _ & _ & Hbody & Hhead & _).
  split; [exact Hhead | exact Hbody].
Defined.

(** ** The tools of the test server *)

(** *** calculate *)

Lemma eqb_zero_iff (b : float) :
  PrimFloat.eqb b 0%float = true <-> b = 0%float \/ b = (-0)%float.
Proof.
  split.
  - rewrite FloatAxioms.eqb_spec. intros H.
    rewrite <- (SF2Prim_Prim2SF b).
    destruct (Prim2SF b) as [[]|[]| |[] m e]; try discriminate;
      [right|left]; reflexivity.
  - intros [-> | ->]; reflexivity.
Qed.

(** calculate fails on one kind of input only, a division whose divisor
    is a zero of either sign: then the text is "Error: Error: Division by
    zero" and the error is logged once.  On every other input, a NaN or an
    infinite operand or divisor included, nothing is logged and the text is
    "Result: " and the sum, the difference, the product or the quotient of
    [a] and [b] in the arithmetic of the engine, as the operation asks. *)
Theorem calculate_fails_only_on_a_zero_divisor
  (host : Host) (operation : CalculateOperation) (a b : float) :
  (logged_errors (calculate host operation a b) <> []
   <-> operation = OpDivide /\ (b = 0%float \/ b = (-0)%float))
  /\ (operation = OpDivide -> (b = 0%float \/ b = (-0)%float) ->
      calculate host operation a b
      = {| tool_content := text_content (u "Error: Error: Division by zero");
           logged_errors :=
             [(u "Calculation error:", Error (u "Division by zero"))] |})
  /\ (~ (operation = OpDivide /\ (b = 0%float \/ b = (-0)%float)) ->
      calculate host operation a b
      = {| tool_content :=
             text_content
               (u "Result: "
                ++ Number_toString host
                     match operation with
                     | OpAdd => PrimFloat.add a b
                     | OpSubtract => PrimFloat.sub a b
                     | OpMultiply => PrimFloat.mul a b
                     | OpDivide => PrimFloat.div a b
                     end);
           logged_errors := [] |}).
Proof.
  unfold calculate.
  destruct operation; cbn [calculate_try logged_errors tool_content].
  1-3: (split; [split; [intros H; contradiction | intros [H _]; discriminate]|];
        split; [intros H; discriminate | intros _; reflexivity]).
  destruct (PrimFloat.eqb b 0%float) eqn:E; cbn [logged_errors tool_content].
  - apply eqb_zero_iff in E. split; [split|split].
    + intros _. split; [reflexivity | exact E].
    + intros _. discriminate.
    + intros _ _. reflexivity.
    + intros H. exfalso. apply H. split; [reflexivity | exact E].
  - assert (~ (b = 0%float \/ b = (-0)%float)) as Hnz.
    { intros H. apply eqb_zero_iff in H. rewrite H in E. discriminate. }
    split; [split|split].
    + intros H. contradiction.
    + intros [_ H]. contradiction.
    + intros _ H. contradiction.
    + intros _. reflexivity.
Qed.

(** 7 by the negative zero fails; 6 by 3 is 2, and 2 and 3 are 5. *)
Lemma calculate_fails_only_on_a_zero_divisor_witness :
  calculate example_host OpDivide 7 (-0)
  = {| tool_content := text_content (u "Error: Error: Division by zero");
       logged_errors :=
         [(u "Calculation error:", Error (u "Division by zero"))] |}
  /\ calculate example_host OpDivide 6 3
     = {| tool_content := text_content (u "Result: 2"); logged_errors := [] |}
  /\ calculate example_host OpAdd 2 3
     = {| tool_content := text_content (u "Result: 5"); logged_errors := [] |}.
Proof.
  split; [|split].
  - exact (proj1 (proj2 (calculate_fails_only_on_a_zero_divisor
                           example_host OpDivide 7 (-0)))
             eq_refl (or_intror eq_refl)).
  - refine (proj2 (proj2 (calculate_fails_only_on_a_zero_divisor
                            example_host OpDivide 6 3)) _).
    intros [_ [H | H]]; discriminate H.
  - refine (proj2 (proj2 (calculate_fails_only_on_a_zero_divisor
                            example_host OpAdd 2 3)) _).
    intros [H _]; discriminate H.
Defined.

(** *** transform_text *)

(** Reversing is its own inverse and keeps the length, and it reverses code
    units, not characters: a surrogate pair comes out low half first. *)
Theorem reverse_text_round_trip (cases : CaseHost) (text : jsstring) :
  (exists reversed,
     tool_content (transform_text cases text OpReverse) = text_content reversed
     /\ length reversed = length text
     /\ transform_text cases reversed OpReverse
        = {| tool_content := text_content text; logged_errors := [] |})
  /\ (forall before after high low,
        text = before ++ [high; low] ++ after ->
        tool_content (transform_text cases text OpReverse)
        = text_content (rev after ++ [low; high] ++ rev before)).
Proof.
  split.
  - exists (rev text). split; [reflexivity|]. split; [apply length_rev|].
    unfold transform_text, reverse_text. rewrite rev_involutive. reflexivity.
  - intros before after high low ->. unfold transform_text, reverse_text.
    cbn [tool_content]. rewrite !rev_app_distr. simpl.
    rewrite <- !app_assoc. reflexivity.
Qed.

Lemma reverse_text_round_trip_witness :
  tool_content
    (transform_text {| toUpperCase := fun s => s; toLowerCase := fun s => s |}
       (u "ab" ++ [0xD83D; 0xDCAD]%N ++ u "c") OpReverse)
  = text_content (u "c" ++ [0xDCAD; 0xD83D]%N ++ u "ba").
Proof.
  exact (proj2 (reverse_text_round_trip
                  {| toUpperCase := fun s => s; toLowerCase := fun s => s |}
                  (u "ab" ++ [0xD83D; 0xDCAD]%N ++ u "c"))
           (u "ab") (u "c") 0xD83D%N 0xDCAD%N eq_refl).
Defined.

(** *** analyze_text: words and characters *)

Lemma split_runs_from_concat sep in_run text :
  concat (split_runs_from sep in_run text)
  = filter (fun c => negb (sep c)) text.
Proof.
  revert in_run. induction text as [|c rest IH]; intros in_run; [reflexivity|].
  cbn [split_runs_from filter]. destruct (sep c); cbn [negb].
  - destruct in_run; [apply IH | cbn [concat app]; apply IH].
  - specialize (IH false).
    destruct (split_runs_from sep false rest) as [|piece pieces].
    + cbn [concat app] in *. rewrite <- IH. reflexivity.
    + cbn [concat app] in *. rewrite <- IH. reflexivity.
Qed.

Lemma split_runs_from_pieces sep in_run text :
  Forall (fun piece => forallb (fun c => negb (sep c)) piece = true)
         (split_runs_from sep in_run text).
Proof.
  revert in_run. induction text as [|c rest IH]; intros in_run.
  - repeat constructor.
  - cbn [split_runs_from]. destruct (sep c) eqn:E.
    + destruct in_run; [apply IH | constructor; [reflexivity | apply IH]].
    + specialize (IH false).
      destruct (split_runs_from sep false rest) as [|piece pieces].
      * repeat constructor. cbn. rewrite E. reflexivity.
      * inversion IH as [|? ? Hp Hps]; subst. constructor; [|exact Hps].
        cbn. rewrite E, Hp. reflexivity.
Qed.

Lemma concat_filter_nonempty (pieces : list jsstring) :
  concat (filter nonempty pieces) = concat pieces.
Proof.
  induction pieces as [|[|c piece] pieces IH]; cbn; [reflexivity | exact IH |].
  rewrite IH. reflexivity.
Qed.

Lemma length_concat_sum (pieces : list jsstring) :
  length (concat pieces) = list_sum (map (@length code_unit) pieces).
Proof.
  induction pieces as [|piece pieces IH]; cbn; [reflexivity|].
  rewrite length_app, IH. reflexivity.
Qed.

Lemma words_of_nonempty text :
  Forall (fun word => word <> [] /\ forallb is_visible word = true)
         (words_of text).
Proof.
  unfold words_of, split_runs.
  pose proof (split_runs_from_pieces is_whitespace false text) as H.
  induction H as [|piece pieces Hp Hps IH]; cbn; [constructor|].
  destruct piece as [|c piece]; cbn; [exact IH|].
  constructor; [|exact IH]. split; [discriminate | exact Hp].
Qed.

Lemma sum_of_positive_lengths (words : list jsstring) :
  Forall (fun word => word <> []) words ->
  length words <= list_sum (map (@length code_unit) words).
Proof.
  induction 1 as [|word words Hw Hws IH]; [simpl; lia|].
  destruct word as [|c word]; [contradiction|].
  change (S (length words)
          <= S (length word) + list_sum (map (@length code_unit) words)).
  unfold jsstring in *. lia.
Qed.

Lemma no_character_no_word (text : jsstring) :
  character_count text = 0 -> words_of text = [].
Proof.
  intros H0.
  assert (concat (words_of text) = filter is_visible text) as Hc.
  { unfold words_of, split_runs.
    rewrite concat_filter_nonempty. apply split_runs_from_concat. }
  pose proof (words_of_nonempty text) as Hw.
  destruct (words_of text) as [|w ws]; [reflexivity|].
  inversion Hw as [|? ? [Hne _] _]; subst.
  unfold character_count in H0. fold is_visible in H0.
  change (fun c => negb (is_whitespace c)) with is_visible in H0.
  rewrite <- Hc in H0. cbn in H0. rewrite length_app in H0.
  destruct w; [contradiction | discriminate].
Qed.

(** The words of a text are its code units that are not white space, cut
    at the white space: every word is non-empty and free of white space,
    the words put end to end are the text without its white space, so their
    lengths add up to the character count; there are no more words than
    characters, and no word exactly when there is no character. *)
Theorem words_partition_the_characters (text : jsstring) :
  concat (words_of text) = filter is_visible text
  /\ Forall (fun word => word <> [] /\ forallb is_visible word = true)
            (words_of text)
  /\ list_sum (map (@length code_unit) (words_of text)) = character_count text
  /\ word_count text <= character_count text
  /\ (word_count text = 0 <-> character_count text = 0).
Proof.
  assert (concat (words_of text) = filter is_visible text) as Hc.
  { unfold words_of, split_runs.
    rewrite concat_filter_nonempty. apply split_runs_from_concat. }
  assert (list_sum (map (@length code_unit) (words_of text))
          = character_count text) as Hs.
  { rewrite <- length_concat_sum, Hc. reflexivity. }
  pose proof (words_of_nonempty text) as Hw.
  assert (word_count text <= character_count text) as Hle.
  { rewrite <- Hs. apply sum_of_positive_lengths.
    eapply Forall_impl; [|exact Hw]. intros w [H _]. exact H. }
  repeat split; try assumption.
  - unfold word_count. intros H0.
    destruct (words_of text); [|discriminate]. rewrite <- Hs. reflexivity.
  - intros H0. lia.
Qed.

Lemma words_partition_the_characters_witness :
  concat (words_of (u " to  be ")) = u "tobe"
  /\ word_count (u " to  be ") <= character_count (u " to  be ").
Proof.
  split; [reflexivity|].
  exact (proj1 (proj2 (proj2 (proj2
           (words_partition_the_characters (u " to  be ")))))).
Defined.

(** *** analyze_text: sentences *)













(** A text without a word, empty or all white space, has the average word
    length NaN: the quotient of 0 by 0. *)
Theorem average_word_length_without_words (text : jsstring) :
  character_count text = 0 ->
  word_count text = 0
  /\ average_word_length text = PrimFloat.nan
  /\ PrimFloat.eqb (average_word_length text) (average_word_length text) = false.
Proof.
  intros H0.
  pose proof (no_character_no_word text H0) as Hw.
  unfold word_count, average_word_length. rewrite Hw. repeat split.
Qed.

Lemma average_word_length_without_words_witness :
  character_count (u "  ") = 0
  /\ average_word_length (u "  ") = PrimFloat.nan.
Proof.
  split; [reflexivity|].
  exact (proj1 (proj2 (average_word_length_without_words (u "  ") eq_refl))).
Defined.

(** *** analyze_text: the results object *)

Lemma analysis_key_injective (a b : AnalysisType) :
  analysis_key a = analysis_key b -> a = b.
Proof. destruct a, b; intros H; try reflexivity; discriminate H. Qed.

Lemma AnalysisType_eq_dec (a b : AnalysisType) : {a = b} + {a <> b}.
Proof. decide equality. Qed.

Lemma analyze_text_results_from cases text analysis_types results a :
  own_lookup (analysis_key a)
    (fold_left
       (fun results analysis =>
          own_set (analysis_key analysis) (analysis_value cases text analysis)
                  results)
       analysis_types results)
  = if in_dec AnalysisType_eq_dec a analysis_types
    then Some (analysis_value cases text a)
    else own_lookup (analysis_key a) results.
Proof.
  revert results. induction analysis_types as [|t ts IH]; intros results.
  - reflexivity.
  - cbn [fold_left]. rewrite IH.
    destruct (in_dec AnalysisType_eq_dec a ts) as [Hin|Hnin];
      destruct (in_dec AnalysisType_eq_dec a (t :: ts)) as [Hin'|Hnin'];
      try reflexivity.
    + exfalso. apply Hnin'. right. exact Hin.
    + destruct Hin' as [->|Hin']; [|contradiction].
      apply own_lookup_set_same.
    + apply own_lookup_set_other. intros Heq.
      apply analysis_key_injective in Heq. subst t. apply Hnin'. left. reflexivity.
Qed.

(** The results hold, for each analysis requested, the value of that
    analysis on the text, whatever else was requested and however often,
    and nothing for an analysis that was not requested. *)
Theorem analyze_text_results_by_request
  (cases : CaseHost) (text : jsstring) (analysis_types : list AnalysisType)
  (a : AnalysisType) :
  (In a analysis_types ->
   own_lookup (analysis_key a) (analyze_text_results cases text analysis_types)
   = Some (analysis_value cases text a))
  /\ (~ In a analysis_types ->
      own_lookup (analysis_key a) (analyze_text_results cases text analysis_types)
      = None).
Proof.
  unfold analyze_text_results. rewrite analyze_text_results_from.
  destruct (in_dec AnalysisType_eq_dec a analysis_types) as [Hin|Hnin];
    split; intros H; try reflexivity; contradiction.
Qed.

Lemma analyze_text_results_by_request_witness :
  own_lookup (u "word_count")
    (analyze_text_results
       {| toUpperCase := fun s => s; toLowerCase := fun s => s |}
       (u "to be or not to be") [CharacterCount; WordCount; CharacterCount])
  = Some (CountValue 6).
Proof.
  exact (proj1 (analyze_text_results_by_request
                  {| toUpperCase := fun s => s; toLowerCase := fun s => s |}
                  (u "to be or not to be")
                  [CharacterCount; WordCount; CharacterCount] WordCount)
           (or_intror (or_introl eq_refl))).
Defined.

(** *** analyze_text: the most common words *)

Lemma own_lookup_none_not_in {A : Type} key (props : list (jsstring * A)) :
  own_lookup key props = None -> ~ In key (map fst props).
Proof.
  induction props as [|[k v] rest IH]; cbn; intros H; [tauto|].
  destruct (jsstring_eqb k key) eqn:E; [discriminate|].
  intros [->|Hin]; [rewrite jsstring_eqb_refl in E; discriminate|].
  exact (IH H Hin).
Qed.

Lemma own_replace_keys {A : Type} key (v : A) props :
  map fst (own_replace key v props) = map fst props.
Proof.
  induction props as [|[k x] rest IH]; cbn; [reflexivity|].
  destruct (jsstring_eqb k key); cbn; [reflexivity | rewrite IH; reflexivity].
Qed.

Lemma own_set_keys_NoDup {A : Type} key (v : A) props :
  NoDup (map fst props) -> NoDup (map fst (own_set key v props)).
Proof.
  intros H. unfold own_set. destruct (own_lookup key props) eqn:E.
  - rewrite own_replace_keys. exact H.
  - rewrite map_app. cbn. apply NoDup_app; [exact H | repeat constructor; tauto |].
    intros a Ha [<-|[]]. exact (own_lookup_none_not_in key props E Ha).
Qed.

Lemma own_lookup_in {A : Type} (props : list (jsstring * A)) key v :
  NoDup (map fst props) -> In (key, v) props -> own_lookup key props = Some v.
Proof.
  induction props as [|[k x] rest IH]; cbn; intros Hnd Hin; [destruct Hin|].
  apply NoDup_cons_iff in Hnd as [Hk Hnd].
  destruct Hin as [Heq|Hin].
  - injection Heq as -> ->. rewrite jsstring_eqb_refl. reflexivity.
  - destruct (jsstring_eqb k key) eqn:E.
    + apply jsstring_eqb_eq in E. subst k. exfalso. apply Hk.
      apply (in_map fst) in Hin. exact Hin.
    + exact (IH Hnd Hin).
Qed.

Lemma own_lookup_some_in {A : Type} (props : list (jsstring * A)) key v :
  own_lookup key props = Some v -> In (key, v) props.
Proof.
  induction props as [|[k x] rest IH]; cbn; intros H; [discriminate|].
  destruct (jsstring_eqb k key) eqn:E.
  - apply jsstring_eqb_eq in E. injection H as ->. left. congruence.
  - right. exact (IH H).
Qed.

Lemma occurrences_app word seen words :
  occurrences word (seen ++ words)
  = occurrences word seen + occurrences word words.
Proof. unfold occurrences. rewrite filter_app, length_app. reflexivity. Qed.

Lemma occurrences_positive word words :
  In word words <-> 1 <= occurrences word words.
Proof.
  unfold occurrences. split.
  - intros Hin.
    assert (In word (filter (jsstring_eqb word) words)) as H
      by (apply filter_In; split; [exact Hin | apply jsstring_eqb_refl]).
    destruct (filter (jsstring_eqb word) words); [destruct H | simpl; lia].
  - intros H.
    destruct (filter (jsstring_eqb word) words) as [|x l] eqn:E;
      [simpl in H; lia|].
    assert (In x (filter (jsstring_eqb word) words)) as Hx
      by (rewrite E; left; reflexivity).
    apply filter_In in Hx as [Hin Heq].
    apply jsstring_eqb_eq in Heq. subst x. exact Hin.
Qed.

(** The table the [forEach] builds: one entry for each word seen, with the
    number of times it was seen. *)
Lemma word_frequency_from words :
  forall frequency seen,
    NoDup (map fst frequency) ->
    (forall w, own_lookup w frequency
               = if Nat.eqb (occurrences w seen) 0 then None
                 else Some (occurrences w seen)) ->
    NoDup (map fst (fold_left count_word words frequency))
    /\ forall w, own_lookup w (fold_left count_word words frequency)
                 = if Nat.eqb (occurrences w (seen ++ words)) 0 then None
                   else Some (occurrences w (seen ++ words)).
Proof.
  induction words as [|x words IH]; intros frequency seen Hnd Hl.
  - rewrite app_nil_r. split; assumption.
  - cbn [fold_left].
    replace (seen ++ x :: words) with ((seen ++ [x]) ++ words)
      by (rewrite <- app_assoc; reflexivity).
    apply IH; [apply own_set_keys_NoDup; exact Hnd|].
    intros w. unfold count_word. rewrite occurrences_app.
    destruct (jsstring_eqb w x) eqn:E.
    + apply jsstring_eqb_eq in E. subst w.
      rewrite own_lookup_set_same, Hl.
      replace (occurrences x [x]) with 1
        by (unfold occurrences; cbn; rewrite jsstring_eqb_refl; reflexivity).
      destruct (Nat.eqb (occurrences x seen) 0) eqn:E0.
      * apply Nat.eqb_eq in E0. rewrite E0. reflexivity.
      * rewrite Nat.add_1_r. reflexivity.
    + rewrite own_lookup_set_other
        by (intros ->; rewrite jsstring_eqb_refl in E; discriminate).
      replace (occurrences w [x]) with 0
        by (unfold occurrences; cbn; rewrite E; reflexivity).
      rewrite Nat.add_0_r. apply Hl.
Qed.

Lemma insert_by_count_perm entry sorted :
  Permutation (insert_by_count entry sorted) (entry :: sorted).
Proof.
  induction sorted as [|x rest IH]; cbn [insert_by_count]; [reflexivity|].
  destruct (Nat.ltb (snd entry) (snd x)); [|reflexivity].
  rewrite IH. apply perm_swap.
Qed.

Lemma sort_by_count_perm entries :
  Permutation (sort_by_count entries) entries.
Proof.
  induction entries as [|x rest IH]; cbn [sort_by_count fold_right];
    [reflexivity|].
  fold (sort_by_count rest). rewrite insert_by_count_perm, IH. reflexivity.
Qed.

Lemma insert_by_count_sorted entry sorted :
  StronglySorted (fun x y : jsstring * nat => snd y <= snd x) sorted ->
  StronglySorted (fun x y : jsstring * nat => snd y <= snd x)
                 (insert_by_count entry sorted).
Proof.
  induction 1 as [|x rest Hs IH Hall]; cbn [insert_by_count];
    [repeat constructor|].
  destruct (Nat.ltb (snd entry) (snd x)) eqn:E.
  - apply Nat.ltb_lt in E. constructor; [exact IH|].
    apply Forall_forall. intros y Hy.
    apply (Permutation_in _ (insert_by_count_perm entry rest)) in Hy.
    destruct Hy as [<-|Hy]; [lia|].
    rewrite Forall_forall in Hall. exact (Hall y Hy).
  - apply Nat.ltb_ge in E. constructor; [constructor; assumption|].
    constructor; [exact E|].
    eapply Forall_impl; [|exact Hall]. cbn. intros y Hy. lia.
Qed.

Lemma sort_by_count_sorted entries :
  StronglySorted (fun x y : jsstring * nat => snd y <= snd x)
                 (sort_by_count entries).
Proof.
  induction entries as [|x rest IH]; cbn [sort_by_count fold_right];
    [constructor|].
  apply insert_by_count_sorted. exact IH.
Qed.

Lemma StronglySorted_app_inv {A : Type} (R : A -> A -> Prop) (l1 l2 : list A) :
  StronglySorted R (l1 ++ l2) ->
  StronglySorted R l1 /\ forall x y, In x l1 -> In y l2 -> R x y.
Proof.
  induction l1 as [|a l1 IH]; cbn; intros H.
  - split; [constructor | intros x y []].
  - inversion H as [|? ? Hs Hall]; subst. destruct (IH Hs) as (Hs1 & Hcross).
    split.
    + constructor; [exact Hs1|].
      apply Forall_forall. intros y Hy.
      rewrite Forall_forall in Hall. apply Hall, in_or_app. left. exact Hy.
    + intros x y [<-|Hx] Hy.
      * rewrite Forall_forall in Hall. apply Hall, in_or_app. right. exact Hy.
      * exact (Hcross x y Hx Hy).
Qed.

(** The most common words are at most five entries of distinct words, by
    count from the greatest down; the count of an entry is the number of
    times its word occurs among the lower-cased words of the text; and a
    word of the text that has no entry occurs no more often than any word
    that has one. *)
Theorem most_common_words_are_the_most_common
  (cases : CaseHost) (text : jsstring) :
  let words := words_of (toLowerCase cases text) in
  let result := most_common_words cases text in
  length result <= 5
  /\ NoDup (map fst result)
  /\ StronglySorted (fun x y : jsstring * nat => snd y <= snd x) result
  /\ (forall w c, In (w, c) result ->
        In w words /\ c = occurrences w words /\ 1 <= c)
  /\ (forall w, In w words ->
        (exists c, In (w, c) result)
        \/ (length result = 5
            /\ forall x, In x result -> occurrences w words <= snd x)).
Proof.
  intros words result. subst result. unfold most_common_words. fold words.
  destruct (word_frequency_from words [] [] (NoDup_nil _) (fun w => eq_refl))
    as (Hnd & Hl). cbn [app] in Hl. fold (word_frequency words) in Hnd, Hl.
  set (table := word_frequency words) in *.
  pose proof (sort_by_count_perm table) as Hperm.
  pose proof (sort_by_count_sorted table) as Hsorted.
  set (sorted := sort_by_count table) in *.
  pose proof (firstn_skipn 5 sorted) as Hsplit.
  rewrite <- Hsplit in Hsorted.
  destruct (StronglySorted_app_inv _ _ _ Hsorted) as (Hfirst & Hcross).
  assert (NoDup (map fst sorted)) as Hnds.
  { apply (Permutation_NoDup (l := map fst table)); [|exact Hnd].
    apply Permutation_map. symmetry. exact Hperm. }
  split; [apply firstn_le_length|]. split; [|split; [exact Hfirst|split]].
  - rewrite <- Hsplit, map_app in Hnds. exact (NoDup_app_remove_r _ _ Hnds).
  - intros w c Hin.
    assert (In (w, c) table) as Ht.
    { apply (Permutation_in _ Hperm). rewrite <- Hsplit.
      apply in_or_app. left. exact Hin. }
    apply (own_lookup_in _ _ _ Hnd) in Ht. rewrite Hl in Ht.
    destruct (Nat.eqb (occurrences w words) 0) eqn:E; [discriminate|].
    injection Ht as <-. apply Nat.eqb_neq in E.
    assert (1 <= occurrences w words) as Hpos by lia.
    split; [apply occurrences_positive; exact Hpos|]. split; [reflexivity|exact Hpos].
  - intros w Hw. apply occurrences_positive in Hw.
    assert (own_lookup w table = Some (occurrences w words)) as Ht.
    { rewrite Hl. destruct (Nat.eqb (occurrences w words) 0) eqn:E;
        [apply Nat.eqb_eq in E; lia | reflexivity]. }
    apply own_lookup_some_in in Ht.
    apply (Permutation_in _ (Permutation_sym Hperm)) in Ht.
    rewrite <- Hsplit in Ht. apply in_app_or in Ht as [Ht|Ht].
    + left. exists (occurrences w words). exact Ht.
    + right. split.
      * rewrite length_firstn.
        destruct (skipn 5 sorted) as [|y l] eqn:Es; [destruct Ht|].
        assert (length (skipn 5 sorted) = S (length l)) as Hlen
          by (rewrite Es; reflexivity).
        rewrite length_skipn in Hlen. unfold jsstring in *. lia.
      * intros x Hx. exact (Hcross x _ Hx Ht).
Qed.

Lemma most_common_words_are_the_most_common_witness :
  In (u "be", 2)
     (most_common_words {| toUpperCase := fun s => s; toLowerCase := fun s => s |}
        (u "to be or not to be"))
  /\ 2 = occurrences (u "be") (words_of (u "to be or not to be")).
Proof.
  assert (In (u "be", 2)
     (most_common_words {| toUpperCase := fun s => s; toLowerCase := fun s => s |}
        (u "to be or not to be"))) as Hin
    by (right; left; reflexivity).
  split; [exact Hin|].
  destruct (most_common_words_are_the_most_common
              {| toUpperCase := fun s => s; toLowerCase := fun s => s |}
              (u "to be or not to be")) as (_ & _ & _ & H & _).
  exact (proj1 (proj2 (H (u "be") 2 Hin))).
Defined.

(** *** validate_data: what [test] decides *)

Lemma Matches_Never_iff s : Matches Never s <-> False.
Proof. split; [intros H; inversion H | intros []]. Qed.

Lemma Matches_Empty_iff s : Matches Empty s <-> s = [].
Proof. split; [intros H; inversion H; reflexivity | intros ->; constructor]. Qed.

Lemma Matches_Then_iff r1 r2 s :
  Matches (Then r1 r2) s
  <-> exists s1 s2, s = s1 ++ s2 /\ Matches r1 s1 /\ Matches r2 s2.
Proof.
  split.
  - intros H. inversion H; subst. eexists. eexists. repeat split; eassumption.
  - intros (s1 & s2 & -> & H1 & H2). constructor; assumption.
Qed.

Lemma Matches_Or_iff r1 r2 s :
  Matches (Or r1 r2) s <-> Matches r1 s \/ Matches r2 s.
Proof.
  split.
  - intros H. inversion H; subst; [left | right]; assumption.
  - intros [H|H]; [apply Matches_Or_left | apply Matches_Or_right]; exact H.
Qed.

Lemma Matches_Unit_iff class s :
  Matches (Unit class) s <-> exists c, s = [c] /\ class c = true.
Proof.
  split.
  - intros H. inversion H; subst. eexists. split; [reflexivity | assumption].
  - intros (c & -> & H). constructor. exact H.
Qed.

Lemma nullable_Matches (r : regex) : nullable r = true <-> Matches r [].
Proof.
  induction r as [| |class|r1 IH1 r2 IH2|r1 IH1 r2 IH2|r IH]; cbn [nullable].
  - rewrite Matches_Never_iff. split; [discriminate | intros []].
  - rewrite Matches_Empty_iff. split; reflexivity.
  - rewrite Matches_Unit_iff. split; [discriminate|].
    intros (c & H & _). discriminate.
  - rewrite Matches_Then_iff, andb_true_iff, IH1, IH2. split.
    + intros [H1 H2]. exists [], []. repeat split; assumption.
    + intros (s1 & s2 & E & H1 & H2). symmetry in E.
      apply app_eq_nil in E as [-> ->]. split; assumption.
  - rewrite Matches_Or_iff, orb_true_iff, IH1, IH2. reflexivity.
  - split; [intros _; constructor | reflexivity].
Qed.

Lemma Matches_Many_cons (r : regex) (c : code_unit) (s : jsstring) :
  Matches (Many r) (c :: s) ->
  exists s1 s2, s = s1 ++ s2 /\ Matches r (c :: s1) /\ Matches (Many r) s2.
Proof.
  intros H. remember (Many r) as r' eqn:Er. remember (c :: s) as t eqn:Et.
  induction H as [| | | | | |r0 s1 s2 H1 _ H2 IH2]; try discriminate.
  injection Er as ->. destruct s1 as [|c1 s1].
  - apply IH2; [reflexivity | exact Et].
  - cbn in Et. injection Et as -> <-. exists s1, s2. repeat split; assumption.
Qed.

Lemma derivative_Matches (r : regex) (c : code_unit) (s : jsstring) :
  Matches (derivative c r) s <-> Matches r (c :: s).
Proof.
  revert s.
  induction r as [| |class|r1 IH1 r2 IH2|r1 IH1 r2 IH2|r IH]; intros s;
    cbn [derivative].
  - rewrite !Matches_Never_iff. reflexivity.
  - rewrite Matches_Never_iff, Matches_Empty_iff. split; [intros [] | discriminate].
  - rewrite Matches_Unit_iff. destruct (class c) eqn:E.
    + rewrite Matches_Empty_iff. split.
      * intros ->. exists c. split; [reflexivity | exact E].
      * intros (x & Hx & _). injection Hx as _ ->. reflexivity.
    + rewrite Matches_Never_iff. split; [intros []|].
      intros (x & Hx & Hc). injection Hx as -> _. congruence.
  - assert (Matches (Then (derivative c r1) r2) s
            <-> exists s1 s2, s = s1 ++ s2 /\ Matches r1 (c :: s1)
                              /\ Matches r2 s2) as Hd.
    { rewrite Matches_Then_iff. split; intros (s1 & s2 & E & H1 & H2);
        exists s1, s2; (split; [exact E|]); (split; [|exact H2]);
        apply IH1; exact H1. }
    rewrite (Matches_Then_iff r1 r2 (c :: s)).
    destruct (nullable r1) eqn:En.
    + rewrite Matches_Or_iff, Hd, IH2. split.
      * intros [(s1 & s2 & -> & H1 & H2)|H2].
        -- exists (c :: s1), s2. repeat split; assumption.
        -- exists [], (c :: s). repeat split;
             [apply nullable_Matches; exact En | exact H2].
      * intros (s1 & s2 & E & H1 & H2). destruct s1 as [|c1 s1]; cbn in E.
        -- right. rewrite E. exact H2.
        -- injection E as <- ->. left. exists s1, s2. repeat split; assumption.
    + rewrite Hd. split.
      * intros (s1 & s2 & -> & H1 & H2).
        exists (c :: s1), s2. repeat split; assumption.
      * intros (s1 & s2 & E & H1 & H2). destruct s1 as [|c1 s1]; cbn in E.
        -- apply nullable_Matches in H1. congruence.
        -- injection E as <- ->. exists s1, s2. repeat split; assumption.
  - rewrite !Matches_Or_iff, IH1, IH2. reflexivity.
  - rewrite Matches_Then_iff. split.
    + intros (s1 & s2 & -> & H1 & H2). apply IH in H1.
      change (c :: s1 ++ s2) with ((c :: s1) ++ s2). constructor; assumption.
    + intros H. apply Matches_Many_cons in H as (s1 & s2 & -> & H1 & H2).
      exists s1, s2. repeat split; [apply IH; exact H1 | exact H2].
Qed.

(** [regex_test] decides the language of the expression. *)
Lemma regex_test_Matches (r : regex) (text : jsstring) :
  regex_test r text = true <-> Matches r text.
Proof.
  revert r. induction text as [|c rest IH]; intros r; cbn [regex_test].
  - apply nullable_Matches.
  - rewrite IH. apply derivative_Matches.
Qed.

Lemma Matches_Char_iff c s : Matches (Char c) s <-> s = [c].
Proof.
  unfold Char. rewrite Matches_Unit_iff. split.
  - intros (x & -> & H). apply N.eqb_eq in H. subst. reflexivity.
  - intros ->. exists c. split; [reflexivity | apply N.eqb_refl].
Qed.

Lemma Matches_Optional_iff r s :
  Matches (Optional r) s <-> Matches r s \/ s = [].
Proof.
  unfold Optional. rewrite Matches_Or_iff, Matches_Empty_iff. reflexivity.
Qed.

Lemma Matches_Many_Unit_iff class s :
  Matches (Many (Unit class)) s <-> forallb class s = true.
Proof.
  split.
  - intros H. remember (Many (Unit class)) as r eqn:Er.
    induction H as [| | | | | |r0 s1 s2 H1 _ H2 IH2]; try discriminate;
      [reflexivity|].
    injection Er as ->. inversion H1; subst. cbn.
    apply andb_true_iff. split; [assumption | apply IH2; reflexivity].
  - induction s as [|c s IH]; cbn; intros H; [constructor|].
    apply andb_true_iff in H as [Hc Hs].
    change (c :: s) with ([c] ++ s).
    constructor; [constructor; exact Hc | apply IH; exact Hs].
Qed.

Lemma Matches_Exactly_Unit_iff n class s :
  Matches (Exactly n (Unit class)) s
  <-> length s = n /\ forallb class s = true.
Proof.
  revert s. induction n as [|n IH]; intros s; cbn [Exactly].
  - split.
    + intros H. inversion H. split; reflexivity.
    + intros [H _]. destruct s; [constructor | discriminate].
  - rewrite Matches_Then_iff. split.
    + intros (s1 & s2 & -> & H1 & H2).
      apply Matches_Unit_iff in H1 as (c & -> & Hc).
      apply IH in H2 as [Hl Hf]. cbn. rewrite Hl, Hc, Hf. split; reflexivity.
    + intros [Hl Hf]. destruct s as [|c s]; [discriminate|].
      cbn in Hl, Hf. apply andb_true_iff in Hf as [Hc Hs].
      exists [c], s. split; [reflexivity|].
      split; [constructor; exact Hc | apply IH; split; [lia | exact Hs]].
Qed.

Lemma Matches_OneOrMore_Unit_iff class s :
  Matches (OneOrMore (Unit class)) s <-> s <> [] /\ forallb class s = true.
Proof.
  unfold OneOrMore. rewrite Matches_Then_iff. split.
  - intros (s1 & s2 & -> & H1 & H2).
    apply Matches_Unit_iff in H1 as (c & -> & Hc).
    apply Matches_Many_Unit_iff in H2. cbn. rewrite Hc, H2.
    split; [discriminate | reflexivity].
  - intros [Hne Hf]. destruct s as [|c s]; [contradiction|].
    cbn in Hf. apply andb_true_iff in Hf as [Hc Hs].
    exists [c], s. split; [reflexivity|].
    split; [constructor; exact Hc | apply Matches_Many_Unit_iff; exact Hs].
Qed.

Lemma Matches_AtLeast_Unit_iff n class s :
  Matches (AtLeast n (Unit class)) s
  <-> n <= length s /\ forallb class s = true.
Proof.
  unfold AtLeast. rewrite Matches_Then_iff. split.
  - intros (s1 & s2 & -> & H1 & H2).
    apply Matches_Exactly_Unit_iff in H1 as [Hl Hf].
    apply Matches_Many_Unit_iff in H2.
    rewrite length_app, forallb_app, Hf, H2. split; [lia | reflexivity].
  - intros [Hl Hf]. exists (firstn n s), (skipn n s).
    rewrite <- (firstn_skipn n s), forallb_app in Hf.
    apply andb_true_iff in Hf as [Hf1 Hf2].
    split; [symmetry; apply firstn_skipn|]. split.
    + apply Matches_Exactly_Unit_iff. split; [|exact Hf1].
      rewrite length_firstn. lia.
    + apply Matches_Many_Unit_iff. exact Hf2.
Qed.

(** *** validate_data: phone *)

(** A phone number is valid exactly when, after an optional plus sign, it
    is ten or more code units that are digits, white space or hyphens; no
    digit is required: ten or more hyphens are a valid phone number. *)
Theorem phone_pattern_accepts :
  (forall data,
     regex_test (patterns SchemaPhone) data = true
     <-> exists body,
           (data = body \/ data = 43%N :: body)
           /\ 10 <= length body /\ forallb is_phone_unit body = true)
  /\ (forall n, 10 <= n ->
        regex_test (patterns SchemaPhone) (repeat 45%N n) = true).
Proof.
  assert (forall d,
    regex_test (patterns SchemaPhone) d = true
    <-> exists body,
          (d = body \/ d = 43%N :: body)
          /\ 10 <= length body /\ forallb is_phone_unit body = true) as Hiff.
  { intros d. cbn [patterns]. unfold phone_pattern.
    rewrite regex_test_Matches, Matches_Then_iff. split.
    - intros (s1 & s2 & -> & H1 & H2).
      apply Matches_AtLeast_Unit_iff in H2 as [Hl Hf].
      apply Matches_Optional_iff in H1 as [H1| ->].
      + apply Matches_Char_iff in H1 as ->. exists s2.
        split; [right; reflexivity | split; assumption].
      + exists s2. split; [left; reflexivity | split; assumption].
    - intros (body & [-> | ->] & Hl & Hf).
      + exists [], body. split; [reflexivity|]. split.
        * apply Matches_Optional_iff. right. reflexivity.
        * apply Matches_AtLeast_Unit_iff. split; assumption.
      + exists [43%N], body. split; [reflexivity|]. split.
        * apply Matches_Optional_iff. left. apply Matches_Char_iff. reflexivity.
        * apply Matches_AtLeast_Unit_iff. split; assumption. }
  split; [exact Hiff|].
  intros n Hn. apply Hiff. exists (repeat 45%N n).
  split; [left; reflexivity|]. split; [rewrite repeat_length; exact Hn|].
  apply forallb_forall. intros c Hc. apply repeat_spec in Hc. subst c. reflexivity.
Qed.

Lemma phone_pattern_accepts_witness :
  regex_test (patterns SchemaPhone) (repeat 45%N 12) = true.
Proof.
  apply (proj2 phone_pattern_accepts). lia.
Defined.

(** *** validate_data: date *)

Lemma between_iff low high c :
  between low high c = true <-> (low <= c /\ c <= high)%N.
Proof.
  unfold between. rewrite andb_true_iff, !N.leb_le. reflexivity.
Qed.

Lemma is_digit_iff c : is_digit c = true <-> (48 <= c /\ c <= 57)%N.
Proof. apply between_iff. Qed.

Lemma Matches_two_units class1 class2 s :
  Matches (Then (Unit class1) (Unit class2)) s
  <-> exists a b, s = [a; b] /\ class1 a = true /\ class2 b = true.
Proof.
  rewrite Matches_Then_iff. split.
  - intros (s1 & s2 & -> & H1 & H2).
    apply Matches_Unit_iff in H1 as (a & -> & Ha).
    apply Matches_Unit_iff in H2 as (b & -> & Hb).
    exists a, b. repeat split; assumption.
  - intros (a & b & -> & Ha & Hb). exists [a], [b].
    repeat split; constructor; assumption.
Qed.

(** The month of the pattern: two digits that write a number from 1 to
    12. *)
Lemma Matches_month s :
  Matches (Or (Then (Char 48%N) (Unit (between 49%N 57%N)))
              (Then (Char 49%N) (Unit (between 48%N 50%N)))) s
  <-> exists m1 m2, s = [m1; m2] /\ is_digit m1 = true /\ is_digit m2 = true
                    /\ (1 <= two_digits m1 m2 <= 12)%N.
Proof.
  unfold Char. rewrite Matches_Or_iff, !Matches_two_units. unfold two_digits.
  split.
  - intros [(a & b & -> & Ha & Hb)|(a & b & -> & Ha & Hb)];
      apply N.eqb_eq in Ha; subst a; apply between_iff in Hb.
    + exists 48%N, b. split; [reflexivity|]. rewrite !is_digit_iff. lia.
    + exists 49%N, b. split; [reflexivity|]. rewrite !is_digit_iff. lia.
  - intros (m1 & m2 & -> & H1 & H2 & Hr).
    apply is_digit_iff in H1, H2.
    assert (m1 = 48 \/ m1 = 49)%N as [-> | ->] by lia.
    + left. exists 48%N, m2. split; [reflexivity|].
      split; [apply N.eqb_refl | apply between_iff; lia].
    + right. exists 49%N, m2. split; [reflexivity|].
      split; [apply N.eqb_refl | apply between_iff; lia].
Qed.

(** The day of the pattern: two digits that write a number from 1 to 31. *)
Lemma Matches_day s :
  Matches (Or (Then (Char 48%N) (Unit (between 49%N 57%N)))
              (Or (Then (Unit (between 49%N 50%N)) (Unit is_digit))
                  (Then (Char 51%N) (Unit (between 48%N 49%N))))) s
  <-> exists d1 d2, s = [d1; d2] /\ is_digit d1 = true /\ is_digit d2 = true
                    /\ (1 <= two_digits d1 d2 <= 31)%N.
Proof.
  unfold Char. rewrite !Matches_Or_iff, !Matches_two_units. unfold two_digits.
  split.
  - intros [(a & b & -> & Ha & Hb)|[(a & b & -> & Ha & Hb)|(a & b & -> & Ha & Hb)]].
    + apply N.eqb_eq in Ha. subst a. apply between_iff in Hb.
      exists 48%N, b. split; [reflexivity|]. rewrite !is_digit_iff. lia.
    + apply between_iff in Ha. apply is_digit_iff in Hb.
      exists a, b. split; [reflexivity|]. rewrite !is_digit_iff. lia.
    + apply N.eqb_eq in Ha. subst a. apply between_iff in Hb.
      exists 51%N, b. split; [reflexivity|]. rewrite !is_digit_iff. lia.
  - intros (d1 & d2 & -> & H1 & H2 & Hr).
    apply is_digit_iff in H1, H2.
    assert (d1 = 48 \/ (49 <= d1 <= 50) \/ d1 = 51)%N as [-> |[Hd | ->]] by lia.
    + left. exists 48%N, d2. split; [reflexivity|].
      split; [apply N.eqb_refl | apply between_iff; lia].
    + right. left. exists d1, d2. split; [reflexivity|].
      split; [apply between_iff; lia | apply is_digit_iff; lia].
    + right. right. exists 51%N, d2. split; [reflexivity|].
      split; [apply N.eqb_refl | apply between_iff; lia].
Qed.

(** A date is valid exactly when it is four digits, a hyphen, two digits
    that write a month from 1 to 12, a hyphen, and two digits that write a
    day from 1 to 31.  The day is not checked against the month: the 31st
    of February of any year is valid. *)
Theorem date_pattern_accepts :
  (forall data,
     regex_test (patterns SchemaDate) data = true
     <-> exists year m1 m2 d1 d2,
           data = year ++ [45%N; m1; m2; 45%N; d1; d2]
           /\ length year = 4 /\ forallb is_digit year = true
           /\ is_digit m1 = true /\ is_digit m2 = true
           /\ is_digit d1 = true /\ is_digit d2 = true
           /\ (1 <= two_digits m1 m2 <= 12)%N
           /\ (1 <= two_digits d1 d2 <= 31)%N)
  /\ (forall year,
        length year = 4 -> forallb is_digit year = true ->
        regex_test (patterns SchemaDate) (year ++ u "-02-31") = true).
Proof.
  assert (forall data,
     regex_test (patterns SchemaDate) data = true
     <-> exists year m1 m2 d1 d2,
           data = year ++ [45%N; m1; m2; 45%N; d1; d2]
           /\ length year = 4 /\ forallb is_digit year = true
           /\ is_digit m1 = true /\ is_digit m2 = true
           /\ is_digit d1 = true /\ is_digit d2 = true
           /\ (1 <= two_digits m1 m2 <= 12)%N
           /\ (1 <= two_digits d1 d2 <= 31)%N) as Hiff.
  { intros data. cbn [patterns]. unfold date_pattern.
    rewrite regex_test_Matches. split.
    - intros H.
      apply Matches_Then_iff in H as (year & t1 & -> & Hy & H).
      apply Matches_Exactly_Unit_iff in Hy as [Hl Hf].
      apply Matches_Then_iff in H as (h1 & t2 & -> & Hh1 & H).
      apply Matches_Char_iff in Hh1 as ->.
      apply Matches_Then_iff in H as (month & t3 & -> & Hm & H).
      apply Matches_month in Hm as (m1 & m2 & -> & Hm1 & Hm2 & Hmr).
      apply Matches_Then_iff in H as (h2 & day & -> & Hh2 & Hd).
      apply Matches_Char_iff in Hh2 as ->.
      apply Matches_day in Hd as (d1 & d2 & -> & Hd1 & Hd2 & Hdr).
      exists year, m1, m2, d1, d2.
      repeat split; first [assumption | apply Hmr | apply Hdr].
    - intros (year & m1 & m2 & d1 & d2 & -> & Hl & Hf & Hm1 & Hm2 & Hd1 & Hd2
              & Hmr & Hdr).
      apply Matches_Then_iff. exists year, [45%N; m1; m2; 45%N; d1; d2].
      split; [reflexivity|].
      split; [apply Matches_Exactly_Unit_iff; split; assumption|].
      apply Matches_Then_iff. exists [45%N], [m1; m2; 45%N; d1; d2].
      split; [reflexivity|]. split; [apply Matches_Char_iff; reflexivity|].
      apply Matches_Then_iff. exists [m1; m2], [45%N; d1; d2].
      split; [reflexivity|]. split.
      { apply Matches_month. exists m1, m2.
        repeat split; first [assumption | apply Hmr]. }
      apply Matches_Then_iff. exists [45%N], [d1; d2].
      split; [reflexivity|]. split; [apply Matches_Char_iff; reflexivity|].
      apply Matches_day. exists d1, d2.
      repeat split; first [assumption | apply Hdr]. }
  split; [exact Hiff|].
  intros year Hl Hf. apply Hiff. exists year, 48%N, 50%N, 51%N, 49%N.
  repeat split; try assumption; try reflexivity; unfold two_digits; lia.
Qed.

Lemma date_pattern_accepts_witness :
  regex_test (patterns SchemaDate) (u "2023-02-31") = true.
Proof.
  exact (proj2 date_pattern_accepts (u "2023") eq_refl eq_refl).
Defined.

(** *** validate_data: credit card *)

Lemma Matches_optional_separator s :
  Matches (Optional (Unit is_group_separator)) s <-> optional_separator s.
Proof.
  unfold optional_separator.
  rewrite Matches_Optional_iff, Matches_Unit_iff. tauto.
Qed.

Lemma filter_all (class : code_unit -> bool) (s : jsstring) :
  forallb class s = true -> filter class s = s.
Proof.
  induction s as [|c s IH]; cbn; intros H; [reflexivity|].
  apply andb_true_iff in H as [Hc Hs]. rewrite Hc, IH by exact Hs. reflexivity.
Qed.

Lemma separator_has_no_digit s :
  optional_separator s -> filter is_digit s = [] /\ length s <= 1.
Proof.
  intros [-> | (c & -> & Hc)]; [split; [reflexivity | simpl; lia]|].
  unfold is_group_separator in Hc. apply orb_true_iff in Hc as [Hc|Hc];
    apply N.eqb_eq in Hc; subst c; split; try reflexivity; simpl; lia.
Qed.

(** A card number is valid exactly when it is four groups of four digits,
    with nothing, a hyphen or a space between two groups, the separators
    chosen one by one; so a valid number has 16 digits in 16 to 19 code
    units, and no checksum is computed. *)
Theorem credit_card_pattern_accepts :
  (forall data,
     regex_test (patterns SchemaCreditCard) data = true
     <-> exists g1 s1 g2 s2 g3 s3 g4,
           data = g1 ++ s1 ++ g2 ++ s2 ++ g3 ++ s3 ++ g4
           /\ digit_group g1 /\ digit_group g2 /\ digit_group g3
           /\ digit_group g4
           /\ optional_separator s1 /\ optional_separator s2
           /\ optional_separator s3)
  /\ (forall data,
        regex_test (patterns SchemaCreditCard) data = true ->
        length (filter is_digit data) = 16
        /\ 16 <= length data <= 19).
Proof.
  assert (forall data,
     regex_test (patterns SchemaCreditCard) data = true
     <-> exists g1 s1 g2 s2 g3 s3 g4,
           data = g1 ++ s1 ++ g2 ++ s2 ++ g3 ++ s3 ++ g4
           /\ digit_group g1 /\ digit_group g2 /\ digit_group g3
           /\ digit_group g4
           /\ optional_separator s1 /\ optional_separator s2
           /\ optional_separator s3) as Hiff.
  { intros data. cbn [patterns]. unfold credit_card_pattern, digit_group.
    rewrite regex_test_Matches. split.
    - intros H.
      apply Matches_Then_iff in H as (g1 & t1 & -> & Hg1 & H).
      apply Matches_Then_iff in H as (s1 & t2 & -> & Hs1 & H).
      apply Matches_Then_iff in H as (g2 & t3 & -> & Hg2 & H).
      apply Matches_Then_iff in H as (s2 & t4 & -> & Hs2 & H).
      apply Matches_Then_iff in H as (g3 & t5 & -> & Hg3 & H).
      apply Matches_Then_iff in H as (s3 & g4 & -> & Hs3 & Hg4).
      apply Matches_Exactly_Unit_iff in Hg1, Hg2, Hg3, Hg4.
      apply Matches_optional_separator in Hs1, Hs2, Hs3.
      exists g1, s1, g2, s2, g3, s3, g4.
      split; [reflexivity|]. tauto.
    - intros (g1 & s1 & g2 & s2 & g3 & s3 & g4 & -> & Hg1 & Hg2 & Hg3 & Hg4
              & Hs1 & Hs2 & Hs3).
      apply Matches_Exactly_Unit_iff in Hg1, Hg2, Hg3, Hg4.
      apply Matches_optional_separator in Hs1, Hs2, Hs3.
      repeat (constructor; [assumption|]). assumption. }
  split; [exact Hiff|].
  intros data H. apply Hiff in H
    as (g1 & s1 & g2 & s2 & g3 & s3 & g4 & -> & (L1 & F1) & (L2 & F2)
        & (L3 & F3) & (L4 & F4) & Hs1 & Hs2 & Hs3).
  apply separator_has_no_digit in Hs1 as (E1 & B1).
  apply separator_has_no_digit in Hs2 as (E2 & B2).
  apply separator_has_no_digit in Hs3 as (E3 & B3).
  rewrite !filter_app, E1, E2, E3, !filter_all by assumption.
  rewrite !length_app. cbn [length]. unfold jsstring in *. lia.
Qed.

Lemma credit_card_pattern_accepts_witness :
  regex_test (patterns SchemaCreditCard) (u "1234-5678 90123456") = true
  /\ length (filter is_digit (u "1234-5678 90123456")) = 16.
Proof.
  split; [reflexivity|].
  exact (proj1 (proj2 credit_card_pattern_accepts
                  (u "1234-5678 90123456") eq_refl)).
Defined.

(** *** validate_data: email *)

Lemma split_at_no_separator separator s :
  forallb (fun c => negb (N.eqb c separator)) s = true ->
  split_at separator s = [s].
Proof.
  induction s as [|c s IH]; cbn; intros H; [reflexivity|].
  apply andb_true_iff in H as [Hc Hs]. apply negb_true_iff in Hc.
  rewrite Hc, IH by exact Hs. reflexivity.
Qed.

Lemma split_at_first separator a b :
  forallb (fun c => negb (N.eqb c separator)) a = true ->
  split_at separator (a ++ separator :: b) = a :: split_at separator b.
Proof.
  induction a as [|c a IH]; cbn; intros H.
  - rewrite N.eqb_refl. reflexivity.
  - apply andb_true_iff in H as [Hc Ha]. apply negb_true_iff in Hc.
    rewrite Hc, IH by exact Ha. reflexivity.
Qed.

Lemma address_units_have_no_at s :
  forallb is_address_unit s = true ->
  forallb (fun c => negb (N.eqb c 64%N)) s = true
  /\ forallb is_visible s = true.
Proof.
  induction s as [|c s IH]; cbn; intros H; [split; reflexivity|].
  apply andb_true_iff in H as [Hc Hs]. destruct (IH Hs) as [H1 H2].
  rewrite H1, H2. unfold is_address_unit in Hc. unfold is_visible.
  apply negb_true_iff, orb_false_iff in Hc as [Hw Ha].
  rewrite Hw, Ha. split; reflexivity.
Qed.

Lemma email_pattern_parts data :
  regex_test (patterns SchemaEmail) data = true
  <-> exists local name ending,
        data = local ++ [64%N] ++ name ++ [46%N] ++ ending
        /\ address_part local /\ address_part name /\ address_part ending.
Proof.
  cbn [patterns]. unfold email_pattern, address_part.
  rewrite regex_test_Matches. split.
  - intros H.
    apply Matches_Then_iff in H as (local & t1 & -> & Hl & H).
    apply Matches_Then_iff in H as (a & t2 & -> & Ha & H).
    apply Matches_Char_iff in Ha as ->.
    apply Matches_Then_iff in H as (name & t3 & -> & Hn & H).
    apply Matches_Then_iff in H as (d & ending & -> & Hd & He).
    apply Matches_Char_iff in Hd as ->.
    apply Matches_OneOrMore_Unit_iff in Hl, Hn, He.
    exists local, name, ending. split; [reflexivity|]. tauto.
  - intros (local & name & ending & -> & Hl & Hn & He).
    apply Matches_OneOrMore_Unit_iff in Hl, Hn, He.
    constructor; [exact Hl|]. constructor; [apply Matches_Char_iff; reflexivity|].
    constructor; [exact Hn|]. constructor; [apply Matches_Char_iff; reflexivity|].
    exact He.
Qed.

(** The two pieces of a valid address at its [@]. *)
Lemma email_split local name ending :
  address_part local -> address_part name -> address_part ending ->
  split_at 64%N (local ++ [64%N] ++ name ++ [46%N] ++ ending)
  = [local; name ++ [46%N] ++ ending].
Proof.
  intros (Hl & Fl) (Hn & Fn) (He & Fe).
  destruct (address_units_have_no_at local Fl) as (Al & Vl).
  destruct (address_units_have_no_at name Fn) as (An & Vn).
  destruct (address_units_have_no_at ending Fe) as (Ae & Ve).
  assert (forallb (fun c => negb (N.eqb c 64%N)) (name ++ [46%N] ++ ending)
          = true) as Ad.
  { rewrite !forallb_app.
    repeat (apply andb_true_iff; split); first [assumption | reflexivity]. }
  cbn [app]. rewrite split_at_first by exact Al.
  change (name ++ 46%N :: ending) with (name ++ [46%N] ++ ending).
  rewrite split_at_no_separator by exact Ad. reflexivity.
Qed.

(** An address is valid exactly when it is three non-empty parts free of
    white space and of [@], the first two joined by the one [@] and the last
    two by a dot.  For a valid address the details name the two sides of
    the [@], which put back together are the address. *)
Theorem email_pattern_accepts :
  (forall data,
     regex_test (patterns SchemaEmail) data = true
     <-> exists local name ending,
           data = local ++ [64%N] ++ name ++ [46%N] ++ ending
           /\ address_part local /\ address_part name /\ address_part ending)
  /\ (forall host dates data,
        regex_test (patterns SchemaEmail) data = true ->
        exists local domain,
          data = local ++ [64%N] ++ domain
          /\ split_at 64%N data = [local; domain]
          /\ local <> [] /\ In 46%N domain
          /\ forallb is_visible data = true
          /\ validation_details host dates SchemaEmail data
             = u "Local part: " ++ local ++ u ", Domain: " ++ domain).
Proof.
  split; [exact email_pattern_parts|].
  intros host dates data H.
  apply email_pattern_parts in H as (local & name & ending & -> & Pl & Pn & Pe).
  pose proof (email_split local name ending Pl Pn Pe) as Hsplit.
  destruct Pl as (Hl & Fl), Pn as (Hn & Fn), Pe as (He & Fe).
  destruct (address_units_have_no_at local Fl) as (Al & Vl).
  destruct (address_units_have_no_at name Fn) as (An & Vn).
  destruct (address_units_have_no_at ending Fe) as (Ae & Ve).
  exists local, (name ++ [46%N] ++ ending).
  split; [reflexivity|]. split; [exact Hsplit|]. split; [exact Hl|].
  split; [apply in_or_app; right; left; reflexivity|].
  split.
  { rewrite !forallb_app.
    repeat (apply andb_true_iff; split); first [assumption | reflexivity]. }
  exact (f_equal
           (fun parts => u "Local part: " ++ element_text parts 0
                         ++ u ", Domain: " ++ element_text parts 1) Hsplit).
Qed.

Lemma email_pattern_accepts_witness :
  regex_test (patterns SchemaEmail) (u "ada@example.org") = true
  /\ exists local domain,
       split_at 64%N (u "ada@example.org") = [local; domain]
       /\ u "ada@example.org" = local ++ [64%N] ++ domain.
Proof.
  split; [reflexivity|].
  destruct (proj2 email_pattern_accepts example_host
              {| getDate := fun _ => 0%float; getMonth := fun _ => 0%float;
                 getFullYear := fun _ => 0%float |}
              (u "ada@example.org") eq_refl)
    as (local & domain & Hd & Hs & _).
  exists local, domain. split; [exact Hs | exact Hd].
Defined.

(** *** validate_data: url *)

Lemma Matches_Literal_iff l s : Matches (Literal l) s <-> s = l.
Proof.
  revert s. induction l as [|c l IH]; intros s; cbn [Literal].
  - apply Matches_Empty_iff.
  - rewrite Matches_Then_iff. split.
    + intros (s1 & s2 & -> & H1 & H2). apply Matches_Char_iff in H1 as ->.
      apply IH in H2 as ->. reflexivity.
    + intros ->. exists [c], l. split; [reflexivity|].
      split; [apply Matches_Char_iff; reflexivity | apply IH; reflexivity].
Qed.

Lemma Matches_AtMost_Unit_iff n class s :
  Matches (AtMost n (Unit class)) s <-> length s <= n /\ forallb class s = true.
Proof.
  revert s. induction n as [|n IH]; intros s; cbn [AtMost].
  - rewrite Matches_Empty_iff. split.
    + intros ->. split; [apply le_n | reflexivity].
    + intros [H _]. destruct s; [reflexivity | cbn in H; lia].
  - rewrite Matches_Optional_iff, Matches_Then_iff. split.
    + intros [(s1 & s2 & -> & H1 & H2) | ->].
      * apply Matches_Unit_iff in H1 as (c & -> & Hc).
        apply IH in H2 as [Hl Hf]. cbn. rewrite Hc, Hf.
        split; [lia | reflexivity].
      * split; [cbn; lia | reflexivity].
    + intros [Hl Hf]. destruct s as [|c s]; [right; reflexivity|]. left.
      cbn in Hl, Hf. apply andb_true_iff in Hf as [Hc Hf].
      exists [c], s. split; [reflexivity|]. split.
      * apply Matches_Unit_iff. exists c. split; [reflexivity | exact Hc].
      * apply IH. split; [lia | exact Hf].
Qed.

Lemma Matches_Between_Unit_iff m n class s :
  m <= n ->
  Matches (Between m n (Unit class)) s
  <-> (m <= length s <= n) /\ forallb class s = true.
Proof.
  intros Hmn. unfold Between. rewrite Matches_Then_iff. split.
  - intros (s1 & s2 & -> & H1 & H2).
    apply Matches_Exactly_Unit_iff in H1 as [L1 F1].
    apply Matches_AtMost_Unit_iff in H2 as [L2 F2].
    rewrite length_app, forallb_app, F1, F2. split; [lia | reflexivity].
  - intros [[Hl Hu] Hf]. exists (firstn m s), (skipn m s).
    split; [symmetry; apply firstn_skipn|].
    rewrite <- (firstn_skipn m s), forallb_app in Hf.
    apply andb_true_iff in Hf as [F1 F2]. split.
    + apply Matches_Exactly_Unit_iff.
      split; [rewrite length_firstn; lia | exact F1].
    + apply Matches_AtMost_Unit_iff.
      split; [rewrite length_skipn; lia | exact F2].
Qed.

(** A starred group that is itself starred accepts what the group starred
    once accepts. *)
Lemma Matches_Many_Many_Unit_iff class s :
  Matches (Many (Many (Unit class))) s <-> forallb class s = true.
Proof.
  split.
  - intros H. remember (Many (Many (Unit class))) as r eqn:Er.
    induction H; try discriminate.
    + reflexivity.
    + injection Er as ->. rewrite forallb_app.
      apply Matches_Many_Unit_iff in H. rewrite H.
      apply IHMatches2. reflexivity.
  - intros H. rewrite <- (app_nil_r s).
    apply Matches_Many_more;
      [apply Matches_Many_Unit_iff; exact H | apply Matches_Many_none].
Qed.

Lemma Matches_url_scheme s :
  Matches (Optional (Then (Literal (u "http"))
                       (Then (Optional (Char 115%N)) (Literal (u "://"))))) s
  <-> url_scheme s.
Proof.
  unfold url_scheme. rewrite Matches_Optional_iff, Matches_Then_iff. split.
  - intros [(s1 & s2 & -> & H1 & H2) | ->]; [|left; reflexivity]. right.
    apply Matches_Literal_iff in H1 as ->.
    apply Matches_Then_iff in H2 as (o & s3 & -> & Ho & H3).
    apply Matches_Literal_iff in H3 as ->.
    apply Matches_Optional_iff in Ho as [Ho | ->].
    + apply Matches_Char_iff in Ho as ->. right. reflexivity.
    + left. reflexivity.
  - intros [-> | [-> | ->]]; [right; reflexivity | left | left].
    + exists (u "http"), (u "://"). split; [reflexivity|].
      split; [apply Matches_Literal_iff; reflexivity|].
      apply Matches_Then_iff. exists [], (u "://"). split; [reflexivity|].
      split; [apply Matches_Optional_iff; right; reflexivity
             | apply Matches_Literal_iff; reflexivity].
    + exists (u "http"), (u "s://"). split; [reflexivity|].
      split; [apply Matches_Literal_iff; reflexivity|].
      apply Matches_Then_iff. exists [115%N], (u "://"). split; [reflexivity|].
      split; [apply Matches_Optional_iff; left; apply Matches_Char_iff; reflexivity
             | apply Matches_Literal_iff; reflexivity].
Qed.

Lemma host_units_are_path_units c :
  is_host_unit c = true -> is_path_unit c = true.
Proof.
  unfold is_host_unit, is_path_unit, is_word_unit.
  destruct (is_digit c), (between 97%N 122%N c), (N.eqb c 46%N),
    (N.eqb c 45%N), (N.eqb c 47%N), (between 65%N 90%N c), (N.eqb c 95%N),
    (N.eqb c 32%N); cbn; intros; congruence.
Qed.

Lemma domain_units_are_path_units c :
  is_domain_unit c = true -> is_path_unit c = true.
Proof.
  unfold is_domain_unit, is_path_unit, is_word_unit.
  destruct (is_digit c), (between 97%N 122%N c), (N.eqb c 46%N),
    (N.eqb c 45%N), (N.eqb c 47%N), (between 65%N 90%N c), (N.eqb c 95%N),
    (N.eqb c 32%N); cbn; intros; congruence.
Qed.

Lemma forallb_weaken (f g : code_unit -> bool) (s : jsstring) :
  (forall c, f c = true -> g c = true) ->
  forallb f s = true -> forallb g s = true.
Proof.
  intros H F. apply forallb_forall. intros c Hin. apply H.
  exact (proj1 (forallb_forall f s) F c Hin).
Qed.

(** A URL is valid exactly when it is an optional [http://] or [https://],
    a non-empty run of digits, small letters, dots and hyphens, a dot, two
    to six small letters or dots, and any run of word characters, slashes,
    spaces, dots and hyphens; the optional last slash adds nothing.  So
    after the scheme a valid URL has a dot and neither a colon, a question
    mark nor a number sign: a port, a query and a fragment make it
    invalid. *)
Theorem url_pattern_accepts :
  (forall data,
     regex_test (patterns SchemaUrl) data = true
     <-> exists scheme host ending path,
           data = scheme ++ host ++ [46%N] ++ ending ++ path
           /\ url_scheme scheme
           /\ host <> [] /\ forallb is_host_unit host = true
           /\ 2 <= length ending <= 6 /\ forallb is_domain_unit ending = true
           /\ forallb is_path_unit path = true)
  /\ (forall data,
        regex_test (patterns SchemaUrl) data = true ->
        exists scheme rest,
          data = scheme ++ rest /\ url_scheme scheme
          /\ In 46%N rest /\ forallb is_path_unit rest = true
          /\ ~ In 58%N rest /\ ~ In 63%N rest /\ ~ In 35%N rest).
Proof.
  assert (forall data,
     regex_test (patterns SchemaUrl) data = true
     <-> exists scheme host ending path,
           data = scheme ++ host ++ [46%N] ++ ending ++ path
           /\ url_scheme scheme
           /\ host <> [] /\ forallb is_host_unit host = true
           /\ 2 <= length ending <= 6 /\ forallb is_domain_unit ending = true
           /\ forallb is_path_unit path = true) as Hiff.
  { intros data. cbn [patterns]. unfold url_pattern.
    rewrite regex_test_Matches. split.
    - intros H.
      apply Matches_Then_iff in H as (scheme & t1 & -> & Hs & H).
      apply Matches_url_scheme in Hs.
      apply Matches_Then_iff in H as (host & t2 & -> & Hh & H).
      apply Matches_OneOrMore_Unit_iff in Hh as [Hh Fh].
      apply Matches_Then_iff in H as (d & t3 & -> & Hd & H).
      apply Matches_Char_iff in Hd as ->.
      apply Matches_Then_iff in H as (ending & t4 & -> & He & H).
      apply Matches_Between_Unit_iff in He as [Le Fe]; [|lia].
      apply Matches_Then_iff in H as (path & slash & -> & Hp & Hl).
      apply Matches_Many_Many_Unit_iff in Hp.
      exists scheme, host, ending, (path ++ slash).
      split; [reflexivity|]. repeat split; try assumption; try apply Le.
      rewrite forallb_app, Hp.
      apply Matches_Optional_iff in Hl as [Hl | ->]; [|reflexivity].
      apply Matches_Char_iff in Hl as ->. reflexivity.
    - intros (scheme & host & ending & path & -> & Hs & Hh & Fh & Le & Fe & Fp).
      constructor; [apply Matches_url_scheme; exact Hs|].
      constructor; [apply Matches_OneOrMore_Unit_iff; split; assumption|].
      constructor; [apply Matches_Char_iff; reflexivity|].
      constructor;
        [apply Matches_Between_Unit_iff; [lia | split; assumption]|].
      rewrite <- (app_nil_r path).
      constructor; [apply Matches_Many_Many_Unit_iff; exact Fp|].
      apply Matches_Optional_iff. right. reflexivity. }
  split; [exact Hiff|].
  intros data H.
  apply Hiff in H as (scheme & host & ending & path & -> & Hs & Hh & Fh & Le
                      & Fe & Fp).
  assert (forallb is_path_unit (host ++ [46%N] ++ ending ++ path) = true) as F.
  { rewrite !forallb_app.
    repeat (apply andb_true_iff; split);
      first [ exact (forallb_weaken _ _ host host_units_are_path_units Fh)
            | exact (forallb_weaken _ _ ending domain_units_are_path_units Fe)
            | exact Fp
            | reflexivity ]. }
  exists scheme, (host ++ [46%N] ++ ending ++ path).
  split; [reflexivity|]. split; [exact Hs|].
  split; [apply in_or_app; right; left; reflexivity|].
  split; [exact F|].
  repeat split; intros Hin;
    apply (proj1 (forallb_forall _ _) F) in Hin; discriminate.
Qed.

Lemma url_pattern_accepts_witness :
  regex_test (patterns SchemaUrl) (u "https://example.com/docs") = true
  /\ exists scheme rest,
       u "https://example.com/docs" = scheme ++ rest
       /\ url_scheme scheme /\ ~ In 58%N rest.
Proof.
  split; [reflexivity|].
  destruct (proj2 url_pattern_accepts (u "https://example.com/docs") eq_refl)
    as (scheme & rest & Hd & Hs & _ & _ & Hc & _).
  exists scheme, rest. split; [exact Hd|]. split; [exact Hs | exact Hc].
Defined.

(** *** validate_data: the text returned *)

(** The text validate_data returns never logs an error and has a line of
    details for a valid email address and a valid date only: an invalid
    text of any schema, and a valid phone number, URL or card number, give
    the three opening lines and nothing after them.  The details of an
    address are its two sides of the [@]. *)
Theorem validate_data_details
  (host : Host) (dates : DateHost) (schema_type : SchemaType)
  (data : jsstring) :
  logged_errors (validate_data host dates schema_type data) = []
  /\ (regex_test (patterns schema_type) data = false ->
      tool_content (validate_data host dates schema_type data)
      = text_content (validation_lines false schema_type))
  /\ (regex_test (patterns schema_type) data = true ->
      schema_type = SchemaPhone \/ schema_type = SchemaUrl
      \/ schema_type = SchemaCreditCard ->
      tool_content (validate_data host dates schema_type data)
      = text_content (validation_lines true schema_type))
  /\ (regex_test (patterns schema_type) data = true ->
      schema_type = SchemaEmail ->
      exists local domain,
        data = local ++ [64%N] ++ domain
        /\ tool_content (validate_data host dates schema_type data)
           = text_content
               (validation_lines true schema_type
                ++ u "Details: Local part: " ++ local
                ++ u ", Domain: " ++ domain))
  /\ (regex_test (patterns schema_type) data = true ->
      schema_type = SchemaDate ->
      tool_content (validate_data host dates schema_type data)
      = text_content
          (validation_lines true schema_type
           ++ u "Details: Day: " ++ Number_toString host (getDate dates data)
           ++ u ", Month: "
           ++ Number_toString host (PrimFloat.add (getMonth dates data) 1%float)
           ++ u ", Year: " ++ Number_toString host (getFullYear dates data))).
Proof.
  split; [reflexivity|]. split; [|split; [|split]].
  - intros H. unfold validate_data. rewrite H.
    destruct schema_type; reflexivity.
  - intros H [-> | [-> | ->]]; unfold validate_data; rewrite H; reflexivity.
  - intros H ->.
    pose proof H as P.
    apply email_pattern_parts in P as (local & name & ending & -> & Pl & Pn & Pe).
    exists local, (name ++ [46%N] ++ ending). split; [reflexivity|].
    pose proof (email_split local name ending Pl Pn Pe) as Hsplit.
    unfold validate_data, validation_details. cbv zeta. rewrite H.
    unfold jsstring, code_unit in *. rewrite Hsplit. reflexivity.
  - intros H ->. unfold validate_data. rewrite H. reflexivity.
Qed.

Lemma validate_data_details_witness :
  tool_content
    (validate_data example_host
       {| getDate := fun _ => 0%float; getMonth := fun _ => 0%float;
          getFullYear := fun _ => 0%float |}
       SchemaPhone (u "555-0100"))
  = text_content (validation_lines false SchemaPhone)
  /\ tool_content
       (validate_data example_host
          {| getDate := fun _ => 0%float; getMonth := fun _ => 0%float;
             getFullYear := fun _ => 0%float |}
          SchemaCreditCard (u "1234 5678 9012 3456"))
     = text_content (validation_lines true SchemaCreditCard).
Proof.
  split.
  - exact (proj1 (proj2 (validate_data_details example_host _ SchemaPhone
                           (u "555-0100"))) eq_refl).
  - exact (proj1 (proj2 (proj2 (validate_data_details example_host _
                                  SchemaCreditCard (u "1234 5678 9012 3456"))))
             eq_refl (or_intror (or_intror eq_refl))).
Defined.

(** ** The database service *)

(** *** executeQuery *)

Lemma app_cons_position {A : Type} (before after : list A) (x : A) (l : list A) :
  l = before ++ x :: after ->
  nth_error l (length before) = Some x
  /\ firstn (length before) l = before
  /\ skipn (S (length before)) l = after.
Proof.
  intros ->. induction before as [|b before (IH1 & IH2 & IH3)]; cbn.
  - repeat split.
  - rewrite IH2. repeat split; assumption.
Qed.

(** Every statement executeQuery sends is BEGIN TRANSACTION READ ONLY,
    ROLLBACK or the caller's, and the caller's goes out only straight
    after BEGIN TRANSACTION READ ONLY has succeeded on the client.  Once
    the pool has given a client, the call ends with ROLLBACK and then the
    one release of the client, whether it returns or throws; rows that the
    call returns are those of the caller's statement; and without a client
    nothing is sent. *)
Theorem executeQuery_runs_read_only (db : Database) (sql : jsstring) :
  (forall before after statement parameters,
     db_trace (executeQuery db sql)
     = before ++ DbQuery statement parameters :: after ->
     statement = begin_read_only \/ statement = rollback
     \/ (statement = sql
         /\ before = [DbConnect; DbQuery begin_read_only []]
         /\ after = [DbQuery rollback []; DbRelease]
         /\ exists v, db_query db [DbConnect] begin_read_only [] = Ok v))
  /\ (forall v, db_connect db = Ok v ->
        exists earlier,
          db_trace (executeQuery db sql)
          = earlier ++ [DbQuery rollback []; DbRelease]
          /\ ~ In DbRelease earlier)
  /\ (forall e, db_connect db = Throw e ->
        executeQuery db sql
        = {| db_result := Throw e; db_trace := [DbConnect]; db_logged := [] |})
  /\ (forall rows, db_result (executeQuery db sql) = Ok rows ->
        db_query db [DbConnect; DbQuery begin_read_only []] sql [] = Ok rows).
Proof.
  unfold executeQuery.
  destruct (db_connect db) as [[]|e0] eqn:Hc.
  2:{ repeat split.
      - intros before after statement parameters H. cbn in H.
        destruct before as [|x [|y before]]; discriminate.
      - intros v H. discriminate.
      - intros e H. injection H as <-. reflexivity.
      - intros rows H. discriminate. }
  destruct (db_query db [DbConnect] begin_read_only []) as [v0|e0] eqn:Hb;
    unfold rollback_and_release; cbn [db_trace db_result app].
  - split; [|split; [|split]].
    + intros before after statement parameters H.
      apply app_cons_position in H as (Hn & Hf & Hs).
      destruct (length before) as [|[|[|[|[|[|n]]]]]]; cbn in Hn, Hf, Hs;
        try discriminate; injection Hn as <- <-.
      * left. reflexivity.
      * right. right. subst before after. repeat split.
        exists v0. reflexivity.
      * right. left. reflexivity.
    + intros _ _.
      exists [DbConnect; DbQuery begin_read_only []; DbQuery sql []].
      split; [reflexivity|]. intros [H|[H|[H|[]]]]; discriminate.
    + intros e H. discriminate.
    + intros rows H. exact H.
  - split; [|split; [|split]].
    + intros before after statement parameters H.
      apply app_cons_position in H as (Hn & Hf & Hs).
      destruct (length before) as [|[|[|[|[|n]]]]]; cbn in Hn, Hf, Hs;
        try discriminate; injection Hn as <- <-.
      * left. reflexivity.
      * right. left. reflexivity.
    + intros _ _. exists [DbConnect; DbQuery begin_read_only []].
      split; [reflexivity|]. intros [H|[H|[]]]; discriminate.
    + intros e H. discriminate.
    + intros rows H. discriminate.
Qed.

Lemma executeQuery_runs_read_only_witness :
  db_trace
    (executeQuery
       {| db_connect := Ok tt;
          db_query := fun _ _ _ => Throw (Error (u "connection lost")) |}
       (u "DELETE FROM t"))
  = [DbConnect; DbQuery begin_read_only []]
    ++ [DbQuery rollback []; DbRelease]
  /\ ~ In DbRelease [DbConnect; DbQuery begin_read_only []].
Proof.
  split; [reflexivity|].
  destruct (proj1 (proj2 (executeQuery_runs_read_only
              {| db_connect := Ok tt;
                 db_query := fun _ _ _ => Throw (Error (u "connection lost")) |}
              (u "DELETE FROM t"))) tt eq_refl) as (earlier & He & Hn).
  apply app_inv_tail in He. rewrite He. exact Hn.
Defined.

(** *** readResource *)

Lemma split_at_nonempty separator s : split_at separator s <> [].
Proof.
  destruct s as [|c s]; cbn; [discriminate|].
  destruct (N.eqb c separator); [discriminate|].
  destruct (split_at separator s); discriminate.
Qed.

Lemma split_at_app separator a b :
  split_at separator (a ++ separator :: b)
  = split_at separator a ++ split_at separator b.
Proof.
  induction a as [|c a IH]; cbn.
  - rewrite N.eqb_refl. reflexivity.
  - destruct (N.eqb c separator); [rewrite IH; reflexivity|].
    rewrite IH. pose proof (split_at_nonempty separator a) as Hne.
    destruct (split_at separator a) as [|p ps]; [contradiction | reflexivity].
Qed.

Lemma pop_last (init : list jsstring) (x : jsstring) :
  pop (init ++ [x]) = (JString x, init).
Proof.
  unfold pop. rewrite rev_app_distr. cbn. rewrite rev_involutive. reflexivity.
Qed.

Lemma split_at_last separator s init x :
  split_at separator s = init ++ [x] ->
  (init = [] /\ s = x) \/ exists prefix, s = prefix ++ separator :: x.
Proof.
  revert init x. induction s as [|c s IH]; intros init x H.
  - cbn in H. destruct init as [|i init].
    + injection H as <-. left. split; reflexivity.
    + destruct init; discriminate.
  - cbn [split_at] in H. destruct (N.eqb c separator) eqn:E.
    + apply N.eqb_eq in E. subst c.
      destruct init as [|i init].
      * pose proof (split_at_nonempty separator s) as Hne.
        destruct (split_at separator s); [contradiction | discriminate].
      * cbn in H. injection H as <- H.
        destruct (IH init x H) as [[-> ->]|(p & ->)].
        -- right. exists []. reflexivity.
        -- right. exists (separator :: p). reflexivity.
    + destruct (split_at separator s) as [|p ps] eqn:Es;
        [exfalso; exact (split_at_nonempty separator s Es)|].
      destruct init as [|i init].
      * cbn in H. injection H as <- ->.
        destruct (IH [] p eq_refl) as [[_ ->]|(prefix & ->)];
          [left; split; reflexivity|].
        exfalso. rewrite split_at_app in Es.
        pose proof (split_at_nonempty separator prefix) as H1.
        pose proof (split_at_nonempty separator p) as H2.
        destruct (split_at separator prefix) as [|a [|a' l]]; [contradiction| |];
          destruct (split_at separator p); try contradiction; discriminate.
      * cbn in H. injection H as <- ->.
        destruct (IH (p :: init) x eq_refl) as [[Hnil _]|(prefix & ->)];
          [discriminate|].
        right. exists (c :: prefix). reflexivity.
Qed.

(** readResource reads the table name off the path: a path ends in the
    component [schema] exactly when it is accepted, the table is then the
    component before it, so that the path [.../table/schema] gives back
    [table]; on any other path, and on a text that is not a URL, the call
    throws before it asks the pool for a client; and a client it has got
    is released after the one statement, whatever that returns. *)
Theorem readResource_reads_the_table_name :
  (forall prefix table,
     forallb (fun c => negb (N.eqb c 47%N)) table = true ->
     resource_table (prefix ++ u "/" ++ table ++ u "/schema")
     = Ok (JString table))
  /\ (forall pathname,
        (exists tableName, resource_table pathname = Ok tableName)
        <-> pathname = u "schema"
            \/ exists prefix, pathname = prefix ++ u "/schema")
  /\ (forall pathname_of db uri,
        (forall tableName,
           bind_result (pathname_of uri) resource_table <> Ok tableName) ->
        db_trace (readResource pathname_of db uri) = []
        /\ exists e, db_result (readResource pathname_of db uri) = Throw e)
  /\ (forall pathname_of db uri tableName v,
        bind_result (pathname_of uri) resource_table = Ok tableName ->
        db_connect db = Ok v ->
        readResource pathname_of db uri
        = {| db_result := db_query db [DbConnect] columns_query [tableName];
             db_trace :=
               [DbConnect; DbQuery columns_query [tableName]; DbRelease];
             db_logged := [] |}).
Proof.
  split; [|split; [|split]].
  - intros prefix table Ht. unfold resource_table.
    change (prefix ++ u "/" ++ table ++ u "/schema")
      with (prefix ++ 47%N :: (table ++ 47%N :: u "schema")).
    rewrite !split_at_app, (split_at_no_separator 47%N table Ht).
    change (split_at 47%N (u "schema")) with [u "schema"].
    rewrite app_assoc, pop_last, pop_last. reflexivity.
  - intros pathname. unfold resource_table.
    pose proof (split_at_nonempty 47%N pathname) as Hne.
    destruct (exists_last Hne) as (init & x & Hs). rewrite Hs, pop_last.
    destruct (pop init) as [tableName rest].
    destruct (jsstring_eqb x SCHEMA_PATH) eqn:E.
    + apply jsstring_eqb_eq in E. subst x. split; [intros _|eexists; reflexivity].
      destruct (split_at_last _ _ _ _ Hs) as [[_ ->]|(prefix & ->)];
        [left; reflexivity | right; exists prefix; reflexivity].
    + split; [intros (t & H); discriminate|].
      intros [-> | (prefix & ->)]; exfalso.
      * cbn in Hs. destruct init as [|i init].
        -- injection Hs as <-. discriminate.
        -- destruct init; discriminate.
      * change (prefix ++ u "/schema")
          with (prefix ++ 47%N :: u "schema") in Hs.
        rewrite split_at_app in Hs.
        change (split_at 47%N (u "schema")) with [u "schema"] in Hs.
        apply app_inj_tail in Hs as [_ <-]. discriminate.
  - intros pathname_of db uri H. unfold readResource.
    destruct (bind_result (pathname_of uri) resource_table) as [t|e];
      [exfalso; exact (H t eq_refl)|].
    split; [reflexivity | exists e; reflexivity].
  - intros pathname_of db uri tableName v Ht Hc. unfold readResource.
    rewrite Ht, Hc. reflexivity.
Qed.

Lemma readResource_reads_the_table_name_witness :
  resource_table (u "/mydb/users/schema") = Ok (JString (u "users")).
Proof.
  exact (proj1 readResource_reads_the_table_name (u "/mydb") (u "users") eq_refl).
Defined.
